(** * FrostGuard gateway provisioning: a shallow embedding of
      [scripts/provision_gateway.py] and the properties of its
      reconciliation logic.

    The script talks to two remote services through [TTNClient._request],
    reads the clock and the process environment, prints to the console and
    writes files.  Those effects are kept explicit: a program is a finite
    tree of questions to the environment ([Ask]) and of outputs ([Tell]),
    and [run] executes it against an arbitrary environment while recording
    every interaction in order. *)

From stdpp Require Import gmap strings list fin_maps pretty.
From Stdlib Require Import ZArith Ascii Floats.PrimFloat.

Local Open Scope string_scope.
Local Open Scope list_scope.
Local Open Scope Z_scope.

#[local] Set Warnings "-register-all".

(* ===================================================================== *)
(** * Python values *)
(* ===================================================================== *)

(** A Python number as JSON carries it: an [int] or a [float]. *)
Inductive pynum : Type :=
| PInt (z : Z)
| PFloat (f : float).

(** The values [resp.json()] produces and [json=payload] consumes.  A Python
    [dict] with string keys is a finite map. *)
Inductive json : Type :=
| JNull
| JBool (b : bool)
| JNum (n : pynum)
| JStr (s : string)
| JArr (l : list json)
| JObj (d : gmap string json).

Abbreviation dict := (gmap string json).

(** [d.get(k, default)] *)
Definition get (d : dict) (k : string) (default : json) : json :=
  match d !! k with
  | Some v => v
  | None => default
  end.

(** [d.get(k)], which is [None] (JSON [null]) for a missing key. *)
Definition get_or_none (d : dict) (k : string) : json := get d k JNull.

(** Truth value of a number: [bool(x)]. *)
Definition num_truthy (n : pynum) : bool :=
  match n with
  | PInt z => negb (Z.eqb z 0)
  | PFloat f => negb (PrimFloat.eqb f 0%float)
  end.

(** Truth value of a JSON value: [bool(v)]. *)
Definition truthy (v : json) : bool :=
  match v with
  | JNull => false
  | JBool b => b
  | JNum n => num_truthy n
  | JStr s => negb (String.eqb s EmptyString)
  | JArr l => match l with [] => false | _ => true end
  | JObj d => negb (bool_decide (d = ∅))
  end.

(** [v != s] for a Python value [v] and a [str] [s]: a value that is not a
    string is never equal to a string. *)
Definition ne_str (v : json) (s : string) : bool :=
  match v with
  | JStr s' => negb (String.eqb s' s)
  | _ => true
  end.

(** An f-string, kept as its literal pieces and the values interpolated
    between them; Python's rendering of a value ([str], [json.dumps]) is not
    unfolded. *)
Inductive frag : Type :=
| Lit (s : string)              (* literal text, or an interpolated [str] *)
| FInt (z : Z)                  (* {n} for an int *)
| FNum (n : pynum)              (* {x} for a number *)
| FVal (v : json)               (* {v} for a value taken out of a response *)
| FDumps (d : dict).            (* {json.dumps(d, indent=2)} *)

Definition fstring := list frag.

(** ** [str] methods, on ASCII text *)

Definition ascii_lower (c : ascii) : ascii :=
  let n := N_of_ascii c in
  if ((65 <=? n) && (n <=? 90))%N then ascii_of_N (n + 32) else c.

Definition ascii_upper (c : ascii) : ascii :=
  let n := N_of_ascii c in
  if ((97 <=? n) && (n <=? 122))%N then ascii_of_N (n - 32) else c.

Fixpoint str_map (f : ascii -> ascii) (s : string) : string :=
  match s with
  | EmptyString => EmptyString
  | String c s' => String (f c) (str_map f s')
  end.

(** [s.lower()] *)
Definition lower (s : string) : string := str_map ascii_lower s.

(** [s.upper()] *)
Definition upper (s : string) : string := str_map ascii_upper s.

(** [s.replace(c, "")] for a one-character [c] *)
Fixpoint remove_char (c : ascii) (s : string) : string :=
  match s with
  | EmptyString => EmptyString
  | String a s' =>
      if Ascii.eqb a c then remove_char c s' else String a (remove_char c s')
  end.

(** [s[-n:]] for [n > 0]: the last [n] characters, all of [s] when it is
    shorter. *)
Definition last_chars (n : nat) (s : string) : string :=
  String.substring (String.length s - n)%nat n s.

(** White space as [str.strip()] sees it in ASCII text. *)
Definition is_space (c : ascii) : bool :=
  let n := N_of_ascii c in
  ((9 <=? n) && (n <=? 13) || (28 <=? n) && (n <=? 32))%N.

Fixpoint lstrip (s : string) : string :=
  match s with
  | EmptyString => EmptyString
  | String c s' => if is_space c then lstrip s' else s
  end.

Fixpoint rstrip (s : string) : string :=
  match s with
  | EmptyString => EmptyString
  | String c s' =>
      match rstrip s' with
      | EmptyString => if is_space c then EmptyString else String c EmptyString
      | r => String c r
      end
  end.

(** [s.strip()] *)
Definition strip (s : string) : string := rstrip (lstrip s).

(** [all(c in "0123456789ABCDEF" for c in s)] *)
Fixpoint all_upper_hex (s : string) : bool :=
  match s with
  | EmptyString => true
  | String c s' =>
      let n := N_of_ascii c in
      ((48 <=? n) && (n <=? 57) || (65 <=? n) && (n <=? 70))%N
      && all_upper_hex s'
  end.

(* ===================================================================== *)
(** * The two truths and the defaults *)
(* ===================================================================== *)

Definition IDENTITY_BASE_URL : string := "https://eu1.cloud.thethings.network".
Definition REGIONAL_BASE_URL : string := "https://nam1.cloud.thethings.network".
Definition NAM1_HOST : string := "nam1.cloud.thethings.network".

Definition DEFAULT_FREQUENCY_PLAN : string := "US_902_928_FSB_2".
Definition SCRIPT_VERSION : string := "fg-provision-gateway-v1.0-20260211".

(* ===================================================================== *)
(** * Transport: what goes over the wire and what comes back *)
(* ===================================================================== *)

(** The uniform result of [TTNClient._request]:
    [{"status": ..., "body": ..., "ok": ...}]. *)
Record Response : Type := mkResponse {
  status : Z;
  body : dict;
  ok : bool;
}.

(** What [requests] does with one call of [self.session.request] followed by
    [resp.json()]: it raises, or a response comes back. *)
Inductive RawResult : Type :=
| RequestException (e : string)
    (* a [requests.exceptions.RequestException], its [str(e)] *)
| JSONDecodeError (status_code : Z) (text : string)
    (* [resp.json()] raised a [json.JSONDecodeError] the first handler
       does not catch *)
| Resp (status_code : Z) (resp_ok : bool) (parsed : option dict).
    (* [resp.status_code], [resp.ok], and [resp.json()] when [resp.text] is
       not empty *)

(** One method call on [TTNClient], with the arguments it is given. *)
Inductive Call : Type :=
| GetGateway (gateway_id : string)
| RegisterGatewayForUser (user_id : string) (gateway : dict)
| RegisterGatewayForOrg (org_id : string) (gateway : dict)
| UpdateGateway (gateway_id : string) (gateway : dict) (field_mask : list string)
| DeleteGateway (gateway_id : string)
| PurgeGateway (gateway_id : string)
| CreateGatewayApiKey (gateway_id : string) (name : string) (rights : list string)
| ListGatewayApiKeys (gateway_id : string)
| GetGatewayConnectionStats (gateway_id : string).


Definition strs (l : list string) : json := JArr (JStr <$> l).


(** Which calls are addressed to the identity registry (EU1) and change it. *)
Definition is_register (c : Call) : bool :=
  match c with
  | RegisterGatewayForUser _ _ | RegisterGatewayForOrg _ _ => true
  | _ => false
  end.

Definition is_update (c : Call) : bool :=
  match c with UpdateGateway _ _ _ => true | _ => false end.

Definition is_delete (c : Call) : bool :=
  match c with DeleteGateway _ => true | _ => false end.

Definition is_purge (c : Call) : bool :=
  match c with PurgeGateway _ => true | _ => false end.

Definition is_create_key (c : Call) : bool :=
  match c with CreateGatewayApiKey _ _ _ => true | _ => false end.

Definition is_stats (c : Call) : bool :=
  match c with GetGatewayConnectionStats _ => true | _ => false end.

(* ===================================================================== *)
(** * Effects *)
(* ===================================================================== *)

(** [datetime.now(timezone.utc)], seen through the two renderings the script
    takes of it. *)
Record datetime : Type := mkDatetime {
  isoformat : string;        (* .isoformat() *)
  strftime_Ymd : string;     (* .strftime('%Y%m%d') *)
}.

(** Outcome of [from supabase import create_client] and [create_client]. *)
Inductive ClientResult : Type :=
| ClientOk
| ClientImportError
| ClientException (e : string).

(** Outcome of [supabase.table("gateways").upsert(...).execute()]:
    [bool(result.data)], or an exception. *)
Inductive UpsertResult : Type :=
| UpsertData (nonempty : bool)
| UpsertException (e : string).

(** Questions to the environment, indexed by the type of the answer. *)
Inductive Query : Type -> Type :=
| SessionRequest (api_key : string) (c : Call) : Query RawResult
| Now : Query datetime
| Getenv (name : string) : Query (option string)
| CreateClient (supabase_url supabase_key : string) : Query ClientResult
| Upsert (table : string) (data : dict) (on_conflict : string) : Query UpsertResult.

Inductive Level : Type := OK | FAIL | INFO | WARN.

(** A path built as [Path(parent) / name]. *)
Record path : Type := mkPath {
  dir : string;
  file : string;
}.

(** [str(Path(dir) / file)], for a [dir] written without a trailing
    separator; pathlib drops a leading [.]. *)
Definition str_path (p : path) : string :=
  if String.eqb (dir p) "." || String.eqb (dir p) EmptyString
  then file p
  else dir p ++ "/" ++ file p.

(** The provisioning log: the dict [_summary] builds, writes and returns. *)
Record StepResult : Type := mkStep {
  step : string;
  success : bool;
  message : fstring;
  data : dict;
  timestamp : string;
}.

Record Architecture : Type := mkArchitecture {
  identity_server : string;
  gateway_server : string;
  gateway_server_address : string;
}.

Record LogCredentials : Type := mkLogCredentials {
  lns_key_id : json;
  cups_key_id : json;
}.

Record Log : Type := mkLog {
  log_gateway_id : string;
  script_version : string;
  log_timestamp : string;
  architecture : Architecture;
  steps : list StepResult;
  credentials : LogCredentials;
}.

(** What the script lets out. *)
Inductive Out : Type :=
| Console (l : Level) (step : string) (msg : fstring)
    (* step_ok, step_fail, step_info, step_warn *)
| Print (msg : fstring)
    (* a bare [print] *)
| ConnectionInfo (gateway_id : string) (lns_key : json)
                 (cups_key : option json) (freq_plan : string)
    (* the text of [_print_connection_info], which shows parts of the keys *)
| WriteText (p : path) (content : fstring)
    (* [Path.write_text] of a key file *)
| WriteLog (p : path) (log : Log)
    (* [log_path.write_text(json.dumps(log, indent=2))] *)
| Sleep (seconds : Z).

(** A program: a finite tree of interactions ending in a result. *)
Inductive Prog (A : Type) : Type :=
| Ret (a : A)
| Ask {X : Type} (e : Query X) (k : X -> Prog A)
| Tell (o : Out) (k : Prog A).

Arguments Ret {A} a.
Arguments Ask {A X} e k.
Arguments Tell {A} o k.

Fixpoint bind {A B : Type} (m : Prog A) (f : A -> Prog B) : Prog B :=
  match m with
  | Ret a => f a
  | Ask e k => Ask e (fun x => bind (k x) f)
  | Tell o k => Tell o (bind k f)
  end.

Definition ask {X : Type} (e : Query X) : Prog X := Ask e Ret.
Definition tell (o : Out) : Prog unit := Tell o (Ret tt).

Declare Scope prog_scope.
Delimit Scope prog_scope with prog.
Bind Scope prog_scope with Prog.
Notation "x <- m ;; k" := (bind m (fun x => k))
  (at level 100, m at next level, right associativity) : prog_scope.
Notation "m ;; k" := (bind m (fun _ => k))
  (at level 100, right associativity) : prog_scope.
Local Open Scope prog_scope.

(** ** Running a program *)

(** One interaction, as it happened. *)
Inductive Event : Type :=
| EvHttp (api_key : string) (c : Call) (raw : RawResult)
| EvNow (d : datetime)
| EvGetenv (name : string) (v : option string)
| EvCreateClient (supabase_url supabase_key : string) (r : ClientResult)
| EvUpsert (table : string) (data : dict) (on_conflict : string) (r : UpsertResult)
| EvOut (o : Out).

Definition event_of {X : Type} (e : Query X) : X -> Event :=
  match e in Query X return X -> Event with
  | SessionRequest api_key c => EvHttp api_key c
  | Now => EvNow
  | Getenv name => EvGetenv name
  | CreateClient u k => EvCreateClient u k
  | Upsert t d o => EvUpsert t d o
  end.

(** An environment: some state of the world, and an answer to every
    question that may change that state. *)
Record Env : Type := mkEnv {
  world : Type;
  answer : forall X : Type, Query X -> world -> X * world;
}.

Record Outcome (E : Env) (A : Type) : Type := mkOutcome {
  result : A;
  final : world E;
  trace : list Event;
}.

Arguments mkOutcome {E A} result final trace.
Arguments result {E A} o.
Arguments final {E A} o.
Arguments trace {E A} o.

Fixpoint run {A : Type} (E : Env) (p : Prog A) (w : world E) : Outcome E A :=
  match p with
  | Ret a => mkOutcome a w []
  | Ask e k =>
      let xw := answer E _ e w in
      let o := run E (k (fst xw)) (snd xw) in
      mkOutcome (result o) (final o) (event_of e (fst xw) :: trace o)
  | Tell out k =>
      let o := run E k w in
      mkOutcome (result o) (final o) (EvOut out :: trace o)
  end.

(* ===================================================================== *)
(** * Console helpers *)
(* ===================================================================== *)

Definition step_ok (step : string) (msg : fstring) : Prog unit :=
  tell (Console OK step msg).
Definition step_fail (step : string) (msg : fstring) : Prog unit :=
  tell (Console FAIL step msg).
Definition step_info (step : string) (msg : fstring) : Prog unit :=
  tell (Console INFO step msg).
Definition step_warn (step : string) (msg : fstring) : Prog unit :=
  tell (Console WARN step msg).

(* ===================================================================== *)
(** * TTN HTTP helper *)
(* ===================================================================== *)

Module TTNClient.

(** The client holds the API key its session sends as a bearer token. *)
Record t : Type := __init__ { api_key : string }.

(** The three ways out of [_request]. *)
Definition response_of (raw : RawResult) : Response :=
  match raw with
  | Resp status_code resp_ok parsed =>
      mkResponse status_code (default ∅ parsed) resp_ok
  | RequestException e =>
      mkResponse 0 {[ "error" := JStr e ]} false
  | JSONDecodeError status_code text =>
      mkResponse status_code {[ "raw" := JStr text ]} false
  end.

Definition _request (self : t) (c : Call) : Prog Response :=
  raw <- ask (SessionRequest (api_key self) c) ;;
  Ret (response_of raw).

Definition get_gateway (self : t) (gateway_id : string) : Prog Response :=
  _request self (GetGateway gateway_id).

Definition register_gateway_for_user (self : t) (user_id : string)
    (gateway : dict) : Prog Response :=
  _request self (RegisterGatewayForUser user_id gateway).

Definition register_gateway_for_org (self : t) (org_id : string)
    (gateway : dict) : Prog Response :=
  _request self (RegisterGatewayForOrg org_id gateway).

Definition update_gateway (self : t) (gateway_id : string) (gateway : dict)
    (field_mask : list string) : Prog Response :=
  _request self (UpdateGateway gateway_id gateway field_mask).

Definition delete_gateway (self : t) (gateway_id : string) : Prog Response :=
  _request self (DeleteGateway gateway_id).

Definition purge_gateway (self : t) (gateway_id : string) : Prog Response :=
  _request self (PurgeGateway gateway_id).

Definition create_gateway_api_key (self : t) (gateway_id name : string)
    (rights : list string) : Prog Response :=
  _request self (CreateGatewayApiKey gateway_id name rights).

Definition list_gateway_api_keys (self : t) (gateway_id : string)
    : Prog Response :=
  _request self (ListGatewayApiKeys gateway_id).

Definition get_gateway_connection_stats (self : t) (gateway_id : string)
    : Prog Response :=
  _request self (GetGatewayConnectionStats gateway_id).

End TTNClient.

(* ===================================================================== *)
(** * Provisioning steps *)
(* ===================================================================== *)

(** Truth value of an optional [str] ([None] and the empty string are
    false). *)
Definition str_truthy (s : option string) : bool :=
  match s with
  | Some s => negb (String.eqb s EmptyString)
  | None => false
  end.

Module GatewayProvisioner.

(** The provisioner: its client, and the step results recorded so far
    ([self.results]). *)
Record t : Type := mk {
  client : TTNClient.t;
  results : list StepResult;
}.

Definition __init__ (api_key : string) : t :=
  mk (TTNClient.__init__ api_key) [].

Definition _record (self : t) (step : string) (success : bool)
    (msg : fstring) (data : option dict) : Prog t :=
  now <- ask Now ;;
  let self :=
    mk (client self)
       (results self
        ++ [mkStep step success msg (default ∅ data) (isoformat now)]) in
  (if success then step_ok step msg else step_fail step msg) ;;
  Ret self.

(** The parameters of [provision]. *)
Record Args : Type := mkArgs {
  gateway_id : string;
  gateway_eui : string;
  name : string;
  owner_id : string;
  owner_type : string;
  frequency_plan : string;
  latitude : option pynum;
  longitude : option pynum;
  altitude : option pynum;
  location_public : bool;
  status_public : bool;
  enforce_duty_cycle : bool;
  require_authenticated : bool;
  generate_lns_key : bool;
  generate_cups_key : bool;
  output_dir : string;
  fg_org_id : option string;
  fg_site_id : option string;
}.

(** [provision] called with the four required parameters only: every
    other one takes its default. *)
Definition default_args (gateway_id gateway_eui name owner_id : string)
    : Args :=
  mkArgs gateway_id gateway_eui name owner_id "user" DEFAULT_FREQUENCY_PLAN
         None None None false false true true true false "." None None.

Definition _summary (self : t) (gateway_id : string) (credentials : dict)
    : Prog Log :=
  let success_count := length (filter (fun r => success r = true) (results self)) in
  let total_count := length (results self) in
  tell (Print [Lit "Summary: "; FInt (Z.of_nat success_count); Lit "/";
               FInt (Z.of_nat total_count); Lit " steps succeeded"]) ;;
  now <- ask Now ;;
  let log :=
    mkLog gateway_id SCRIPT_VERSION (isoformat now)
          (mkArchitecture IDENTITY_BASE_URL REGIONAL_BASE_URL NAM1_HOST)
          (results self)
          (mkLogCredentials (get_or_none credentials "lns_key_id")
                            (get_or_none credentials "cups_key_id")) in
  let log_path := mkPath "." (gateway_id ++ "_provision_log.json") in
  tell (WriteLog log_path log) ;;
  step_info "Log" [Lit "Provisioning log saved: "; Lit (str_path log_path)] ;;
  Ret log.

Definition _store_in_supabase (gateway_id gateway_eui name : string)
    (fg_org_id : string) (fg_site_id : option string)
    (frequency_plan : string) : Prog bool :=
  supabase_url <- ask (Getenv "SUPABASE_URL") ;;
  supabase_key <- ask (Getenv "SUPABASE_SERVICE_ROLE_KEY") ;;
  match supabase_url, supabase_key with
  | Some u, Some k =>
      if String.eqb u EmptyString || String.eqb k EmptyString then
        step_warn "DB"
          [Lit "SUPABASE_URL or SUPABASE_SERVICE_ROLE_KEY not set"] ;;
        Ret false
      else
        c <- ask (CreateClient u k) ;;
        match c with
        | ClientImportError =>
            step_warn "DB"
              [Lit "supabase package not installed. pip install supabase"] ;;
            Ret false
        | ClientException e =>
            step_warn "DB" [Lit "Supabase error: "; Lit e] ;;
            Ret false
        | ClientOk =>
            now <- ask Now ;;
            let data : dict :=
              <[ "organization_id" := JStr fg_org_id ]>
              (<[ "gateway_eui" := JStr gateway_eui ]>
              (<[ "name" := JStr name ]>
              (<[ "ttn_gateway_id" := JStr gateway_id ]>
              (<[ "status" := JStr "pending" ]>
              (<[ "ttn_registered_at" := JStr (isoformat now) ]>
              {[ "description" :=
                   JStr ("Provisioned via " ++ SCRIPT_VERSION ++ " | freq: "
                         ++ frequency_plan ++ " | cluster: nam1") ]}))))) in
            let data :=
              match fg_site_id with
              | Some site =>
                  if str_truthy fg_site_id
                  then <[ "site_id" := JStr site ]> data else data
              | None => data
              end in
            r <- ask (Upsert "gateways" data "organization_id,gateway_eui") ;;
            match r with
            | UpsertData nonempty => Ret nonempty
            | UpsertException e =>
                step_warn "DB" [Lit "Supabase error: "; Lit e] ;;
                Ret false
            end
        end
  | _, _ =>
      step_warn "DB"
        [Lit "SUPABASE_URL or SUPABASE_SERVICE_ROLE_KEY not set"] ;;
      Ret false
  end.

Definition _print_connection_info (gateway_id : string) (credentials : dict)
    (freq_plan : string) : Prog unit :=
  let lns_key := get credentials "lns_key" (JStr "N/A") in
  let cups_key :=
    if truthy (get_or_none credentials "cups_key")
    then credentials !! "cups_key" else None in
  tell (ConnectionInfo gateway_id lns_key cups_key freq_plan).

(** Step 1: check if the gateway already exists. *)
Definition provision_step1 (self : t) (a : Args) : Prog (Response * t) :=
  step_info "Step 1"
    [Lit "Checking if gateway already exists on EU1 Identity Server..."] ;;
  existing <- TTNClient.get_gateway (client self) (gateway_id a) ;;
  if ok existing then
    step_warn "Step 1"
      [Lit "Gateway '"; Lit (gateway_id a);
       Lit "' already exists. Skipping registration."] ;;
    self <- _record self "check_existing" true
              [Lit "Gateway already registered"] (Some (body existing)) ;;
    Ret (existing, self)
  else if status existing =? 404 then
    step_ok "Step 1" [Lit "Gateway not found — ready to register"] ;;
    Ret (existing, self)
  else
    step_warn "Step 1"
      [Lit "Unexpected response ("; FInt (status existing); Lit "): ";
       FVal (JObj (body existing))] ;;
    Ret (existing, self).

(** The registration payload of step 2. *)
Definition gateway_payload (a : Args) : dict :=
  <[ "ids" := JObj (<[ "gateway_id" := JStr (gateway_id a) ]>
                    {[ "eui" := JStr (gateway_eui a) ]}) ]>
  (<[ "name" := JStr (name a) ]>
  (<[ "frequency_plan_ids" := JArr [JStr (frequency_plan a)] ]>
  (<[ "gateway_server_address" := JStr NAM1_HOST ]>
  (<[ "enforce_duty_cycle" := JBool (enforce_duty_cycle a) ]>
  (<[ "require_authenticated_connection" := JBool (require_authenticated a) ]>
  (<[ "status_public" := JBool (status_public a) ]>
  {[ "location_public" := JBool (location_public a) ]})))))).

(** Step 2: register the gateway, or check the pointer of an existing one.
    [inl] is the early [return self._summary(...)] of a failed
    registration, [inr] goes on to step 3. *)
Definition provision_step2 (self : t) (a : Args) (existing : Response)
    : Prog (t + t) :=
  if negb (ok existing) then
    step_info "Step 2"
      [Lit "Registering gateway under "; Lit (owner_type a); Lit " '";
       Lit (owner_id a); Lit "' on EU1..."] ;;
    result <-
      (if String.eqb (owner_type a) "org"
       then TTNClient.register_gateway_for_org (client self) (owner_id a)
              (gateway_payload a)
       else TTNClient.register_gateway_for_user (client self) (owner_id a)
              (gateway_payload a)) ;;
    if ok result then
      self <- _record self "register" true
                [Lit "Gateway registered on EU1 → gateway_server_address: ";
                 Lit NAM1_HOST]
                (Some (body result)) ;;
      Ret (inr self)
    else
      self <- _record self "register" false
                [Lit "Registration failed ("; FInt (status result);
                 Lit "): "; FDumps (body result)]
                None ;;
      Ret (inl self)
  else
    let gw_data := body existing in
    let gw_server := get gw_data "gateway_server_address" (JStr EmptyString) in
    if ne_str gw_server NAM1_HOST then
      step_warn "Step 2"
        [Lit "gateway_server_address is '"; FVal gw_server;
         Lit "', updating to '"; Lit NAM1_HOST; Lit "'..."] ;;
      update_result <-
        TTNClient.update_gateway (client self) (gateway_id a)
          {[ "gateway_server_address" := JStr NAM1_HOST ]}
          ["gateway_server_address"] ;;
      if ok update_result then
        self <- _record self "update_server_address" true
                  [Lit "Updated gateway_server_address → "; Lit NAM1_HOST]
                  None ;;
        Ret (inr self)
      else
        self <- _record self "update_server_address" false
                  [Lit "Failed to update: "; FVal (JObj (body update_result))]
                  None ;;
        Ret (inr self)
    else
      step_ok "Step 2"
        [Lit "gateway_server_address already correct: "; Lit NAM1_HOST] ;;
      Ret (inr self).

(** [altitude or 0] *)
Definition altitude_or_0 (altitude : option pynum) : pynum :=
  match altitude with
  | Some x => if num_truthy x then x else PInt 0
  | None => PInt 0
  end.

(** The payload of step 3. *)
Definition location_payload (latitude longitude : pynum)
    (altitude : option pynum) : dict :=
  {[ "antennas" :=
       JArr [JObj {[ "location" :=
         JObj (<[ "latitude" := JNum latitude ]>
              (<[ "longitude" := JNum longitude ]>
              (<[ "altitude" := JNum (altitude_or_0 altitude) ]>
              {[ "source" := JStr "SOURCE_REGISTRY" ]}))) ]}] ]}.

(** Step 3: set the antenna location (optional). *)
Definition provision_step3 (self : t) (a : Args) : Prog t :=
  match latitude a, longitude a with
  | Some lat, Some lon =>
      step_info "Step 3" [Lit "Setting antenna location..."] ;;
      loc_result <-
        TTNClient.update_gateway (client self) (gateway_id a)
          (location_payload lat lon (altitude a)) ["antennas"] ;;
      if ok loc_result then
        _record self "set_location" true
          [Lit "Location set: "; FNum lat; Lit ", "; FNum lon; Lit ", alt ";
           FNum (altitude_or_0 (altitude a)); Lit "m"]
          None
      else
        _record self "set_location" false
          [Lit "Failed: "; FVal (JObj (body loc_result))] None
  | _, _ =>
      step_info "Step 3" [Lit "No location provided — skipping"] ;;
      Ret self
  end.

(** Step 4: create the LNS API key and write its key file. *)
Definition provision_step4 (self : t) (a : Args) (credentials : dict)
    : Prog (t * dict) :=
  if generate_lns_key a then
    step_info "Step 4" [Lit "Creating LNS API key (RIGHT_GATEWAY_LINK)..."] ;;
    now <- ask Now ;;
    lns_result <-
      TTNClient.create_gateway_api_key (client self) (gateway_id a)
        ("FrostGuard LNS Key - " ++ strftime_Ymd now)
        ["RIGHT_GATEWAY_LINK"] ;;
    if ok lns_result then
      let lns_key := get (body lns_result) "key" (JStr EmptyString) in
      let lns_key_id := get (body lns_result) "id" (JStr EmptyString) in
      let credentials := <[ "lns_key" := lns_key ]> credentials in
      let credentials := <[ "lns_key_id" := lns_key_id ]> credentials in
      self <- _record self "create_lns_key" true
                [Lit "LNS key created (ID: "; FVal lns_key_id; Lit ")"]
                None ;;
      let lns_key_path := mkPath (output_dir a) (gateway_id a ++ "_lns.key") in
      tell (WriteText lns_key_path
              [Lit "Authorization: Bearer "; FVal lns_key;
               Lit (String "013" (String "010" EmptyString))]) ;;
      step_ok "Step 4b"
        [Lit "LNS key file written: "; Lit (str_path lns_key_path)] ;;
      let credentials :=
        <[ "lns_key_file" := JStr (str_path lns_key_path) ]> credentials in
      Ret (self, credentials)
    else
      self <- _record self "create_lns_key" false
                [Lit "Failed: "; FVal (JObj (body lns_result))] None ;;
      Ret (self, credentials)
  else Ret (self, credentials).

(** Step 5: create the CUPS API key (optional). *)
Definition provision_step5 (self : t) (a : Args) (credentials : dict)
    : Prog (t * dict) :=
  if generate_cups_key a then
    step_info "Step 5" [Lit "Creating CUPS API key..."] ;;
    let cups_rights :=
      ["RIGHT_GATEWAY_INFO"; "RIGHT_GATEWAY_SETTINGS_BASIC";
       "RIGHT_GATEWAY_READ_SECRETS"] in
    now <- ask Now ;;
    cups_result <-
      TTNClient.create_gateway_api_key (client self) (gateway_id a)
        ("FrostGuard CUPS Key - " ++ strftime_Ymd now)
        cups_rights ;;
    if ok cups_result then
      let cups_key := get (body cups_result) "key" (JStr EmptyString) in
      let cups_key_id := get (body cups_result) "id" (JStr EmptyString) in
      let credentials := <[ "cups_key" := cups_key ]> credentials in
      let credentials := <[ "cups_key_id" := cups_key_id ]> credentials in
      self <- _record self "create_cups_key" true
                [Lit "CUPS key created (ID: "; FVal cups_key_id; Lit ")"]
                None ;;
      let cups_key_path := mkPath (output_dir a) (gateway_id a ++ "_cups.key") in
      tell (WriteText cups_key_path
              [Lit "Authorization: Bearer "; FVal cups_key;
               Lit (String "013" (String "010" EmptyString))]) ;;
      step_ok "Step 5b"
        [Lit "CUPS key file written: "; Lit (str_path cups_key_path)] ;;
      let credentials :=
        <[ "cups_key_file" := JStr (str_path cups_key_path) ]> credentials in
      Ret (self, credentials)
    else
      self <- _record self "create_cups_key" false
                [Lit "Failed: "; FVal (JObj (body cups_result))] None ;;
      Ret (self, credentials)
  else
    step_info "Step 5"
      [Lit "CUPS key generation skipped (use --cups to enable)"] ;;
    Ret (self, credentials).

(** Step 6: verify that the gateway is reachable on NAM1. *)
Definition provision_step6 (self : t) (a : Args) : Prog t :=
  step_info "Step 6" [Lit "Checking gateway status on NAM1 Gateway Server..."] ;;
  tell (Sleep 1) ;;
  stats <- TTNClient.get_gateway_connection_stats (client self) (gateway_id a) ;;
  if ok stats then
    _record self "verify_nam1" true [Lit "Gateway is connected on NAM1!"] None
  else if status stats =? 404 then
    _record self "verify_nam1" true
      [Lit "Gateway registered but not yet connected (expected — connect your hardware)"]
      None
  else
    _record self "verify_nam1" false
      [Lit "Could not verify on NAM1 ("; FInt (status stats); Lit "): ";
       FVal (JObj (body stats))]
      None.

(** Step 7: store the gateway in the FrostGuard database (Supabase). *)
Definition provision_step7 (self : t) (a : Args) : Prog t :=
  match fg_org_id a with
  | Some org =>
      if str_truthy (fg_org_id a) then
        step_info "Step 7"
          [Lit "Storing gateway config in FrostGuard database..."] ;;
        db_result <-
          _store_in_supabase (gateway_id a) (gateway_eui a) (name a) org
            (fg_site_id a) (frequency_plan a) ;;
        if db_result then
          _record self "store_db" true [Lit "Gateway stored in FrostGuard DB"]
            None
        else
          _record self "store_db" false
            [Lit "Failed to store in FrostGuard DB (check Supabase credentials)"]
            None
      else
        step_info "Step 7"
          [Lit "No FrostGuard org_id provided — skipping DB storage"] ;;
        Ret self
  | None =>
      step_info "Step 7"
        [Lit "No FrostGuard org_id provided — skipping DB storage"] ;;
      Ret self
  end.

(** Steps 3 to 8, run once the gateway record is known to exist. *)
Definition provision_steps_3_to_8 (self : t) (a : Args) (credentials : dict)
    : Prog Log :=
  self <- provision_step3 self a ;;
  sc <- provision_step4 self a credentials ;;
  sc <- provision_step5 (fst sc) a (snd sc) ;;
  self <- provision_step6 (fst sc) a ;;
  self <- provision_step7 self a ;;
  _print_connection_info (gateway_id a) (snd sc) (frequency_plan a) ;;
  _summary self (gateway_id a) (snd sc).

(** Steps 1 and 2: find out whether the gateway exists and bring its
    record to the desired state. *)
Definition provision_steps_1_and_2 (self : t) (a : Args) : Prog (t + t) :=
  es <- provision_step1 self a ;;
  provision_step2 (snd es) a (fst es).

(** The full gateway provisioning flow. *)
Definition provision (self : t) (a : Args) : Prog Log :=
  tell (Print [Lit "Provisioning gateway: "; Lit (gateway_id a)]) ;;
  tell (Print [Lit "  EUI: "; Lit (gateway_eui a); Lit " | Owner: ";
               Lit (owner_type a); Lit "/"; Lit (owner_id a)]) ;;
  tell (Print [Lit "  Frequency: "; Lit (frequency_plan a);
               Lit " | Region: NAM1"]) ;;
  let credentials : dict := ∅ in
  r <- provision_steps_1_and_2 self a ;;
  match r with
  | inl self => _summary self (gateway_id a) credentials
  | inr self => provision_steps_3_to_8 self a credentials
  end.

End GatewayProvisioner.

(* ===================================================================== *)
(** * Deprovisioning *)
(* ===================================================================== *)

(** Remove a gateway from TTN, in the safe deletion order. *)
Definition deprovision_gateway (api_key gateway_id : string) (purge : bool)
    : Prog bool :=
  let client := TTNClient.__init__ api_key in
  tell (Print [Lit "Deprovisioning gateway: "; Lit gateway_id]) ;;
  (* Step 1: check it exists *)
  check <- TTNClient.get_gateway client gateway_id ;;
  if negb (ok check) then
    step_fail "Check" [Lit "Gateway not found: "; FVal (JObj (body check))] ;;
    Ret false
  else
    step_ok "Check"
      [Lit "Found gateway: "; FVal (get (body check) "name" (JStr gateway_id))] ;;
    (* Step 2: delete *)
    delete <- TTNClient.delete_gateway client gateway_id ;;
    if ok delete || (status delete =? 200) then
      step_ok "Delete" [Lit "Gateway soft-deleted from Identity Server"] ;;
      (* Step 4: verify *)
      let verify_and_finish : Prog bool :=
        verify <- TTNClient.get_gateway client gateway_id ;;
        (if status verify =? 404
         then step_ok "Verify" [Lit "Gateway confirmed removed"]
         else step_warn "Verify"
                [Lit "Gateway may still exist (status: "; FInt (status verify);
                 Lit ")"]) ;;
        tell (Print [Lit "Gateway '"; Lit gateway_id;
                     Lit "' deprovisioned successfully."]) ;;
        Ret true in
      (* Step 3: purge (hard delete) *)
      if purge then
        tell (Sleep 1) ;;
        purge_result <- TTNClient.purge_gateway client gateway_id ;;
        if ok purge_result || (status purge_result =? 200) then
          step_ok "Purge" [Lit "Gateway hard-deleted (EUI released for reuse)"] ;;
          verify_and_finish
        else
          step_fail "Purge" [Lit "Failed: "; FVal (JObj (body purge_result))] ;;
          Ret false
      else verify_and_finish
    else
      step_fail "Delete" [Lit "Failed: "; FVal (JObj (body delete))] ;;
      Ret false.

(* ===================================================================== *)
(** * Entry points: the gateway id when none is given *)
(* ===================================================================== *)

(** [main], direct provisioning with flags:
    [args.gateway_id or f"fg-gw-{args.gateway_eui[-8:].lower()}"]. *)
Definition main_gateway_id (args_gateway_id : option string)
    (args_gateway_eui : string) : string :=
  match args_gateway_id with
  | Some s =>
      if str_truthy args_gateway_id then s
      else "fg-gw-" ++ lower (last_chars 8 args_gateway_eui)
  | None => "fg-gw-" ++ lower (last_chars 8 args_gateway_eui)
  end.

(** [interactive_provision]: the EUI as typed is stripped, upper-cased and
    freed of colons and spaces, and refused ([None]: the wizard prints an
    error and returns) unless 16 hex characters are left. *)
Definition interactive_gateway_eui (typed : string) : option string :=
  let gateway_eui := remove_char " " (remove_char ":" (upper (strip typed))) in
  if negb (Nat.eqb (String.length gateway_eui) 16)
     || negb (all_upper_hex gateway_eui)
  then None
  else Some gateway_eui.

(** [interactive_provision]: the id typed at the prompt, or [default_id]
    when the answer is empty. *)
Definition interactive_gateway_id (gateway_eui typed : string) : string :=
  let default_id := ("fg-gw-" ++ lower (last_chars 8 gateway_eui))%string in
  if String.eqb (strip typed) EmptyString then default_id else strip typed.

(** [batch_provision]:
    [gw.get("gateway_id", f"fg-gw-{gw['gateway_eui'][-8:].lower()}")].
    The default is computed first, so a missing EUI (or one that is not a
    [str]) raises: [None]. *)
Definition batch_gateway_id (gw : dict) : option json :=
  match gw !! "gateway_eui" with
  | Some (JStr gateway_eui) =>
      Some (get gw "gateway_id"
              (JStr ("fg-gw-" ++ lower (last_chars 8 gateway_eui))))
  | _ => None
  end.

(* ===================================================================== *)
(** * Reading a trace *)
(* ===================================================================== *)

(** The HTTP exchanges of a run, in order, each with the response
    [_request] made of it. *)
Fixpoint calls (t : list Event) : list (Call * Response) :=
  match t with
  | [] => []
  | EvHttp _ c raw :: t' => (c, TTNClient.response_of raw) :: calls t'
  | _ :: t' => calls t'
  end.

(** Everything the run let out, in order. *)
Fixpoint outputs (t : list Event) : list Out :=
  match t with
  | [] => []
  | EvOut o :: t' => o :: outputs t'
  | _ :: t' => outputs t'
  end.

(** The provisioning logs written to disk. *)
Fixpoint written_logs (t : list Event) : list (path * Log) :=
  match t with
  | [] => []
  | EvOut (WriteLog p l) :: t' => (p, l) :: written_logs t'
  | _ :: t' => written_logs t'
  end.

(** The key files written to disk. *)
Fixpoint written_files (t : list Event) : list (path * fstring) :=
  match t with
  | [] => []
  | EvOut (WriteText p c) :: t' => (p, c) :: written_files t'
  | _ :: t' => written_files t'
  end.

(** The step lines shown on the console. *)
Fixpoint console (t : list Event) : list (Level * string * fstring) :=
  match t with
  | [] => []
  | EvOut (Console l s m) :: t' => (l, s, m) :: console t'
  | _ :: t' => console t'
  end.

(** An update of the pointer: a [PUT] whose field mask names
    [gateway_server_address]. *)
Definition touches_pointer (c : Call) : bool :=
  match c with
  | UpdateGateway _ _ field_mask =>
      bool_decide ("gateway_server_address" ∈ field_mask)
  | _ => false
  end.

(** The calls of steps 3 to 6: they leave the pointer of the record alone. *)
Definition after_reconcile (c : Call) : bool :=
  match c with
  | UpdateGateway _ _ field_mask => bool_decide (field_mask = ["antennas"])
  | CreateGatewayApiKey _ _ _ => true
  | GetGatewayConnectionStats _ => true
  | _ => false
  end.

(** The steps of the reconcile phase. *)
Definition reconcile_step (s : StepResult) : bool :=
  String.eqb (step s) "register" || String.eqb (step s) "update_server_address".

(** A run log whose reconcile phase recorded no failure. *)
Definition reconciled (l : Log) : bool :=
  forallb (fun s => negb (reconcile_step s) || success s) (steps l).

(** What a program guarantees against every environment: [post p Q] says
    that [Q] holds of the result and the trace, whatever is answered. *)
Fixpoint post {A : Type} (p : Prog A) (Q : A -> list Event -> Prop) : Prop :=
  match p with
  | Ret a => Q a []
  | Ask e k => forall x, post (k x) (fun a t => Q a (event_of e x :: t))
  | Tell o k => post k (fun a t => Q a (EvOut o :: t))
  end.

(* ===================================================================== *)
(** * Environments *)
(* ===================================================================== *)

(** ** A scripted environment

    The HTTP answers are read off a list, in order; the clock stands still,
    no environment variable is set. *)

Definition epoch : datetime := mkDatetime "2026-02-11T00:00:00+00:00" "20260211".

Definition scripted_answer (X : Type) (e : Query X) : list RawResult -> X * list RawResult :=
  match e in Query X return list RawResult -> X * list RawResult with
  | SessionRequest _ _ => fun w =>
      match w with
      | raw :: w' => (raw, w')
      | [] => (RequestException "connection refused", [])
      end
  | Now => fun w => (epoch, w)
  | Getenv _ => fun w => (None, w)
  | CreateClient _ _ => fun w => (ClientImportError, w)
  | Upsert _ _ _ => fun w => (UpsertData true, w)
  end.

Definition scripted : Env := mkEnv (list RawResult) scripted_answer.

(** ** The two remote services *)

(** Modelled from the spec: the identity registry (EU1) and the radio-plane
    server (NAM1) are remote collaborators of the script, not part of the
    repository.  The registry holds one record per gateway id, ids are
    unique (a soft-deleted id stays reserved until purged), a registration
    stores the payload it is given, and a partial update sets exactly the
    fields its field mask names and leaves all others untouched. *)
Record Registry : Type := mkRegistry {
  gateways : gmap string dict;        (* live records, by gateway id *)
  deleted : gset string;              (* soft-deleted ids, not yet purged *)
  api_keys : gmap string (list dict); (* keys issued, by gateway id *)
  issued : nat;                       (* how many keys were issued so far *)
  connected : gset string;            (* gateways with a live session on NAM1 *)
}.

(** Field-mask update: each path of the mask takes the payload's value, or
    is cleared when the payload has none. *)
Definition apply_mask (field_mask : list string) (gateway record : dict) : dict :=
  foldr (fun p r => match gateway !! p with
                    | Some v => <[ p := v ]> r
                    | None => delete p r
                    end)
        record field_mask.

Definition not_found : RawResult :=
  Resp 404 false (Some {[ "message" := JStr "entity not found" ]}).
Definition bad_request : RawResult :=
  Resp 400 false (Some {[ "message" := JStr "invalid request" ]}).
Definition conflict : RawResult :=
  Resp 409 false (Some {[ "message" := JStr "ID already taken" ]}).

Definition registry_register (gateway : dict) (s : Registry)
    : RawResult * Registry :=
  match gateway !! "ids" with
  | Some (JObj ids) =>
      match ids !! "gateway_id" with
      | Some (JStr gateway_id) =>
          if bool_decide (is_Some (gateways s !! gateway_id))
             || bool_decide (gateway_id ∈ deleted s)
          then (conflict, s)
          else (Resp 201 true (Some gateway),
                mkRegistry (<[ gateway_id := gateway ]> (gateways s))
                           (deleted s) (api_keys s) (issued s) (connected s))
      | _ => (bad_request, s)
      end
  | _ => (bad_request, s)
  end.

(** One call served by the two services. *)
Definition registry_step (c : Call) (s : Registry) : RawResult * Registry :=
  match c with
  | GetGateway gateway_id =>
      match gateways s !! gateway_id with
      | Some record => (Resp 200 true (Some record), s)
      | None => (not_found, s)
      end
  | RegisterGatewayForUser _ gateway => registry_register gateway s
  | RegisterGatewayForOrg _ gateway => registry_register gateway s
  | UpdateGateway gateway_id gateway field_mask =>
      match gateways s !! gateway_id with
      | Some record =>
          let record' := apply_mask field_mask gateway record in
          (Resp 200 true (Some record'),
           mkRegistry (<[ gateway_id := record' ]> (gateways s))
                      (deleted s) (api_keys s) (issued s) (connected s))
      | None => (not_found, s)
      end
  | DeleteGateway gateway_id =>
      match gateways s !! gateway_id with
      | Some _ =>
          (Resp 200 true None,
           mkRegistry (delete gateway_id (gateways s))
                      ({[ gateway_id ]} ∪ deleted s)
                      (api_keys s) (issued s) (connected s))
      | None => (not_found, s)
      end
  | PurgeGateway gateway_id =>
      if bool_decide (gateway_id ∈ deleted s) then
        (Resp 200 true None,
         mkRegistry (gateways s) (deleted s ∖ {[ gateway_id ]})
                    (delete gateway_id (api_keys s)) (issued s) (connected s))
      else (not_found, s)
  | CreateGatewayApiKey gateway_id name rights =>
      match gateways s !! gateway_id with
      | Some _ =>
          let key_id := ("KEY" ++ pretty (issued s))%string in
          let public : dict :=
            <[ "id" := JStr key_id ]>
            (<[ "name" := JStr name ]> {[ "rights" := strs rights ]}) in
          (Resp 200 true
             (Some (<[ "key" := JStr ("NNSXS." ++ pretty (issued s)) ]> public)),
           mkRegistry (gateways s) (deleted s)
                      (<[ gateway_id :=
                            default [] (api_keys s !! gateway_id) ++ [public] ]>
                         (api_keys s))
                      (S (issued s)) (connected s))
      | None => (not_found, s)
      end
  | ListGatewayApiKeys gateway_id =>
      match gateways s !! gateway_id with
      | Some _ =>
          (Resp 200 true
             (Some {[ "api_keys" :=
                        JArr (JObj <$> default [] (api_keys s !! gateway_id)) ]}),
           s)
      | None => (not_found, s)
      end
  | GetGatewayConnectionStats gateway_id =>
      if bool_decide (gateway_id ∈ connected s)
      then (Resp 200 true (Some {[ "protocol" := JStr "ws" ]}), s)
      else (not_found, s)
  end.

(** The pointer the registry holds for a gateway. *)
Definition server_pointer (s : Registry) (gateway_id : string) : option json :=
  gateways s !! gateway_id ≫= fun record => record !! "gateway_server_address".

(** A call that does not get its answer: the transport raises, the body
    does not parse, or the service refuses.  A failed call may or may not
    have taken effect on the service ([applied]). *)
Inductive Failure : Type :=
| Raises (e : string)
| Garbled (status_code : Z) (text : string)
| Refused (status_code : Z) (parsed : option dict).

Definition raw_of_failure (f : Failure) : RawResult :=
  match f with
  | Raises e => RequestException e
  | Garbled status_code text => JSONDecodeError status_code text
  | Refused status_code parsed => Resp status_code false parsed
  end.

Record Fault : Type := mkFault {
  failure : Failure;
  applied : bool;
}.

(** The world of a run against the two services: their state, the number
    of HTTP calls made so far, and the rest of the world (clock, process
    environment, database) as some other environment [E0] has it. *)
Record RWorld (E0 : Env) : Type := mkRWorld {
  registry : Registry;
  asked : nat;
  base : world E0;
}.

Arguments mkRWorld {E0} registry asked base.
Arguments registry {E0} r.
Arguments asked {E0} r.
Arguments base {E0} r.

Definition lift_base {E0 : Env} {X : Type} (e : Query X) (w : RWorld E0)
    : X * RWorld E0 :=
  let xb := answer E0 X e (base w) in
  (fst xb, mkRWorld (registry w) (asked w) (snd xb)).

(** One call served with the fault, if any, that [faults] plans for the
    [n]-th call. *)
Definition serve_registry (faults : nat -> option Fault) (n : nat) (c : Call)
    (s : Registry) : RawResult * Registry :=
  let rs := registry_step c s in
  match faults n with
  | None => rs
  | Some f => (raw_of_failure (failure f), if applied f then snd rs else s)
  end.

Definition serve {E0 : Env} (faults : nat -> option Fault) (c : Call)
    (w : RWorld E0) : RawResult * RWorld E0 :=
  let rs := serve_registry faults (asked w) c (registry w) in
  (fst rs, mkRWorld (snd rs) (S (asked w)) (base w)).

Definition services_answer (E0 : Env) (faults : nat -> option Fault)
    (X : Type) (e : Query X) : RWorld E0 -> X * RWorld E0 :=
  match e in Query X return RWorld E0 -> X * RWorld E0 with
  | SessionRequest _ c => serve faults c
  | Now => lift_base Now
  | Getenv n => lift_base (Getenv n)
  | CreateClient u k => lift_base (CreateClient u k)
  | Upsert t d o => lift_base (Upsert t d o)
  end.

(** The two services, with the [n]-th HTTP call failing as [faults n]
    says. *)
Definition services (E0 : Env) (faults : nat -> option Fault) : Env :=
  mkEnv (RWorld E0) (services_answer E0 faults).

(** ** The same environment, issuing other secrets *)

(** The answer to a key creation with the secret replaced by [v]. *)
Definition set_key (v : json) (raw : RawResult) : RawResult :=
  match raw with
  | Resp status_code true parsed =>
      Resp status_code true (Some (<[ "key" := v ]> (default ∅ parsed)))
  | _ => raw
  end.

Definition rekey_answer (secret : Call -> RawResult -> json) (E : Env)
    (X : Type) (e : Query X) : world E -> X * world E :=
  match e in Query X return world E -> X * world E with
  | SessionRequest api_key c => fun w =>
      let xw := answer E _ (SessionRequest api_key c) w in
      (if is_create_key c then set_key (secret c (fst xw)) (fst xw) else fst xw,
       snd xw)
  | Now => answer E _ Now
  | Getenv n => answer E _ (Getenv n)
  | CreateClient u k => answer E _ (CreateClient u k)
  | Upsert t d o => answer E _ (Upsert t d o)
  end.

(** [rekey secret E] behaves as [E], except that every successful key
    creation hands out the secret [secret] chooses. *)
Definition rekey (secret : Call -> RawResult -> json) (E : Env) : Env :=
  mkEnv (world E) (rekey_answer secret E).

(* ===================================================================== *)
(** * Vocabulary of the statements *)
(* ===================================================================== *)

Import GatewayProvisioner.

(** The registration of step 2, under the owner the arguments name. *)
Definition register_call (a : Args) : Call :=
  if String.eqb (owner_type a) "org"
  then RegisterGatewayForOrg (owner_id a) (gateway_payload a)
  else RegisterGatewayForUser (owner_id a) (gateway_payload a).

(** The partial update of step 2. *)
Definition pointer_update (a : Args) : Call :=
  UpdateGateway (gateway_id a)
    {[ "gateway_server_address" := JStr NAM1_HOST ]}
    ["gateway_server_address"].

(** The record read in step 1 does not point to NAM1. *)
Definition drifted (existing : Response) : bool :=
  ne_str (get (body existing) "gateway_server_address" (JStr EmptyString))
         NAM1_HOST.

(** The calls of steps 3 to 6, as the arguments ask for them; [d1] and [d2]
    are the clock readings that date the key names. *)
Definition location_calls (a : Args) : list Call :=
  match latitude a, longitude a with
  | Some lat, Some lon =>
      [UpdateGateway (gateway_id a) (location_payload lat lon (altitude a))
         ["antennas"]]
  | _, _ => []
  end.

Definition lns_calls (a : Args) (d : datetime) : list Call :=
  if generate_lns_key a
  then [CreateGatewayApiKey (gateway_id a)
          ("FrostGuard LNS Key - " ++ strftime_Ymd d) ["RIGHT_GATEWAY_LINK"]]
  else [].

Definition cups_calls (a : Args) (d : datetime) : list Call :=
  if generate_cups_key a
  then [CreateGatewayApiKey (gateway_id a)
          ("FrostGuard CUPS Key - " ++ strftime_Ymd d)
          ["RIGHT_GATEWAY_INFO"; "RIGHT_GATEWAY_SETTINGS_BASIC";
           "RIGHT_GATEWAY_READ_SECRETS"]]
  else [].

Definition later_calls (a : Args) (d1 d2 : datetime) : list Call :=
  location_calls a ++ lns_calls a d1 ++ cups_calls a d2
  ++ [GetGatewayConnectionStats (gateway_id a)].

(** Where [_summary] writes the log. *)
Definition log_path (gateway_id : string) : path :=
  mkPath "." (gateway_id ++ "_provision_log.json").

(** The events of step 7: the process environment and the database. *)
Definition is_db_event (ev : Event) : bool :=
  match ev with
  | EvGetenv _ _ | EvCreateClient _ _ _ | EvUpsert _ _ _ _ => true
  | _ => false
  end.

(** The identifier of the key a creation answered with is in the
    credentials section of the log. *)
Definition key_id_logged (log : Log) (r : Response) : Prop :=
  lns_key_id (credentials log) = get (body r) "id" (JStr EmptyString)
  \/ cups_key_id (credentials log) = get (body r) "id" (JStr EmptyString).

(** What steps 3 to 8 do, whatever the environment answers: the calls are
    those the arguments ask for and end with the connection query; the steps
    they record are none of the reconcile phase; the outcome of the
    connection query is recorded as [verify_nam1]; the log returned is the
    one written; and it names every key that was created. *)
Definition later_spec (self : t) (a : Args) (log : Log) (tr : list Event) : Prop :=
  (exists d1 d2, (calls tr).*1 = later_calls a d1 d2)
  /\ (exists new, steps log = results self ++ new
                  /\ Forall (fun s => reconcile_step s = false) new
                  /\ exists r s, last (calls tr) = Some (GetGatewayConnectionStats (gateway_id a), r)
                                 /\ s ∈ new /\ step s = "verify_nam1"
                                 /\ success s = ok r || (status r =? 404))
  /\ written_logs tr = [(log_path (gateway_id a), log)]
  /\ (forall c r, (c, r) ∈ calls tr -> is_create_key c = true -> ok r = true ->
                  key_id_logged log r).

(** ** Two runs that differ in the secrets handed out *)






(** ** Replaying calls on the two services *)

(** The exchanges that a sequence of calls gives rise to, from registry
    state [s] when [n] calls were made before. *)
Fixpoint exchanges (faults : nat -> option Fault) (cs : list Call)
    (s : Registry) (n : nat) : list (Call * Response) :=
  match cs with
  | [] => []
  | c :: cs' =>
      let rs := serve_registry faults n c s in
      (c, TTNClient.response_of (fst rs)) :: exchanges faults cs' (snd rs) (S n)
  end.

(** The registry state they leave. *)
Fixpoint registry_after (faults : nat -> option Fault) (cs : list Call)
    (s : Registry) (n : nat) : Registry :=
  match cs with
  | [] => s
  | c :: cs' => registry_after faults cs' (snd (serve_registry faults n c s)) (S n)
  end.

(** ** The reconcile phase and the whole run *)

(** The four ways steps 1 and 2 can go, read off the answer [r1] to the
    existence query: the calls that follow it and the provisioner handed
    on ([inl]: the run stops, [inr]: it goes on to step 3). *)
Inductive reconcile_outcome (self : t) (a : Args) (r1 : Response)
    : list (Call * Response) -> t + t -> Prop :=
| registration_failed r2 s :
    ok r1 = false -> ok r2 = false ->
    step s = "register" -> success s = false -> data s = ∅ ->
    reconcile_outcome self a r1 [(register_call a, r2)]
      (inl (mk (client self) (results self ++ [s])))
| registered r2 s :
    ok r1 = false -> ok r2 = true ->
    step s = "register" -> success s = true ->
    reconcile_outcome self a r1 [(register_call a, r2)]
      (inr (mk (client self) (results self ++ [s])))
| pointer_updated r2 s0 s :
    ok r1 = true -> drifted r1 = true ->
    step s0 = "check_existing" -> success s0 = true ->
    step s = "update_server_address" -> success s = ok r2 ->
    reconcile_outcome self a r1 [(pointer_update a, r2)]
      (inr (mk (client self) (results self ++ [s0; s])))
| pointer_correct s0 :
    ok r1 = true -> drifted r1 = false ->
    step s0 = "check_existing" -> success s0 = true ->
    reconcile_outcome self a r1 []
      (inr (mk (client self) (results self ++ [s0]))).

(** No key file was written and the database was not touched. *)
Definition quiet (tr : list Event) : Prop :=
  written_files tr = [] /\ Forall (fun ev => is_db_event ev = false) tr.

(** What a whole run of [provision] does, whatever the environment
    answers. *)
Definition provision_spec (self : t) (a : Args) (log : Log) (tr : list Event)
    : Prop :=
  exists r1 rest r,
    reconcile_outcome self a r1 rest r /\
    match r with
    | inl self' =>
        calls tr = (GetGateway (gateway_id a), r1) :: rest
        /\ steps log = results self'
        /\ written_logs tr = [(log_path (gateway_id a), log)]
        /\ quiet tr
    | inr self' =>
        exists tr2,
          calls tr = (GetGateway (gateway_id a), r1) :: rest ++ calls tr2
          /\ later_spec self' a log tr2
          /\ written_logs tr = written_logs tr2
    end.

(** The provisioner recorded more steps, none of the reconcile phase. *)
Definition grows (self self' : t) : Prop :=
  exists new, results self' = results self ++ new
              /\ Forall (fun s => reconcile_step s = false) new.

(** ** Deprovisioning *)

(** What [deprovision_gateway] takes for a delete or a purge that went
    through: [r["ok"] or r["status"] == 200]. *)
Definition went_through (r : Response) : bool := ok r || (status r =? 200).

(** The five ways a deprovisioning run can go: its calls and the value it
    returns. *)
Inductive deprovision_outcome (gateway_id : string) (purge : bool)
    : list (Call * Response) -> bool -> Prop :=
| not_found_at_entry r1 :
    ok r1 = false ->
    deprovision_outcome gateway_id purge [(GetGateway gateway_id, r1)] false
| delete_failed r1 r2 :
    ok r1 = true -> went_through r2 = false ->
    deprovision_outcome gateway_id purge
      [(GetGateway gateway_id, r1); (DeleteGateway gateway_id, r2)] false
| purge_failed r1 r2 r3 :
    purge = true -> ok r1 = true -> went_through r2 = true ->
    went_through r3 = false ->
    deprovision_outcome gateway_id purge
      [(GetGateway gateway_id, r1); (DeleteGateway gateway_id, r2);
       (PurgeGateway gateway_id, r3)] false
| purged r1 r2 r3 r4 :
    purge = true -> ok r1 = true -> went_through r2 = true ->
    went_through r3 = true ->
    deprovision_outcome gateway_id purge
      [(GetGateway gateway_id, r1); (DeleteGateway gateway_id, r2);
       (PurgeGateway gateway_id, r3); (GetGateway gateway_id, r4)] true
| soft_deleted r1 r2 r4 :
    purge = false -> ok r1 = true -> went_through r2 = true ->
    deprovision_outcome gateway_id purge
      [(GetGateway gateway_id, r1); (DeleteGateway gateway_id, r2);
       (GetGateway gateway_id, r4)] true.

(** ** Programs that create no key *)



(** ** Strings *)


(** ** Concrete inputs *)

(** [--gateway-eui 00800000A00009EF --name "Walk-in Cooler GW"
     --owner-id my-ttn-user], the example of the script's help text. *)
Definition example_args : Args :=
  default_args "fg-gw-a00009ef" "00800000A00009EF" "Walk-in Cooler GW"
               "my-ttn-user".

Definition empty_registry : Registry := mkRegistry ∅ ∅ ∅ 0 ∅.

Definition no_faults : nat -> option Fault := fun _ => None.



Definition server_error : RawResult :=
  Resp 500 false (Some {[ "message" := JStr "internal error" ]}).

Definition created (record : dict) : RawResult := Resp 201 true (Some record).

Definition found (record : dict) : RawResult := Resp 200 true (Some record).


Definition lns_key_response : RawResult :=
  Resp 200 true
    (Some (<[ "id" := JStr "KEYID1" ]> {[ "key" := JStr "NNSXS.SECRET" ]})).

(** A record whose pointer names the wrong cluster. *)
Definition drifted_record : dict :=
  <[ "name" := JStr "Walk-in Cooler GW" ]>
  {[ "gateway_server_address" := JStr "eu1.cloud.thethings.network" ]}.

(** A registry that holds the drifted record. *)
Definition drifted_registry : Registry :=
  mkRegistry {[ "fg-gw-a00009ef" := drifted_record ]} ∅ ∅ 0 ∅.

(* ===================================================================== *)
(** * How a function of the script ends *)
(* ===================================================================== *)

(** The exceptions that escape the functions below. *)
Inductive Exception : Type :=
| TypeError
| AttributeError
| KeyError (key : string)
| ValueError
| EOFError
| OSError.

(** How a call of a function that returns nothing ends: it returns, an
    exception escapes, or the process exits. *)
Inductive End : Type :=
| Returned
| Raised (e : Exception)
| Exited (code : Z).

(** What the script takes from the Python runtime and the file system,
    beyond the questions of [Query]. *)
Record Runtime : Type := mkRuntime {
  dict_keys : dict -> list string;
    (* the keys of a [dict] in insertion order, which a finite map forgets *)
  float_of_str : string -> option float;
    (* [float(s)]; [None] when it raises [ValueError] *)
  json_load : string -> Exception + json;
    (* [with open(path) as f: json.load(f)] *)
}.

(** ** More of Python's values *)

(** A value in a place where a [str] is expected. *)
Definition as_str (v : json) : option string :=
  match v with
  | JStr s => Some s
  | _ => None
  end.

(** The characters of a string, as [for c in s] goes through them. *)
Fixpoint chars (s : string) : list string :=
  match s with
  | EmptyString => []
  | String c s' => String c EmptyString :: chars s'
  end.

(** [len(v)]; [None] when it raises [TypeError]. *)
Definition len (v : json) : option nat :=
  match v with
  | JArr l => Some (length l)
  | JStr s => Some (String.length s)
  | JObj d => Some (size d)
  | JNull | JBool _ | JNum _ => None
  end.

(** What [for x in v] goes through, for a [v] that has a length: the
    elements of a list, the characters of a string, the keys of a dict. *)
Definition items (R : Runtime) (v : json) : list json :=
  match v with
  | JArr l => l
  | JStr s => JStr <$> chars s
  | JObj d => JStr <$> dict_keys R d
  | JNull | JBool _ | JNum _ => []
  end.

(** [sep.join(l)] for a list of strings. *)
Fixpoint str_join (sep : string) (l : list string) : string :=
  match l with
  | [] => EmptyString
  | s :: l' =>
      match l' with
      | [] => s
      | _ :: _ => s ++ sep ++ str_join sep l'
      end
  end.

(** [sep.join(v)]: [TypeError] unless [v] can be gone through and gives
    strings only. *)
Definition join_value (R : Runtime) (sep : string) (v : json)
    : Exception + string :=
  match v with
  | JArr l =>
      match mapM as_str l with
      | Some ss => inr (str_join sep ss)
      | None => inl TypeError
      end
  | JStr s => inr (str_join sep (chars s))
  | JObj d => inr (str_join sep (dict_keys R d))
  | JNull | JBool _ | JNum _ => inl TypeError
  end.

(** [s or d] for strings. *)
Definition str_or (s d : string) : string :=
  if String.eqb s EmptyString then d else s.

(** [s or None] for a string. *)
Definition str_or_none (s : string) : option string :=
  if String.eqb s EmptyString then None else Some s.

(* ===================================================================== *)
(** * Status check *)
(* ===================================================================== *)

(** The lines of the key listing: one for each key, as long as the keys are
    objects whose rights can be joined. *)
Fixpoint key_lines (R : Runtime) (api_keys : list json) : Prog End :=
  match api_keys with
  | [] => Ret Returned
  | k :: api_keys' =>
      match k with
      | JObj k =>
          match join_value R ", " (get k "rights" (JArr [])) with
          | inr rights =>
              step_info "Keys"
                [Lit "  "; FVal (get k "name" (JStr "unnamed")); Lit " [";
                 Lit rights; Lit "]"] ;;
              key_lines R api_keys'
          | inl e => Ret (Raised e)
          end
      | _ => Ret (Raised AttributeError)
      end
  end.

(** Check gateway registration and connection status across both
    clusters. *)
Definition check_gateway_status (R : Runtime) (api_key gateway_id : string)
    : Prog End :=
  let client := TTNClient.__init__ api_key in
  tell (Print [Lit "Gateway Status: "; Lit gateway_id]) ;;
  (* Identity Server (EU1) *)
  step_info "EU1" [Lit "Checking Identity Server registration..."] ;;
  gw <- TTNClient.get_gateway client gateway_id ;;
  if ok gw then
    let data := body gw in
    step_ok "EU1" [Lit "Registered — Name: "; FVal (get data "name" (JStr "N/A"))] ;;
    step_info "EU1"
      [Lit "  gateway_server_address: ";
       FVal (get data "gateway_server_address" (JStr "NOT SET"))] ;;
    step_info "EU1"
      [Lit "  frequency_plan: ";
       FVal (get data "frequency_plan_ids" (JArr [JStr "N/A"]))] ;;
    step_info "EU1"
      [Lit "  authenticated: ";
       FVal (get data "require_authenticated_connection" (JStr "N/A"))] ;;
    let gw_server := get data "gateway_server_address" (JStr EmptyString) in
    (if ne_str gw_server NAM1_HOST then
       step_warn "EU1"
         [Lit "⚠ gateway_server_address should be '"; Lit NAM1_HOST;
          Lit "' but is '"; FVal gw_server; Lit "'"]
     else Ret tt) ;;
    (* Gateway Server (NAM1) *)
    step_info "NAM1" [Lit "Checking Gateway Server connection..."] ;;
    stats <- TTNClient.get_gateway_connection_stats client gateway_id ;;
    (if ok stats then
       let data := body stats in
       step_ok "NAM1" [Lit "Gateway is CONNECTED"] ;;
       (match data !! "last_uplink_received_at" with
        | Some v => step_info "NAM1" [Lit "  Last uplink: "; FVal v]
        | None => Ret tt
        end) ;;
       (match data !! "connected_at" with
        | Some v => step_info "NAM1" [Lit "  Connected since: "; FVal v]
        | None => Ret tt
        end)
     else if status stats =? 404 then
       step_warn "NAM1"
         [Lit "Gateway registered but NOT connected (hardware offline)"]
     else
       step_fail "NAM1"
         [Lit "Could not check ("; FInt (status stats); Lit "): ";
          FVal (JObj (body stats))]) ;;
    (* API Keys *)
    step_info "Keys" [Lit "Checking API keys..."] ;;
    keys <- TTNClient.list_gateway_api_keys client gateway_id ;;
    if ok keys then
      let api_keys := get (body keys) "api_keys" (JArr []) in
      match len api_keys with
      | Some n =>
          step_ok "Keys" [FInt (Z.of_nat n); Lit " API key(s) found"] ;;
          e <- key_lines R (items R api_keys) ;;
          match e with
          | Returned => tell (Print []) ;; Ret Returned
          | _ => Ret e
          end
      | None => Ret (Raised TypeError)
      end
    else
      step_warn "Keys" [Lit "Could not list keys ("; FInt (status keys); Lit ")"] ;;
      tell (Print []) ;;
      Ret Returned
  else
    step_fail "EU1" [Lit "Not found ("; FInt (status gw); Lit ")"] ;;
    Ret Returned.

(* ===================================================================== *)
(** * Batch provisioning from JSON *)
(* ===================================================================== *)

(** A value handed to a parameter of [provision] declared [float = None]. *)
Definition as_opt_num (v : json) : option (option pynum) :=
  match v with
  | JNull => Some None
  | JNum n => Some (Some n)
  | _ => None
  end.

(** A value handed to a parameter of [provision] declared [str = None]. *)
Definition as_opt_str (v : json) : option (option string) :=
  match v with
  | JNull => Some None
  | JStr s => Some (Some s)
  | _ => None
  end.

(** What [batch_provision] makes of one entry of the file: the arguments of
    a call of [provision]; or an exception, raised while the arguments are
    put together; or, when a value of the entry is not of the type the
    signature of [provision] declares for it, nothing that is modelled
    here. *)
Inductive Entry : Type :=
| Typed (a : Args)
| Untyped
| Fails (e : Exception).

Definition batch_args (config gw : dict) : Entry :=
  match gw !! "gateway_eui" with
  | None => Fails (KeyError "gateway_eui")
  | Some eui =>
      let typed : option Args :=
        gateway_id ← batch_gateway_id gw ≫= as_str;
        gateway_eui ← as_str eui;
        name ← as_str (get gw "name" (JStr "FrostGuard Gateway"));
        owner_id ←
          as_str (get gw "owner_id" (get config "owner_id" (JStr EmptyString)));
        owner_type ←
          as_str (get gw "owner_type" (get config "owner_type" (JStr "user")));
        frequency_plan ←
          as_str (get gw "frequency_plan" (JStr DEFAULT_FREQUENCY_PLAN));
        latitude ← as_opt_num (get_or_none gw "latitude");
        longitude ← as_opt_num (get_or_none gw "longitude");
        altitude ← as_opt_num (get_or_none gw "altitude");
        fg_org_id ← as_opt_str (get_or_none gw "fg_org_id");
        fg_site_id ← as_opt_str (get_or_none gw "fg_site_id");
        Some (mkArgs gateway_id gateway_eui name owner_id owner_type
                frequency_plan latitude longitude altitude
                false false true true
                (truthy (get gw "generate_lns_key" (JBool true)))
                (truthy (get gw "generate_cups_key" (JBool false)))
                "." fg_org_id fg_site_id) in
      match typed with
      | Some a => Typed a
      | None => Untyped
      end
  end.

Definition rule_60 : string :=
  "============================================================".

(** The loop of [batch_provision], at entry number [i] of [total].  [None]:
    the run has left what is modelled (see [Entry]). *)
Fixpoint batch_loop (api_key : string) (config : dict) (total i : nat)
    (gateways : list json) : Prog (option End) :=
  match gateways with
  | [] => Ret (Some Returned)
  | gw :: gateways' =>
      tell (Print [Lit rule_60]) ;;
      tell (Print [Lit "Gateway "; FInt (Z.of_nat i); Lit "/";
                   FInt (Z.of_nat total)]) ;;
      tell (Print [Lit rule_60]) ;;
      let provisioner := GatewayProvisioner.__init__ api_key in
      match gw with
      | JObj gw =>
          match batch_args config gw with
          | Typed a =>
              provision provisioner a ;;
              batch_loop api_key config total (S i) gateways'
          | Untyped => Ret None
          | Fails e => Ret (Some (Raised e))
          end
      | _ => Ret (Some (Raised AttributeError))
      end
  end.

(** [config.get("gateways", [config] if "gateway_eui" in config else [])] *)
Definition batch_gateways (config : dict) : json :=
  get config "gateways"
    (JArr match config !! "gateway_eui" with
          | Some _ => [JObj config]
          | None => []
          end).

(** Provision multiple gateways from a JSON config file. *)
Definition batch_provision (R : Runtime) (api_key json_path : string)
    : Prog (option End) :=
  match json_load R json_path with
  | inl e => Ret (Some (Raised e))
  | inr (JObj config) =>
      let gateways := batch_gateways config in
      match len gateways with
      | Some total =>
          tell (Print [Lit "Batch provisioning "; FInt (Z.of_nat total);
                       Lit " gateway(s)..."]) ;;
          batch_loop api_key config total 1 (items R gateways)
      | None => Ret (Some (Raised TypeError))
      end
  | inr _ => Ret (Some (Raised AttributeError))
  end.

(* ===================================================================== *)
(** * Interactive mode *)
(* ===================================================================== *)

(** A part of the wizard: given the lines of the standard input still to
    be read, it ends the wizard ([inl]) or goes on ([inr]) with a value and
    the lines that are left. *)
Definition Script (A : Type) : Type :=
  list string -> Prog (End + A * list string).

Definition sret {A : Type} (a : A) : Script A :=
  fun stdin => Ret (inr (a, stdin)).

Definition sbind {A B : Type} (m : Script A) (f : A -> Script B) : Script B :=
  fun stdin =>
    r <- m stdin ;;
    match r with
    | inl e => Ret (inl e)
    | inr (a, stdin') => f a stdin'
    end.

Definition lift {A : Type} (p : Prog A) : Script A :=
  fun stdin => a <- p ;; Ret (inr (a, stdin)).

(** [return], or an exception that escapes. *)
Definition finish {A : Type} (e : End) : Script A :=
  fun _ => Ret (inl e).

(** [input(prompt)]: the prompt is shown and the next line is read;
    [EOFError] when there is none.  As for a bare [print], the colour codes
    and the line breaks around the text are left out. *)
Definition input (prompt : fstring) : Script string :=
  fun stdin =>
    tell (Print prompt) ;;
    match stdin with
    | [] => Ret (inl (Raised EOFError))
    | line :: stdin' => Ret (inr (line, stdin'))
    end.

(** [print(msg)] *)
Definition say (msg : fstring) : Script unit := lift (tell (Print msg)).

Declare Scope script_scope.
Delimit Scope script_scope with script.
Bind Scope script_scope with Script.
Notation "x <- m ;; k" := (sbind m (fun x => k))
  (at level 100, m at next level, right associativity) : script_scope.
Notation "m ;; k" := (sbind m (fun _ => k))
  (at level 100, right associativity) : script_scope.

(** The API key of the wizard: the one it is given, or the one of the
    process environment, or the one typed at the prompt. *)
Definition interactive_api_key (api_key : option string) : Script string :=
  (api_key <-
     (if str_truthy api_key then sret (default EmptyString api_key)
      else
        v <- lift (ask (Getenv "TTN_API_KEY")) ;;
        sret (strip (default EmptyString v))) ;;
   if String.eqb api_key EmptyString then
     say [Lit "You need a TTN API key with gateway registration rights."] ;;
     say [Lit "  Get one from: https://eu1.cloud.thethings.network/console → Your profile → API Keys"] ;;
     say [Lit "  Grant: 'Grant all current and future rights' (recommended)"] ;;
     typed <- input [Lit "TTN API Key: "] ;;
     let api_key := strip typed in
     if String.eqb api_key EmptyString then
       say [Lit "API key is required to continue."] ;;
       finish Returned
     else sret api_key
   else sret api_key)%script.

(** Action 2: check the status of a gateway. *)
Definition interactive_status (R : Runtime) (api_key : string) : Script unit :=
  (typed <- input [Lit "Gateway ID to check: "] ;;
   let gw_id := strip typed in
   if negb (String.eqb gw_id EmptyString) then
     e <- lift (check_gateway_status R api_key gw_id) ;;
     finish e
   else finish Returned)%script.

(** Action 3: remove a gateway. *)
Definition interactive_deprovision (api_key : string) : Script unit :=
  (typed <- input [Lit "Gateway ID to remove: "] ;;
   let gw_id := strip typed in
   if String.eqb gw_id EmptyString then
     say [Lit "Gateway ID is required"] ;;
     finish Returned
   else
     typed <- input [Lit "Hard-delete / purge? This releases the EUI for reuse (y/N): "] ;;
     let purge := String.eqb (lower (strip typed)) "y" in
     typed <- input [Lit "Are you sure you want to delete '"; Lit gw_id;
                     Lit "'? (yes/no): "] ;;
     let confirm := lower (strip typed) in
     (if String.eqb confirm "yes" then
        lift (deprovision_gateway api_key gw_id purge) ;; sret tt
      else say [Lit "Cancelled."]) ;;
     finish Returned)%script.

(** The location questions: the three answers, or nothing when one of them
    is not a number. *)
Definition interactive_location (R : Runtime)
    : Script (option pynum * option pynum * option pynum) :=
  (typed <- input [Lit "Latitude (press Enter to skip): "] ;;
   let lat_str := strip typed in
   let invalid : Script (option pynum * option pynum * option pynum) :=
     say [Lit "Invalid coordinates — skipping location"] ;;
     sret (None, None, None) in
   if negb (String.eqb lat_str EmptyString) then
     match float_of_str R lat_str with
     | Some latitude =>
         typed <- input [Lit "Longitude: "] ;;
         let lon_str := strip typed in
         match (if negb (String.eqb lon_str EmptyString)
                then Some <$> float_of_str R lon_str else Some None) with
         | Some longitude =>
             typed <- input [Lit "Altitude in meters [0]: "] ;;
             let alt_str := strip typed in
             match (if negb (String.eqb alt_str EmptyString)
                    then PFloat <$> float_of_str R alt_str
                    else Some (PInt 0)) with
             | Some altitude =>
                 sret (Some (PFloat latitude), PFloat <$> longitude,
                       Some altitude)
             | None => invalid
             end
         | None => invalid
         end
     | None => invalid
     end
   else sret (None, None, None))%script.

(** [{x}] for an optional number. *)
Definition FOpt (x : option pynum) : frag :=
  match x with
  | Some n => FNum n
  | None => Lit "None"
  end.

Definition rule_50 : string :=
  "──────────────────────────────────────────────────".

(** The provision flow of the wizard. *)
Definition interactive_details (R : Runtime) (api_key : string) : Script unit :=
  (say [Lit "── Gateway Details ──"] ;;
   typed <- input [Lit "Gateway EUI (16 hex chars, on the gateway label): "] ;;
   match interactive_gateway_eui typed with
   | None =>
       say [Lit "EUI must be exactly 16 hex characters (e.g. 00800000A00009EF)"] ;;
       finish Returned
   | Some gateway_eui =>
       let default_id := ("fg-gw-" ++ lower (last_chars 8 gateway_eui))%string in
       typed <- input [Lit "Gateway ID ["; Lit default_id; Lit "]: "] ;;
       let gateway_id := interactive_gateway_id gateway_eui typed in
       typed <- input [Lit "Gateway name [FrostGuard Gateway]: "] ;;
       let name := str_or (strip typed) "FrostGuard Gateway" in
       say [Lit "── TTN Owner ──"] ;;
       say [Lit "  This is the TTN user or organization the gateway will be registered under."] ;;
       typed <- input [Lit "Owner type - user or org [user]: "] ;;
       let owner_type := str_or (lower (strip typed)) "user" in
       let owner_type :=
         if negb (String.eqb owner_type "user" || String.eqb owner_type "org")
         then "user" else owner_type in
       typed <- input [Lit "TTN "; Lit owner_type; Lit " ID: "] ;;
       let owner_id := strip typed in
       if String.eqb owner_id EmptyString then
         say [Lit "Owner ID is required"] ;;
         finish Returned
       else
         say [Lit "── Radio Configuration ──"] ;;
         say [Lit "  Common US plans: US_902_928_FSB_2 (most common), US_902_928_FSB_1"] ;;
         typed <- input [Lit "Frequency plan ["; Lit DEFAULT_FREQUENCY_PLAN;
                         Lit "]: "] ;;
         let freq_plan := str_or (strip typed) DEFAULT_FREQUENCY_PLAN in
         say [Lit "── Location (optional) ──"] ;;
         location <- interactive_location R ;;
         let '(latitude, longitude, altitude) := location in
         say [Lit "── API Keys ──"] ;;
         say [Lit "  LNS key: Required for Basics Station gateways (most modern gateways)"] ;;
         say [Lit "  CUPS key: For gateways that support auto-config via CUPS protocol"] ;;
         typed <- input [Lit "Generate LNS key? (Y/n): "] ;;
         let lns := negb (String.eqb (lower (strip typed)) "n") in
         typed <- input [Lit "Generate CUPS key? (y/N): "] ;;
         let cups := String.eqb (lower (strip typed)) "y" in
         say [Lit "── FrostGuard Database (optional) ──"] ;;
         say [Lit "  Store this gateway in FrostGuard's database for monitoring."] ;;
         say [Lit "  Requires SUPABASE_URL and SUPABASE_SERVICE_ROLE_KEY env vars."] ;;
         typed <- input [Lit "FrostGuard org_id (press Enter to skip): "] ;;
         let fg_org_id := str_or_none (strip typed) in
         fg_site_id <-
           (if str_truthy fg_org_id then
              typed <- input [Lit "FrostGuard site_id (optional): "] ;;
              sret (str_or_none (strip typed))
            else sret None) ;;
         (* Confirmation *)
         say [Lit rule_50] ;;
         say [Lit "  Review:"] ;;
         say [Lit "    Gateway EUI:   "; Lit gateway_eui] ;;
         say [Lit "    Gateway ID:    "; Lit gateway_id] ;;
         say [Lit "    Name:          "; Lit name] ;;
         say [Lit "    Owner:         "; Lit owner_type; Lit "/"; Lit owner_id] ;;
         say [Lit "    Freq Plan:     "; Lit freq_plan] ;;
         say [Lit "    Identity:      EU1 (eu1.cloud.thethings.network)"] ;;
         say [Lit "    Gateway Svr:   NAM1 (nam1.cloud.thethings.network)"] ;;
         (if match latitude with Some x => num_truthy x | None => false end
          then say [Lit "    Location:      "; FOpt latitude; Lit ", ";
                    FOpt longitude; Lit ", "; FOpt altitude; Lit "m"]
          else sret tt) ;;
         say [Lit "    LNS Key:       "; Lit (if lns then "Yes" else "No")] ;;
         say [Lit "    CUPS Key:      "; Lit (if cups then "Yes" else "No")] ;;
         (if str_truthy fg_org_id
          then say [Lit "    FG Org:        ";
                    Lit (default EmptyString fg_org_id)]
          else sret tt) ;;
         say [Lit rule_50] ;;
         typed <- input [Lit "Proceed with provisioning? (Y/n): "] ;;
         let confirm := lower (strip typed) in
         if String.eqb confirm "n" then
           say [Lit "Cancelled."] ;;
           finish Returned
         else
           say [] ;;
           let provisioner := GatewayProvisioner.__init__ api_key in
           lift (provision provisioner
                   (mkArgs gateway_id gateway_eui name owner_id owner_type
                      freq_plan latitude longitude altitude
                      false false true true lns cups "." fg_org_id fg_site_id)) ;;
           sret tt
   end)%script.

(** Walk the user through gateway provisioning interactively. *)
Definition interactive_script (R : Runtime) (api_key : option string)
    : Script unit :=
  (say [Lit "Interactive Gateway Provisioning"] ;;
   api_key <- interactive_api_key api_key ;;
   say [] ;;
   say [Lit "What would you like to do?"] ;;
   say [Lit "  1) Provision a new gateway"] ;;
   say [Lit "  2) Check gateway status"] ;;
   say [Lit "  3) Deprovision (remove) a gateway"] ;;
   say [] ;;
   typed <- input [Lit "Choose (1/2/3) [1]: "] ;;
   let action := str_or (strip typed) "1" in
   if String.eqb action "2" then interactive_status R api_key
   else if String.eqb action "3" then interactive_deprovision api_key
   else interactive_details R api_key)%script.

Definition interactive_provision (R : Runtime) (api_key : option string)
    (stdin : list string) : Prog End :=
  r <- interactive_script R api_key stdin ;;
  Ret match r with
      | inl e => e
      | inr _ => Returned
      end.

(* ===================================================================== *)
(** * Main *)
(* ===================================================================== *)

(** The namespace [parser.parse_args()] returns. *)
Module Namespace.

Record t : Type := mk {
  interactive : bool;
  from_json : option string;
  status : option string;
  deprovision : option string;
  gateway_eui : option string;
  gateway_id : option string;
  name : string;
  owner_id : option string;
  owner_type : string;
  frequency_plan : string;
  lat : option float;
  lon : option float;
  alt : pynum;
  cups : bool;
  purge : bool;
  output_dir : string;
  api_key : option string;
  fg_org_id : option string;
  fg_site_id : option string;
}.

End Namespace.

(** The banner, without its frame. *)
Definition banner : Prog unit :=
  tell (Print [Lit "FrostGuard Gateway Provisioning";
               Lit "TTN Cross-Cluster • v1.0"]).

Definition api_key_required : Prog (option End) :=
  tell (Print [Lit "Error: TTN API key required. Use --api-key or set TTN_API_KEY env var."]) ;;
  Ret (Some (Exited 1)).

(** [parser.error(message)]: the usage and the message are shown and the
    process exits with status 2. *)
Definition parser_error (message : string) : Prog (option End) :=
  tell (Print [Lit "error: "; Lit message]) ;;
  Ret (Some (Exited 2)).

(** The wizard is run when it is asked for, and when no other mode and no
    EUI is given. *)
Definition interactive_mode (args : Namespace.t) : bool :=
  Namespace.interactive args
  || (negb (str_truthy (Namespace.from_json args))
      && negb (str_truthy (Namespace.status args))
      && negb (str_truthy (Namespace.deprovision args))
      && negb (str_truthy (Namespace.gateway_eui args))).

(** The arguments of [provision] in direct provisioning with flags. *)
Definition main_args (args : Namespace.t) : Args :=
  let gateway_eui := default EmptyString (Namespace.gateway_eui args) in
  let gateway_id := main_gateway_id (Namespace.gateway_id args) gateway_eui in
  mkArgs gateway_id (upper gateway_eui) (Namespace.name args)
    (default EmptyString (Namespace.owner_id args))
    (Namespace.owner_type args) (Namespace.frequency_plan args)
    (PFloat <$> Namespace.lat args) (PFloat <$> Namespace.lon args)
    (Some (Namespace.alt args))
    false false true true true (Namespace.cups args)
    (Namespace.output_dir args)
    (Namespace.fg_org_id args) (Namespace.fg_site_id args).

(** [main], from the namespace [parse_args] returned and the lines of the
    standard input.  [None]: see [batch_loop]. *)
Definition main (R : Runtime) (args : Namespace.t) (stdin : list string)
    : Prog (option End) :=
  banner ;;
  (* Get API key (optional: interactive mode will prompt if missing) *)
  api_key <-
    (if str_truthy (Namespace.api_key args) then Ret (Namespace.api_key args)
     else ask (Getenv "TTN_API_KEY")) ;;
  (* Execute mode *)
  if interactive_mode args then
    e <- interactive_provision R api_key stdin ;;
    Ret (Some e)
  else if str_truthy (Namespace.from_json args) then
    if negb (str_truthy api_key) then api_key_required
    else batch_provision R (default EmptyString api_key)
           (default EmptyString (Namespace.from_json args))
  else if str_truthy (Namespace.status args) then
    if negb (str_truthy api_key) then api_key_required
    else
      e <- check_gateway_status R (default EmptyString api_key)
             (default EmptyString (Namespace.status args)) ;;
      Ret (Some e)
  else if str_truthy (Namespace.deprovision args) then
    if negb (str_truthy api_key) then api_key_required
    else
      deprovision_gateway (default EmptyString api_key)
        (default EmptyString (Namespace.deprovision args))
        (Namespace.purge args) ;;
      Ret (Some Returned)
  else
    (* Direct provisioning with flags *)
    if negb (str_truthy api_key) then api_key_required
    else if negb (str_truthy (Namespace.gateway_eui args)) then
      parser_error "--gateway-eui is required (or use --interactive)"
    else if negb (str_truthy (Namespace.owner_id args)) then
      parser_error "--owner-id is required"
    else
      let provisioner := GatewayProvisioner.__init__ (default EmptyString api_key) in
      provision provisioner (main_args args) ;;
      Ret (Some Returned).

(* ===================================================================== *)
(** * What a run leaves behind *)
(* ===================================================================== *)

(** The request was sent with this API key. *)
Definition sent_with (api_key : string) (ev : Event) : Prop :=
  match ev with
  | EvHttp k _ _ => k = api_key
  | _ => True
  end.

(** The gateway a call is about: the id in its URL, or, for a registration,
    the id in the payload. *)
Definition target (c : Call) : option json :=
  match c with
  | GetGateway g | UpdateGateway g _ _ | DeleteGateway g | PurgeGateway g
  | CreateGatewayApiKey g _ _ | ListGatewayApiKeys g
  | GetGatewayConnectionStats g => Some (JStr g)
  | RegisterGatewayForUser _ gateway | RegisterGatewayForOrg _ gateway =>
      match gateway !! "ids" with
      | Some (JObj ids) => ids !! "gateway_id"
      | _ => None
      end
  end.

(** The key file that the answer to a key creation gives rise to: none when
    the creation failed; otherwise one file in the output directory, named
    after the gateway and the kind of key (the key with the link right is
    the LNS key), holding the secret as an authorization header. *)
Definition key_file (a : Args) (cr : Call * Response) : list (path * fstring) :=
  match cr.1 with
  | CreateGatewayApiKey gateway_id _ rights =>
      if ok cr.2 then
        [(mkPath (output_dir a)
            (gateway_id ++ (if bool_decide (rights = ["RIGHT_GATEWAY_LINK"])
                            then "_lns.key" else "_cups.key")),
          [Lit "Authorization: Bearer ";
           FVal (get (body cr.2) "key" (JStr EmptyString));
           Lit (String "013" (String "010" EmptyString))])]
      else []
  | _ => []
  end.

(** What the log says of an exchange: the step it is recorded under and
    whether it counts as a success.  A read that finds no record leaves no
    step. *)
Definition logged (cr : Call * Response) : list (string * bool) :=
  match cr.1 with
  | GetGateway _ => if ok cr.2 then [("check_existing", true)] else []
  | RegisterGatewayForUser _ _ | RegisterGatewayForOrg _ _ =>
      [("register", ok cr.2)]
  | UpdateGateway _ _ field_mask =>
      [(if bool_decide (field_mask = ["antennas"])
        then "set_location" else "update_server_address", ok cr.2)]
  | CreateGatewayApiKey _ _ rights =>
      [(if bool_decide (rights = ["RIGHT_GATEWAY_LINK"])
        then "create_lns_key" else "create_cups_key", ok cr.2)]
  | GetGatewayConnectionStats _ =>
      [("verify_nam1", ok cr.2 || (status cr.2 =? 404))]
  | DeleteGateway _ | PurgeGateway _ | ListGatewayApiKeys _ => []
  end.

(** A step as the summary counts it: its name and its success. *)
Definition outcome_of (s : StepResult) : string * bool := (step s, success s).

(** The events of a run that concern the database, in order. *)
Definition db_events (t : list Event) : list Event :=
  filter (fun ev => is_db_event ev = true) t.

(** What steps 1 to 6 leave: the client is the same and every request
    carries its key; the key files are those of the key creations; the
    steps recorded are those of the exchanges; the database is not
    touched. *)
Definition footprint (a : Args) (self self' : t) (tr : list Event) : Prop :=
  client self' = client self
  /\ Forall (sent_with (TTNClient.api_key (client self))) tr
  /\ written_files tr = flat_map (key_file a) (calls tr)
  /\ (exists new, results self' = results self ++ new
                  /\ outcome_of <$> new = flat_map logged (calls tr))
  /\ Forall (fun ev => is_db_event ev = false) tr.

(** The database answered an upsert with data. *)
Definition answered_with_data (ev : Event) : bool :=
  match ev with
  | EvUpsert _ _ _ (UpsertData true) => true
  | _ => false
  end.

Definition was_stored (t : list Event) : bool := existsb answered_with_data t.

(** A registration of the run was refused. *)
Definition halted (cs : list (Call * Response)) : bool :=
  existsb (fun cr => is_register cr.1 && negb (ok cr.2)) cs.

(** The step that step 7 adds to the log, given the exchanges of the run
    and the events [t] that follow them: none when a registration failed or
    no organisation is named; otherwise one, [store_db], a success when the
    row was stored. *)
Definition db_step (a : Args) (cs : list (Call * Response)) (t : list Event)
    (db : list StepResult) : Prop :=
  if halted cs || negb (str_truthy (fg_org_id a))
  then db = [] /\ db_events t = []
  else exists s, db = [s] /\ step s = "store_db" /\ success s = was_stored t.

(** The row [_store_in_supabase] upserts for a gateway. *)
Definition is_row (gateway_id gateway_eui name fg_org_id : string)
    (fg_site_id : option string) (data : dict) : Prop :=
  data !! "organization_id" = Some (JStr fg_org_id)
  /\ data !! "gateway_eui" = Some (JStr gateway_eui)
  /\ data !! "name" = Some (JStr name)
  /\ data !! "ttn_gateway_id" = Some (JStr gateway_id)
  /\ data !! "status" = Some (JStr "pending")
  /\ data !! "site_id"
     = (if str_truthy fg_site_id then JStr <$> fg_site_id else None).

(** The calls [provision] makes: it reads, registers, updates, creates keys
    and asks for the connection; it does not delete, purge or list keys. *)
Definition provisioning_call (c : Call) : bool :=
  match c with
  | DeleteGateway _ | PurgeGateway _ | ListGatewayApiKeys _ => false
  | _ => true
  end.

(** An event that only shows something on the console. *)
Definition is_print (ev : Event) : bool :=
  match ev with
  | EvOut (Console _ _ _) | EvOut (Print _) => true
  | _ => false
  end.

(** A trace that leaves nothing behind: no request, no file, no question
    to the clock, the process environment or the database. *)
Definition only_prints (t : list Event) : Prop :=
  Forall (fun ev => is_print ev = true) t.

(** The warning of the status check about the pointer. *)
Definition is_pointer_warning (l : Level * string * fstring) : bool :=
  match l with
  | (WARN, s, _) => String.eqb s "EU1"
  | _ => false
  end.

(** A key as the registry lists it: an object whose rights, if any, are a
    list of strings. *)
Definition plain_key (k : json) : bool :=
  match k with
  | JObj k =>
      match get k "rights" (JArr []) with
      | JArr rights => forallb (fun r => bool_decide (is_Some (as_str r))) rights
      | _ => false
      end
  | _ => false
  end.

(** The rights of a plain key. *)
Definition rights_of (k : json) : list string :=
  match k with
  | JObj k =>
      match get k "rights" (JArr []) with
      | JArr rights => omap as_str rights
      | _ => []
      end
  | _ => []
  end.

(** The line the status check shows for a key. *)
Definition key_line (k : json) : Level * string * fstring :=
  (INFO, "Keys",
   [Lit "  ";
    FVal match k with
         | JObj k => get k "name" (JStr "unnamed")
         | _ => JNull
         end;
    Lit " ["; Lit (str_join ", " (rights_of k)); Lit "]"]).

(** A trace that changes nothing on this side: its requests carry the
    given key, and it writes no key file and no log and asks nothing of the
    process environment or the database. *)
Definition leaves_nothing (api_key : string) (t : list Event) : Prop :=
  Forall (sent_with api_key) t
  /\ written_files t = [] /\ written_logs t = [] /\ db_events t = [].

(** How the status check ends on the answer [r3] to the key listing, and
    what it shows: on a failed listing it returns; on a listing of plain
    keys it returns after the count and one line for each key. *)
Definition keys_shown (e : End) (r3 : Response)
    (shown : list (Level * string * fstring)) : Prop :=
  (ok r3 = false -> e = Returned)
  /\ (forall ks,
        ok r3 = true ->
        get (body r3) "api_keys" (JArr []) = JArr ks ->
        forallb plain_key ks = true ->
        e = Returned
        /\ exists pre,
             shown = pre ++ (OK, "Keys", [FInt (Z.of_nat (length ks));
                                          Lit " API key(s) found"])
                         :: (key_line <$> ks)).

(** [produces p a t]: [p] can return [a] and leave the trace [t], for some
    answers of the environment. *)
Inductive produces {A : Type} : Prog A -> A -> list Event -> Prop :=
| produces_ret a : produces (Ret a) a []
| produces_ask {X : Type} (e : Query X) k (x : X) a t :
    produces (k x) a t -> produces (Ask e k) a (event_of e x :: t)
| produces_tell o k a t :
    produces k a t -> produces (Tell o k) a (EvOut o :: t).




(** The questions of the wizard: lines on the console and readings of the
    process environment. *)
Definition is_question (ev : Event) : bool :=
  match ev with
  | EvOut (Console _ _ _) | EvOut (Print _) | EvGetenv _ _ => true
  | _ => false
  end.

(** An EUI as the wizard accepts it. *)
Definition checked_eui (eui : string) : Prop :=
  String.length eui = 16%nat /\ all_upper_hex eui = true.

(** An answer, as the wizard compares it: stripped and in lower case. *)
Definition answer_of (line : string) : string := lower (strip line).

(** What the wizard does once its questions are answered, given the lines
    of the standard input: nothing (it returns, or the input ends too
    early); or one status check; or one deprovisioning, after the answer
    yes, with a purge only after the answer y; or one provisioning run of
    a checked EUI under a named owner.  In each case the API key is not
    empty. *)
Inductive acted (R : Runtime) (lines : list string) : End -> list Event -> Prop :=
| acted_nothing e :
    e = Returned \/ e = Raised EOFError -> acted R lines e []
| acted_status api_key gw_id e t :
    api_key <> EmptyString -> gw_id <> EmptyString ->
    produces (check_gateway_status R api_key gw_id) e t ->
    acted R lines e t
| acted_deprovision api_key gw_id purge b t :
    api_key <> EmptyString -> gw_id <> EmptyString ->
    "yes" ∈ answer_of <$> lines ->
    (purge = true -> "y" ∈ answer_of <$> lines) ->
    produces (deprovision_gateway api_key gw_id purge) b t ->
    acted R lines Returned t
| acted_provision api_key a log t :
    api_key <> EmptyString ->
    checked_eui (gateway_eui a) ->
    owner_id a <> EmptyString ->
    owner_type a = "user" \/ owner_type a = "org" ->
    output_dir a = "." ->
    produces (provision (__init__ api_key) a) log t ->
    acted R lines Returned t.

(** A run of the wizard: questions, then what [acted] says. *)
Definition wizard (R : Runtime) (lines : list string) (e : End)
    (tr : list Event) : Prop :=
  exists t1 t2,
    tr = t1 ++ t2 /\ Forall (fun ev => is_question ev = true) t1
    /\ acted R lines e t2.

(** A part of the wizard that only asks: whatever is typed, it leaves
    nothing but questions; it ends the wizard by returning or because the
    input ends; and it goes on with a value that satisfies [V], on lines
    that were there before. *)
Definition asks {A : Type} (V : A -> Prop) (m : Script A) : Prop :=
  forall stdin, post (m stdin) (fun r tr =>
    Forall (fun ev => is_question ev = true) tr
    /\ match r with
       | inl e => e = Returned \/ e = Raised EOFError
       | inr (a, rest) => V a /\ rest ⊆ stdin
       end).

(** A part of the wizard that keeps to [wizard], when run on lines that
    are among [lines]. *)
Definition keeps_to_wizard (R : Runtime) (lines : list string)
    (s : Script unit) : Prop :=
  forall stdin, stdin ⊆ lines ->
    post (s stdin) (fun r tr =>
      wizard R lines match r with inl e => e | inr _ => Returned end tr).

(** What [main] does once it has the API key [key], if any: the wizard, or,
    with no key, an exit with status 1 after a line on the console, or the
    function of the mode that the flags name. *)
Definition dispatched (R : Runtime) (args : Namespace.t) (stdin : list string)
    (key : option string) (r : option End) (t : list Event) : Prop :=
  if interactive_mode args then
    exists e, r = Some e /\ produces (interactive_provision R key stdin) e t
  else if negb (str_truthy key) then
    r = Some (Exited 1) /\ only_prints t
  else
    let api_key := default EmptyString key in
    if str_truthy (Namespace.from_json args) then
      produces (batch_provision R api_key
                  (default EmptyString (Namespace.from_json args))) r t
    else if str_truthy (Namespace.status args) then
      exists e, r = Some e
        /\ produces (check_gateway_status R api_key
                       (default EmptyString (Namespace.status args))) e t
    else if str_truthy (Namespace.deprovision args) then
      r = Some Returned
      /\ exists b, produces (deprovision_gateway api_key
                               (default EmptyString (Namespace.deprovision args))
                               (Namespace.purge args)) b t
    else if negb (str_truthy (Namespace.owner_id args)) then
      r = Some (Exited 2) /\ only_prints t
    else
      r = Some Returned
      /\ exists log, produces (provision (__init__ api_key) (main_args args)) log t.

(** The owner a registration is made under, and the EUI it registers. *)
Definition owner_of (c : Call) : option string :=
  match c with
  | RegisterGatewayForUser owner _ | RegisterGatewayForOrg owner _ => Some owner
  | _ => None
  end.

Definition registered_eui (c : Call) : option json :=
  match c with
  | RegisterGatewayForUser _ gateway | RegisterGatewayForOrg _ gateway =>
      match gateway !! "ids" with
      | Some (JObj ids) => ids !! "eui"
      | _ => None
      end
  | _ => None
  end.

(** The three reads of a status check. *)
Definition status_calls (gateway_id : string) : list Call :=
  [GetGateway gateway_id; GetGatewayConnectionStats gateway_id;
   ListGatewayApiKeys gateway_id].

(** A status check ends by returning, or on a key listing it cannot go
    through. *)
Definition status_end (e : End) : Prop :=
  e = Returned \/ e = Raised TypeError \/ e = Raised AttributeError.


(** ** More concrete inputs *)

(** A runtime that parses no number and finds no file. *)
Definition bare_runtime : Runtime :=
  mkRuntime (fun d => (map_to_list d).*1) (fun _ => None) (fun _ => inl OSError).


(** Two keys as the registry lists them. *)
Definition lns_key_listed : json :=
  JObj (<[ "id" := JStr "KEYID1" ]>
        (<[ "name" := JStr "FrostGuard LNS Key - 20260211" ]>
         {[ "rights" := JArr [JStr "RIGHT_GATEWAY_LINK"] ]})).

Definition cups_key_listed : json :=
  JObj (<[ "id" := JStr "KEYID2" ]>
        (<[ "name" := JStr "FrostGuard CUPS Key - 20260211" ]>
         {[ "rights" := JArr [JStr "RIGHT_GATEWAY_INFO";
                              JStr "RIGHT_GATEWAY_SETTINGS_BASIC";
                              JStr "RIGHT_GATEWAY_READ_SECRETS"] ]})).

Definition key_listing : RawResult :=
  Resp 200 true
    (Some {[ "api_keys" := JArr [lns_key_listed; cups_key_listed] ]}).








(** [--status fg-gw-a00009ef], with no API key on the command line. *)
Definition status_flags : Namespace.t :=
  Namespace.mk false None (Some "fg-gw-a00009ef") None None None
    "FrostGuard Gateway" None "user" DEFAULT_FREQUENCY_PLAN None None (PInt 0)
    false false "." None None None.

(** [--gateway-eui 00800000a00009ef --api-key NNSXS.KEY], with no owner. *)
Definition flags_without_owner : Namespace.t :=
  Namespace.mk false None None None (Some "00800000a00009ef") None
    "FrostGuard Gateway" None "user" DEFAULT_FREQUENCY_PLAN None None (PInt 0)
    false false "." (Some "NNSXS.KEY") None None.


(** [--status fg-gw-a00009ef --api-key NNSXS.KEY] *)
Definition keyed_status_flags : Namespace.t :=
  Namespace.mk false None (Some "fg-gw-a00009ef") None None None
    "FrostGuard Gateway" None "user" DEFAULT_FREQUENCY_PLAN None None (PInt 0)
    false false "." (Some "NNSXS.KEY") None None.

(** The answers of the services to a status check of a gateway that is
    registered with the wrong pointer, is not connected and has two keys. *)
Definition status_answers : list RawResult :=
  [found drifted_record; not_found; key_listing].

(* ===================================================================== *)
(** * What the console shows of the keys *)
(* ===================================================================== *)



(* ===================================================================== *)
(** * Failures on the console and in the log *)
(* ===================================================================== *)

(** The lines of the console that report a failure. *)
Definition failed_lines (c : list (Level * string * fstring))
    : list (Level * string * fstring) :=
  flat_map (fun l => match l.1.1 with
                     | FAIL => [l]
                     | _ => []
                     end) c.

(** The lines by which [_record] reports the failed steps among [new]. *)
Definition failures (new : list StepResult) : list (Level * string * fstring) :=
  flat_map (fun s => if success s then [] else [(FAIL, step s, message s)]) new.

(** The steps added to the provisioner are those the console reports as
    failed, as far as failures go. *)
Definition agree (self self' : t) (tr : list Event) : Prop :=
  exists new, results self' = results self ++ new
              /\ failed_lines (console tr) = failures new.

(* ===================================================================== *)
(** * The two clusters *)
(* ===================================================================== *)


(* ===================================================================== *)
(** * The logic of [post] *)
(* ===================================================================== *)

Lemma post_mono {A} (p : Prog A) (Q Q' : A -> list Event -> Prop) :
  (forall a t, Q a t -> Q' a t) -> post p Q -> post p Q'.
Proof.
  revert Q Q'. induction p as [a | X e k IH | o k IH]; intros Q Q' HQ; cbn.
  - apply HQ.
  - intros Hp x. eapply IH; [ | apply Hp]. cbn. intros; by apply HQ.
  - apply IH. intros; by apply HQ.
Qed.

Lemma post_bind {A B} (m : Prog A) (f : A -> Prog B) (Q : B -> list Event -> Prop) :
  post m (fun a t1 => post (f a) (fun b t2 => Q b (t1 ++ t2))) -> post (bind m f) Q.
Proof.
  revert Q. induction m as [a | X e k IH | o k IH]; intros Q; cbn.
  - intros H. eapply post_mono; [ | apply H]. done.
  - intros H x. apply IH. eapply post_mono; [ | apply H]. done.
  - intros H. apply IH. eapply post_mono; [ | apply H]. done.
Qed.

Lemma calls_app t1 t2 : calls (t1 ++ t2) = calls t1 ++ calls t2.
Proof.
  induction t1 as [ | [] t1 IH]; cbn; by rewrite ?IH.
Qed.

Lemma written_logs_app t1 t2 : written_logs (t1 ++ t2) = written_logs t1 ++ written_logs t2.
Proof.
  induction t1 as [ | [ | | | | | []] t1 IH]; cbn; by rewrite ?IH.
Qed.

Ltac exec :=
  cbn [post bind ask tell step_ok step_fail step_info step_warn event_of
       TTNClient._request TTNClient.get_gateway
       TTNClient.register_gateway_for_user TTNClient.register_gateway_for_org
       TTNClient.update_gateway TTNClient.delete_gateway
       TTNClient.purge_gateway TTNClient.create_gateway_api_key
       TTNClient.get_gateway_connection_stats _record
       calls written_logs written_files console outputs fst snd
       results client app].


(* ===================================================================== *)
(** * What [provision] does against every environment *)
(* ===================================================================== *)

(** Steps 1 and 2 start with the existence query and go one of the four
    ways of [reconcile_outcome]. *)
Lemma steps_1_and_2_spec self a :
  post (provision_steps_1_and_2 self a) (fun r tr =>
    exists r1 rest,
      calls tr = (GetGateway (gateway_id a), r1) :: rest
      /\ reconcile_outcome self a r1 rest r
      /\ written_logs tr = [] /\ quiet tr).
Proof.
  unfold provision_steps_1_and_2, provision_step1, provision_step2, quiet.
  exec. intros raw. set (r1 := TTNClient.response_of raw). clearbody r1.
  destruct (ok r1) eqn:Hok1; exec.
  - (* the gateway exists *)
    intros now. rewrite Hok1. cbn [negb]. fold (drifted r1).
    destruct (drifted r1) eqn:Hd; exec.
    + intros raw2. set (r2 := TTNClient.response_of raw2). clearbody r2.
      destruct (ok r2) eqn:Hok2; exec; intros now2;
        rewrite <- app_assoc; cbn [app];
        (eexists _, _; split; [done|]; split;
         [ eapply (pointer_updated _ _ _ r2); cbn; by rewrite ?Hok2
         | repeat split; by repeat constructor ]).
    + eexists _, _; split; [done|]; split;
        [ eapply pointer_correct; by cbn | repeat split; by repeat constructor ].
  - (* no record was read *)
    assert (Hreg : forall k : RawResult -> Prog Response,
      (if String.eqb (owner_type a) "org"
       then Ask (SessionRequest (TTNClient.api_key (client self))
                   (RegisterGatewayForOrg (owner_id a) (gateway_payload a))) k
       else Ask (SessionRequest (TTNClient.api_key (client self))
                   (RegisterGatewayForUser (owner_id a) (gateway_payload a))) k)
      = Ask (SessionRequest (TTNClient.api_key (client self)) (register_call a)) k).
    { intros k. unfold register_call. by destruct (String.eqb _ _). }
    destruct (status r1 =? 404); exec; rewrite Hok1; cbn [negb]; exec;
      rewrite Hreg; exec;
      intros raw2; set (r2 := TTNClient.response_of raw2); clearbody r2;
      destruct (ok r2) eqn:Hok2; exec; intros now2;
      (eexists _, _; split; [done|]; split;
       [ first [ eapply (registered _ _ _ r2); by cbn
               | eapply (registration_failed _ _ _ r2); by cbn ]
       | repeat split; by repeat constructor ]).
Qed.

Lemma grows_refl self : grows self self.
Proof. exists []. by rewrite app_nil_r. Qed.

Lemma grows_one c rs s :
  reconcile_step s = false -> grows (mk c rs) (mk c (rs ++ [s])).
Proof. intros Hs. exists [s]. split; [done | by constructor]. Qed.

Lemma grows_trans s1 s2 s3 : grows s1 s2 -> grows s2 s3 -> grows s1 s3.
Proof.
  intros (n1 & H1 & F1) (n2 & H2 & F2). exists (n1 ++ n2).
  rewrite H2, H1, app_assoc. split; [done | by apply Forall_app].
Qed.

Lemma step3_spec self a :
  post (provision_step3 self a) (fun self' tr =>
    (calls tr).*1 = location_calls a /\ written_logs tr = [] /\ grows self self').
Proof.
  unfold provision_step3, location_calls.
  destruct (latitude a) as [lat|], (longitude a) as [lon|]; exec;
    try (repeat split; try done; apply grows_refl).
  intros raw. destruct (ok _); exec; intros now;
    (repeat split; try done); destruct self; by apply grows_one.
Qed.

Lemma step4_spec self a creds :
  post (provision_step4 self a creds) (fun sc tr =>
    (exists d, (calls tr).*1 = lns_calls a d)
    /\ written_logs tr = [] /\ grows self sc.1
    /\ forall c r, (c, r) ∈ calls tr -> ok r = true ->
         sc.2 !! "lns_key_id" = Some (get (body r) "id" (JStr EmptyString))).
Proof.
  unfold provision_step4, lns_calls.
  destruct (generate_lns_key a); exec.
  - intros d raw. destruct (ok _) eqn:Hok; exec; intros now;
      (split; [by exists d|split; [done|split]]);
      try (destruct self; by apply grows_one);
      intros c r Hin%list_elem_of_singleton; simplify_eq; [|congruence].
    intros _. by rewrite lookup_insert_ne, lookup_insert_eq.
  - split; [by exists epoch|]. split; [done|]. split; [apply grows_refl|].
    by intros c r ?%elem_of_nil.
Qed.

Lemma step5_spec self a creds :
  post (provision_step5 self a creds) (fun sc tr =>
    (exists d, (calls tr).*1 = cups_calls a d)
    /\ written_logs tr = [] /\ grows self sc.1
    /\ sc.2 !! "lns_key_id" = creds !! "lns_key_id"
    /\ forall c r, (c, r) ∈ calls tr -> ok r = true ->
         sc.2 !! "cups_key_id" = Some (get (body r) "id" (JStr EmptyString))).
Proof.
  unfold provision_step5, cups_calls.
  destruct (generate_cups_key a); exec.
  - intros d raw. destruct (ok _) eqn:Hok; exec; intros now;
      (split; [by exists d|split; [done|split; [|split]]]);
      try (destruct self; by apply grows_one);
      try (by rewrite ?lookup_insert_ne by done);
      intros c r Hin%list_elem_of_singleton; simplify_eq; [|congruence].
    intros _. by rewrite lookup_insert_ne, lookup_insert_eq.
  - split; [by exists epoch|]. split; [done|]. split; [apply grows_refl|].
    split; [done|]. by intros c r ?%elem_of_nil.
Qed.

Lemma step6_spec self a :
  post (provision_step6 self a) (fun self' tr =>
    written_logs tr = []
    /\ exists r s,
         calls tr = [(GetGatewayConnectionStats (gateway_id a), r)]
         /\ results self' = results self ++ [s]
         /\ step s = "verify_nam1"
         /\ success s = ok r || (status r =? 404)).
Proof.
  unfold provision_step6. exec. intros raw.
  set (r := TTNClient.response_of raw). clearbody r.
  destruct (ok r) eqn:Hok; [|destruct (status r =? 404) eqn:H404]; exec;
    intros now; (split; [done|]); eexists r, _;
    (split; [done|]); (split; [done|]); cbn; by rewrite ?Hok, ?H404.
Qed.

Lemma store_in_supabase_spec gid eui nm org site plan :
  post (_store_in_supabase gid eui nm org site plan) (fun _ tr =>
    calls tr = [] /\ written_logs tr = []).
Proof.
  unfold _store_in_supabase. exec. intros [u|] [k|]; exec; try done.
  destruct (_ || _); exec; [done|].
  intros [ | |e]; exec; try done.
  intros now [b|e]; exec; done.
Qed.

Lemma step7_spec self a :
  post (provision_step7 self a) (fun self' tr =>
    calls tr = [] /\ written_logs tr = [] /\ grows self self').
Proof.
  unfold provision_step7.
  destruct (fg_org_id a) as [org|]; [destruct (str_truthy _)|]; exec;
    try (repeat split; try done; apply grows_refl).
  apply post_bind. eapply post_mono; [|apply store_in_supabase_spec].
  intros b tr [Hc Hl]. destruct b; exec; intros now;
    rewrite calls_app, written_logs_app, Hc, Hl; cbn;
    (repeat split; try done); destruct self; by apply grows_one.
Qed.

Lemma summary_spec self gid creds :
  post (_summary self gid creds) (fun log tr =>
    calls tr = [] /\ written_logs tr = [(log_path gid, log)]
    /\ written_files tr = [] /\ Forall (fun ev => is_db_event ev = false) tr
    /\ steps log = results self
    /\ credentials log = mkLogCredentials (get_or_none creds "lns_key_id")
                                          (get_or_none creds "cups_key_id")).
Proof.
  unfold _summary. exec. intros now. repeat split; try done. by repeat constructor.
Qed.

(** Steps 3 to 8. *)
Lemma steps_3_to_8_spec self a creds :
  post (provision_steps_3_to_8 self a creds) (later_spec self a).
Proof.
  unfold provision_steps_3_to_8.
  apply post_bind. eapply post_mono; [|apply step3_spec].
  intros self3 t3 (Hc3 & Hl3 & G3).
  apply post_bind. eapply post_mono; [|apply step4_spec].
  intros [self4 cr4] t4 ((d1 & Hc4) & Hl4 & G4 & Hid4). cbn [fst snd] in *.
  apply post_bind. eapply post_mono; [|apply step5_spec].
  intros [self5 cr5] t5 ((d2 & Hc5) & Hl5 & G5 & Hkeep & Hid5). cbn [fst snd] in *.
  apply post_bind. eapply post_mono; [|apply step6_spec].
  intros self6 t6 (Hl6 & r & s & Hc6 & Hr6 & Hs6 & Hv6).
  apply post_bind. eapply post_mono; [|apply step7_spec].
  intros self7 t7 (Hc7 & Hl7 & G7).
  unfold _print_connection_info. exec.
  eapply post_mono; [|apply summary_spec].
  intros log t8 (Hc8 & Hl8 & _ & _ & Hsteps & Hcred).
  unfold later_spec.
  rewrite !calls_app, !written_logs_app. cbn [calls written_logs].
  rewrite Hl3, Hl4, Hl5, Hl6, Hl7, Hl8, Hc6, Hc7, Hc8. cbn [app].
  rewrite ?app_nil_r.
  split; [|split; [|split; [done|]]].
  - exists d1, d2. rewrite !fmap_app, Hc3, Hc4, Hc5. done.
  - pose proof (grows_trans _ _ _ G3 (grows_trans _ _ _ G4 G5)) as (n5 & H5 & F5).
    destruct G7 as (n7 & H7 & F7).
    exists (n5 ++ [s] ++ n7). split; [|split].
    + rewrite Hsteps, H7, Hr6, H5. by rewrite <- !app_assoc.
    + apply Forall_app; split; [done|]. apply Forall_app; split; [|done].
      constructor; [|done]. unfold reconcile_step. by rewrite Hs6.
    + exists r, s. split; [|split; [|done]].
      * by rewrite !app_assoc, last_snoc.
      * set_solver.
  - intros c r' Hin Hkey Hok. unfold key_id_logged. rewrite Hcred. cbn.
    unfold get_or_none, get.
    rewrite !elem_of_app in Hin. destruct Hin as [Hin|[Hin|[Hin|Hin]]].
    + apply (list_elem_of_fmap_2 fst) in Hin. rewrite Hc3 in Hin. cbn in Hin.
      unfold location_calls in Hin.
      destruct (latitude a), (longitude a);
        try (by apply elem_of_nil in Hin).
      apply list_elem_of_singleton in Hin. by subst c.
    + left. by rewrite Hkeep, (Hid4 _ _ Hin Hok).
    + right. by rewrite (Hid5 _ _ Hin Hok).
    + apply list_elem_of_singleton in Hin. by simplify_eq.
Qed.

Lemma post_run {A} (p : Prog A) (Q : A -> list Event -> Prop) :
  post p Q -> forall E w, Q (result (run E p w)) (trace (run E p w)).
Proof.
  revert Q. induction p as [a | X e k IH | o k IH]; intros Q Hp E w; cbn in *.
  - done.
  - apply (IH _ _ (Hp _)).
  - apply (IH _ Hp).
Qed.

Lemma written_files_app t1 t2 :
  written_files (t1 ++ t2) = written_files t1 ++ written_files t2.
Proof.
  induction t1 as [ | [ | | | | | []] t1 IH]; cbn; by rewrite ?IH.
Qed.

Lemma quiet_app t1 t2 : quiet t1 -> quiet t2 -> quiet (t1 ++ t2).
Proof.
  intros [F1 D1] [F2 D2]. split.
  - by rewrite written_files_app, F1, F2.
  - by apply Forall_app.
Qed.

(** The whole run. *)
Lemma provision_post self a : post (provision self a) (provision_spec self a).
Proof.
  unfold provision. exec.
  apply post_bind. eapply post_mono; [|apply steps_1_and_2_spec].
  intros r t12 (r1 & rest & Hc & Hout & Hl & Hq).
  destruct r as [self'|self'].
  - eapply post_mono; [|apply summary_spec].
    intros log t8 (Hc8 & Hl8 & Hf8 & Hd8 & Hsteps & _).
    exists r1, rest, (inl self'). split; [done|].
    destruct (quiet_app t12 t8 Hq (conj Hf8 Hd8)) as [Hf Hd].
    cbn [calls written_logs written_files].
    rewrite calls_app, written_logs_app, Hc, Hc8, Hl, Hl8, app_nil_r.
    repeat split; try done. by repeat constructor.
  - eapply post_mono; [|apply steps_3_to_8_spec].
    intros log t38 Hlater.
    exists r1, rest, (inr self'). split; [done|]. exists t38.
    cbn [calls written_logs].
    rewrite calls_app, written_logs_app, Hc, Hl. done.
Qed.

Lemma provision_run E w self a :
  provision_spec self a (result (run E (provision self a) w))
                        (trace (run E (provision self a) w)).
Proof. apply post_run, provision_post. Qed.

Lemma after_reconcile_later a d1 d2 :
  Forall (fun c => after_reconcile c = true) (later_calls a d1 d2).
Proof.
  unfold later_calls, location_calls, lns_calls, cups_calls.
  repeat apply Forall_app_2;
    repeat case_match; by repeat constructor.
Qed.

Lemma after_reconcile_harmless c :
  after_reconcile c = true ->
  is_register c = false /\ touches_pointer c = false /\ is_stats c = is_stats c.
Proof.
  destruct c; cbn; try done. intros H%bool_decide_eq_true. by subst.
Qed.



Lemma later_calls_harmless a d1 d2 :
  Forall (fun c => is_register c = false /\ touches_pointer c = false)
         (later_calls a d1 d2).
Proof.
  eapply Forall_impl; [apply after_reconcile_later|].
  intros c Hc. by destruct (after_reconcile_harmless c Hc) as (? & ? & _).
Qed.


Lemma filter_none {A} (P : A -> Prop) `{forall x, Decision (P x)} (l : list A) :
  Forall (fun x => ~ P x) l -> filter P l = [].
Proof.
  induction 1 as [|x l Hx Hl IH]; [done|]. by rewrite filter_cons_False.
Qed.






(* ===================================================================== *)
(** * Deprovisioning *)
(* ===================================================================== *)

(** A deprovisioning run goes one of the five ways of
    [deprovision_outcome], and reports every [False] as a failed step. *)
Lemma deprovision_post api_key gid purge :
  post (deprovision_gateway api_key gid purge) (fun b tr =>
    deprovision_outcome gid purge (calls tr) b
    /\ (b = false ->
        exists r, last (calls tr) = Some r /\
          last (console tr) = Some (FAIL,
            match r.1 with
            | GetGateway _ => "Check" | DeleteGateway _ => "Delete" | _ => "Purge"
            end,
            match r.1 with
            | GetGateway _ => [Lit "Gateway not found: "; FVal (JObj (body r.2))]
            | _ => [Lit "Failed: "; FVal (JObj (body r.2))]
            end))).
Proof.
  unfold deprovision_gateway. exec. intros raw1.
  set (r1 := TTNClient.response_of raw1). clearbody r1.
  destruct (ok r1) eqn:H1; cbn [negb]; exec.
  2:{ split; [by constructor|]. intros _. by eexists. }
  intros raw2. set (r2 := TTNClient.response_of raw2). clearbody r2.
  fold (went_through r2). destruct (went_through r2) eqn:H2; exec.
  2:{ split; [by constructor|]. intros _. by eexists. }
  destruct purge; exec.
  - intros raw3. set (r3 := TTNClient.response_of raw3). clearbody r3.
    fold (went_through r3). destruct (went_through r3) eqn:H3; exec.
    + intros raw4. destruct (status _ =? 404); exec; (split; [by constructor|done]).
    + split; [by constructor|]. intros _. by eexists.
  - intros raw4. destruct (status _ =? 404); exec; (split; [by constructor|done]).
Qed.

(** Claim C7.  Monotonic deletion: in a deprovisioning run a purge is
    called only after a soft delete of the same run went through; a purge
    that fails is the last call of the run, which returns [False]; and no
    call of the run registers or updates a gateway, so nothing is undone. *)
Theorem deletion_is_monotonic E w api_key gateway_id purge :
  let o := run E (deprovision_gateway api_key gateway_id purge) w in
  let cs := calls (trace o) in
  (forall i c r, cs !! i = Some (c, r) -> is_purge c = true ->
     exists j rd, (j < i)%nat /\ cs !! j = Some (DeleteGateway gateway_id, rd)
                  /\ (ok rd = true \/ status rd = 200))
  /\ (forall i c r, cs !! i = Some (c, r) -> is_purge c = true ->
        ok r = false -> status r ≠ 200 ->
        length cs = S i /\ result o = false)
  /\ Forall (fun c => is_register c = false /\ is_update c = false) cs.*1.
Proof.
  intros o cs.
  destruct (post_run _ _ (deprovision_post api_key gateway_id purge) E w) as [Hout _].
  fold o in Hout. fold cs in Hout.
  assert (Hwt : forall r, went_through r = true -> ok r = true \/ status r = 200).
  { intros r. unfold went_through. rewrite orb_true_iff, Z.eqb_eq. tauto. }
  destruct Hout; (split; [|split]); try (cbn; by repeat constructor);
    intros [|[|[|[|i]]]] c r Hi Hc; cbn in Hi; simplify_eq; try done.
  - exists 1%nat, r2. split; [lia|]. split; [done|by apply Hwt].
  - exists 1%nat, r2. split; [lia|]. split; [done|by apply Hwt].
  - intros Hok Hst. exfalso.
    match goal with
    | H : went_through r = true |- _ => destruct (Hwt _ H); congruence
    end.
Qed.

(** Claim C8, as amended.  When the existence query of a deprovisioning
    run fails (the gateway is not found, or any other failure), the run
    aborts: the query is its only call, so nothing is deleted, purged or
    verified.  The outcome is reported as a failed step, [Check], and the
    function returns [False], as it does when a delete or a purge fails. *)
Theorem not_found_at_entry_aborts E w api_key gateway_id purge :
  let o := run E (deprovision_gateway api_key gateway_id purge) w in
  forall c1 r1,
    calls (trace o) !! 0%nat = Some (c1, r1) -> ok r1 = false ->
    calls (trace o) = [(GetGateway gateway_id, r1)]
    /\ result o = false
    /\ last (console (trace o))
       = Some (FAIL, "Check", [Lit "Gateway not found: "; FVal (JObj (body r1))]).
Proof.
  intros o c1 r1 H0 Hok.
  destruct (post_run _ _ (deprovision_post api_key gateway_id purge) E w) as [Hout Hfail].
  fold o in Hout, Hfail.
  remember (calls (trace o)) as cs eqn:Hcs.
  remember (result o) as b eqn:Hb.
  destruct Hout; cbn in H0; simplify_eq; try congruence.
  split; [done|]. split; [done|].
  destruct (Hfail eq_refl) as (r & Hl & Hc). cbn in Hl. by simplify_eq.
Qed.


(* ===================================================================== *)
(** * Runs against the two services *)
(* ===================================================================== *)

(** The exchanges of a run and the registry it leaves are those its calls
    give rise to. *)
Lemma services_replay E0 faults {A} (p : Prog A) (w : RWorld E0) :
  let o := run (services E0 faults) p w in
  calls (trace o) = exchanges faults (calls (trace o)).*1 (registry w) (asked w)
  /\ registry (final o)
     = registry_after faults (calls (trace o)).*1 (registry w) (asked w).
Proof.
  revert w. induction p as [a | X e k IH | o k IH]; intros w; cbn.
  - done.
  - destruct e; cbn; try exact (IH _ _).
    specialize (IH (serve faults c w).1 (serve faults c w).2). cbn in IH.
    destruct IH as [IH1 IH2]. split; [by f_equal | done].
  - apply IH.
Qed.

Lemma failure_not_ok f : ok (TTNClient.response_of (raw_of_failure f)) = false.
Proof. by destruct f. Qed.

Lemma serve_registry_ok faults n c s :
  ok (TTNClient.response_of (serve_registry faults n c s).1) = true ->
  serve_registry faults n c s = registry_step c s.
Proof.
  unfold serve_registry. destruct (faults n) as [f|]; [|done].
  cbn. by rewrite failure_not_ok.
Qed.

Lemma serve_registry_state faults n c s :
  (serve_registry faults n c s).2 = s
  \/ (serve_registry faults n c s).2 = (registry_step c s).2.
Proof.
  unfold serve_registry. destruct (faults n) as [[f []]|]; cbn; auto.
Qed.

Lemma get_gateway_pure gid s : (registry_step (GetGateway gid) s).2 = s.
Proof. cbn. by destruct (gateways s !! gid). Qed.

Lemma apply_mask_other field_mask gateway record k :
  k ∉ field_mask -> apply_mask field_mask gateway record !! k = record !! k.
Proof.
  induction field_mask as [|p m IH]; [done|]. intros Hk.
  apply not_elem_of_cons in Hk as [Hp Hm]. cbn.
  destruct (gateway !! p).
  - rewrite lookup_insert_ne by done. by apply IH.
  - rewrite lookup_delete_ne by done. by apply IH.
Qed.

Lemma registry_step_preserves c s gid :
  after_reconcile c = true ->
  server_pointer (registry_step c s).2 gid = server_pointer s gid.
Proof.
  destruct c as [ | | | id gw mask | | | id nm rights | | id]; cbn; try done.
  - intros ->%bool_decide_eq_true.
    destruct (gateways s !! id) as [record|] eqn:Hrec; [|done].
    unfold server_pointer. cbn.
    destruct (decide (id = gid)) as [->|Hne].
    + rewrite lookup_insert_eq, Hrec. cbn.
      apply (apply_mask_other ["antennas"] gw record).
      by intros ?%list_elem_of_singleton.
    + by rewrite lookup_insert_ne.
  - intros _. by destruct (gateways s !! id).
  - intros _. by case_bool_decide.
Qed.

Lemma serve_registry_preserves faults n c s gid :
  after_reconcile c = true ->
  server_pointer (serve_registry faults n c s).2 gid = server_pointer s gid.
Proof.
  intros Hc. destruct (serve_registry_state faults n c s) as [-> | ->]; [done|].
  by apply registry_step_preserves.
Qed.

Lemma registry_after_preserves faults cs s n gid :
  Forall (fun c => after_reconcile c = true) cs ->
  server_pointer (registry_after faults cs s n) gid = server_pointer s gid.
Proof.
  intros Hcs. revert s n. induction Hcs as [|c cs Hc _ IH]; intros s n; cbn; [done|].
  rewrite IH. by apply serve_registry_preserves.
Qed.

Lemma register_sets_pointer a s :
  ok (TTNClient.response_of (registry_step (register_call a) s).1) = true ->
  server_pointer (registry_step (register_call a) s).2 (gateway_id a)
  = Some (JStr NAM1_HOST).
Proof.
  assert (registry_step (register_call a) s = registry_register (gateway_payload a) s)
    as -> by (unfold register_call; by destruct (String.eqb _ _)).
  unfold registry_register, gateway_payload.
  rewrite lookup_insert_eq, lookup_insert_eq.
  destruct (_ || _); [done|]. intros _.
  unfold server_pointer. cbn. rewrite lookup_insert_eq. cbn.
  by rewrite !lookup_insert_ne, lookup_insert_eq by done.
Qed.

Lemma update_sets_pointer a s :
  ok (TTNClient.response_of (registry_step (pointer_update a) s).1) = true ->
  server_pointer (registry_step (pointer_update a) s).2 (gateway_id a)
  = Some (JStr NAM1_HOST).
Proof.
  cbn. destruct (gateways s !! gateway_id a) as [record|]; [|done]. intros _.
  unfold server_pointer. cbn. rewrite lookup_insert_eq. cbn.
  by rewrite lookup_singleton_eq, lookup_insert_eq.
Qed.

Lemma not_drifted d k :
  ne_str (get d k (JStr EmptyString)) NAM1_HOST = false ->
  d !! k = Some (JStr NAM1_HOST).
Proof.
  unfold get. destruct (d !! k) as [[]|]; cbn; try done.
  intros H%negb_false_iff%String.eqb_eq. by subst.
Qed.

Lemma read_correct_pointer gid s r :
  r = TTNClient.response_of (registry_step (GetGateway gid) s).1 ->
  ok r = true -> drifted r = false ->
  server_pointer s gid = Some (JStr NAM1_HOST).
Proof.
  intros -> Hok Hd. cbn in *. unfold server_pointer.
  destruct (gateways s !! gid) as [record|]; [|done]. cbn in *.
  by apply not_drifted.
Qed.


Lemma reconciled_steps (log : Log) pre s post :
  steps log = pre ++ s :: post -> reconciled log = true ->
  reconcile_step s = true -> success s = true.
Proof.
  unfold reconciled. intros -> H Hs.
  rewrite forallb_app in H. apply andb_true_iff in H as [_ H]. cbn in H.
  apply andb_true_iff in H as [H _]. by rewrite Hs in H.
Qed.

Lemma get_then faults gid cs s n :
  exchanges faults (GetGateway gid :: cs) s n
  = (GetGateway gid, TTNClient.response_of (serve_registry faults n (GetGateway gid) s).1)
    :: exchanges faults cs s (S n)
  /\ registry_after faults (GetGateway gid :: cs) s n
     = registry_after faults cs s (S n).
Proof.
  cbn. assert ((serve_registry faults n (GetGateway gid) s).2 = s) as ->; [|done].
  destruct (serve_registry_state faults n (GetGateway gid) s) as [H|H];
    rewrite H; [done|apply get_gateway_pure].
Qed.

(** A reconciled run leaves the pointer on NAM1. *)
Lemma reconciled_pointer E0 faults (w : RWorld E0) self a :
  let o := run (services E0 faults) (provision self a) w in
  reconciled (result o) = true ->
  server_pointer (registry (final o)) (gateway_id a) = Some (JStr NAM1_HOST).
Proof.
  intros o Hrec.
  destruct (provision_run (services E0 faults) w self a) as (r1 & rest & r & Hout & Hr).
  destruct (services_replay E0 faults (provision self a) w) as [Hex Hfin].
  fold o in Hr, Hex, Hfin. rewrite Hfin. clear Hfin.
  destruct Hout as [r2 s Ha Hb Hs Hf Hdt | r2 s Ha Hb Hs Hf
                   | r2 s0 s Ha Hdr Hs0 Hf0 Hs Hf | s0 Ha Hdr].
  - (* registration failed: the run is not reconciled *)
    destruct Hr as (_ & Hsteps & _). cbn in Hsteps.
    assert (success s = true); [|congruence].
    eapply (reconciled_steps _ _ s []); [by rewrite Hsteps| done |].
    unfold reconcile_step. by rewrite Hs.
  - (* registered *)
    destruct Hr as (tr2 & Hc & ((d1 & d2 & Hlater) & _) & _).
    assert (Hcs : (calls (trace o)).*1
                  = GetGateway (gateway_id a) :: register_call a
                    :: later_calls a d1 d2)
      by (by rewrite Hc, fmap_cons, fmap_app, Hlater).
    rewrite Hcs in Hex |- *. rewrite Hc in Hex.
    destruct (get_then faults (gateway_id a)
                (register_call a :: later_calls a d1 d2) (registry w) (asked w))
      as [He Hr]. rewrite He in Hex. rewrite Hr. clear He Hr.
    cbn in Hex. injection Hex as _ Hr2 _. cbn.
    rewrite registry_after_preserves by apply after_reconcile_later.
    rewrite Hr2 in Hb. rewrite (serve_registry_ok _ _ _ _ Hb) in Hb |- *.
    by apply register_sets_pointer.
  - (* the pointer was updated *)
    destruct Hr as (tr2 & Hc & ((d1 & d2 & Hlater) & (new & Hsteps & _) & _) & _).
    assert (ok r2 = true) as Hok2.
    { rewrite <- Hf. eapply (reconciled_steps _ (results self ++ [s0]) s new); [|done|].
      - rewrite Hsteps. cbn. by rewrite <- !app_assoc.
      - unfold reconcile_step. rewrite Hs. by rewrite orb_true_r. }
    assert (Hcs : (calls (trace o)).*1
                  = GetGateway (gateway_id a) :: pointer_update a
                    :: later_calls a d1 d2)
      by (by rewrite Hc, fmap_cons, fmap_app, Hlater).
    rewrite Hcs in Hex |- *. rewrite Hc in Hex.
    destruct (get_then faults (gateway_id a)
                (pointer_update a :: later_calls a d1 d2) (registry w) (asked w))
      as [He Hr]. rewrite He in Hex. rewrite Hr. clear He Hr.
    cbn in Hex. injection Hex as _ Hr2 _. cbn.
    rewrite registry_after_preserves by apply after_reconcile_later.
    rewrite Hr2 in Hok2.
    change (UpdateGateway _ _ _) with (pointer_update a) in Hok2 |- *.
    rewrite (serve_registry_ok _ _ _ _ Hok2) in Hok2 |- *.
    by apply update_sets_pointer.
  - (* the pointer was correct *)
    destruct Hr as (tr2 & Hc & ((d1 & d2 & Hlater) & _) & _).
    assert (Hcs : (calls (trace o)).*1
                  = GetGateway (gateway_id a) :: later_calls a d1 d2)
      by (rewrite Hc; cbn [app]; by rewrite fmap_cons, Hlater).
    rewrite Hcs in Hex |- *. rewrite Hc in Hex.
    destruct (get_then faults (gateway_id a) (later_calls a d1 d2)
                (registry w) (asked w)) as [He Hr].
    rewrite He in Hex. rewrite Hr. clear He Hr.
    injection Hex as Hr1 _.
    rewrite registry_after_preserves by apply after_reconcile_later.
    pose proof Ha as Hok. rewrite Hr1 in Ha.
    rewrite (serve_registry_ok _ _ _ _ Ha) in Hr1.
    by eapply read_correct_pointer.
Qed.


Lemma first_exchange E0 faults {A} (p : Prog A) (w : RWorld E0) c r l :
  calls (trace (run (services E0 faults) p w)) = (c, r) :: l ->
  r = TTNClient.response_of (serve_registry faults (asked w) c (registry w)).1.
Proof.
  intros Hc. destruct (services_replay E0 faults p w) as [Hex _].
  rewrite Hc in Hex. cbn in Hex. by injection Hex.
Qed.

Lemma pointer_is_read faults n gid s :
  faults n = None ->
  server_pointer s gid = Some (JStr NAM1_HOST) ->
  let r := TTNClient.response_of (serve_registry faults n (GetGateway gid) s).1 in
  ok r = true /\ drifted r = false.
Proof.
  intros Hf Hp. unfold serve_registry. rewrite Hf. unfold server_pointer in Hp.
  cbn. destruct (gateways s !! gid) as [record|]; [|done]. cbn in *.
  split; [done|]. unfold drifted, get. cbn. by rewrite Hp.
Qed.


Lemma reconciled_cases E (w : world E) self a :
  let o := run E (provision self a) w in
  reconciled (result o) = true ->
  exists r1 rest,
    calls (trace o) = (GetGateway (gateway_id a), r1) :: rest
    /\ ((ok r1 = false
         /\ exists r2 later,
              rest = (register_call a, r2) :: later /\ ok r2 = true
              /\ Forall (fun c => after_reconcile c = true) later.*1)
        \/ (ok r1 = true /\ drifted r1 = true
            /\ exists r2 later,
                 rest = (pointer_update a, r2) :: later /\ ok r2 = true
                 /\ Forall (fun c => after_reconcile c = true) later.*1)
        \/ (ok r1 = true /\ drifted r1 = false
            /\ Forall (fun c => after_reconcile c = true) rest.*1)).
Proof.
  intros o Hrec.
  destruct (provision_run E w self a) as (r1 & rest & r & Hout & Hr).
  fold o in Hr. exists r1.
  destruct Hout as [r2 s Ha Hb Hs Hf Hdt | r2 s Ha Hb Hs Hf
                   | r2 s0 s Ha Hdr Hs0 Hf0 Hs Hf | s0 Ha Hdr].
  - destruct Hr as (_ & Hsteps & _). cbn in Hsteps.
    assert (success s = true); [|congruence].
    eapply (reconciled_steps _ _ s []); [by rewrite Hsteps| done |].
    unfold reconcile_step. by rewrite Hs.
  - destruct Hr as (tr2 & Hc & ((d1 & d2 & Hlater) & _) & _).
    eexists. split; [exact Hc|]. left. split; [done|].
    exists r2, (calls tr2). repeat split; try done.
    rewrite Hlater. apply after_reconcile_later.
  - destruct Hr as (tr2 & Hc & ((d1 & d2 & Hlater) & (new & Hsteps & _) & _) & _).
    eexists. split; [exact Hc|]. right. left. repeat split; try done.
    exists r2, (calls tr2). repeat split; try done.
    + rewrite <- Hf.
      eapply (reconciled_steps _ (results self ++ [s0]) s new); [|done|].
      * rewrite Hsteps. cbn. by rewrite <- !app_assoc.
      * unfold reconcile_step. rewrite Hs. by rewrite orb_true_r.
    + rewrite Hlater. apply after_reconcile_later.
  - destruct Hr as (tr2 & Hc & ((d1 & d2 & Hlater) & _) & _).
    eexists. split; [exact Hc|]. right. right. repeat split; try done.
    cbn [app]. rewrite Hlater. apply after_reconcile_later.
Qed.

(** Claim C1.  Against the two services, whatever calls fail: when a run
    of [provision] ends with no failed step of the reconcile phase in its
    log, the record of the gateway in the identity registry points to NAM1.
    The run was one of three.  Either the record was registered, by one call
    whose payload carries the pointer; or its pointer was corrected by an
    update that succeeded; or it was read with the right pointer and left
    alone.  In each case the calls that follow leave the pointer alone. *)
Theorem pointer_is_correct_after_reconciliation
    E0 faults (w : RWorld E0) self a :
  let o := run (services E0 faults) (provision self a) w in
  reconciled (result o) = true ->
  server_pointer (registry (final o)) (gateway_id a) = Some (JStr NAM1_HOST)
  /\ gateway_payload a !! "gateway_server_address" = Some (JStr NAM1_HOST)
  /\ exists r1 rest,
       calls (trace o) = (GetGateway (gateway_id a), r1) :: rest
       /\ ((ok r1 = false
            /\ exists r2 later,
                 rest = (register_call a, r2) :: later /\ ok r2 = true
                 /\ Forall (fun c => after_reconcile c = true) later.*1)
           \/ (ok r1 = true /\ drifted r1 = true
               /\ exists r2 later,
                    rest = (pointer_update a, r2) :: later /\ ok r2 = true
                    /\ Forall (fun c => after_reconcile c = true) later.*1)
           \/ (ok r1 = true /\ drifted r1 = false
               /\ Forall (fun c => after_reconcile c = true) rest.*1)).
Proof.
  intros o Hrec. split; [by apply reconciled_pointer|]. split; [done|].
  by apply reconciled_cases.
Qed.

(** Claim C2.  Idempotence: run [provision] against the registry that a
    reconciled first run has left, with the same arguments, and let the
    existence query be answered.  The second run reads a record whose
    pointer is correct, makes no registration and no update of the pointer
    (every later call is of steps 3 to 6), records no step of the reconcile
    phase, and leaves the pointer as the first run left it: on NAM1. *)
Theorem second_run_changes_nothing
    E0 faults1 (w1 : RWorld E0) self1 a
    E0' faults2 (n2 : nat) (b2 : world E0') self2 :
  let o1 := run (services E0 faults1) (provision self1 a) w1 in
  let o2 := run (services E0' faults2) (provision self2 a)
                (mkRWorld (registry (final o1)) n2 b2) in
  reconciled (result o1) = true -> faults2 n2 = None ->
  (exists r1 later,
     calls (trace o2) = (GetGateway (gateway_id a), r1) :: later
     /\ ok r1 = true /\ drifted r1 = false
     /\ Forall (fun c => after_reconcile c = true) later.*1)
  /\ Forall (fun c => is_register c = false /\ touches_pointer c = false)
            (calls (trace o2)).*1
  /\ (exists new, steps (result o2) = results self2 ++ new
                  /\ Forall (fun s => reconcile_step s = false) new)
  /\ server_pointer (registry (final o2)) (gateway_id a)
     = server_pointer (registry (final o1)) (gateway_id a)
  /\ server_pointer (registry (final o1)) (gateway_id a) = Some (JStr NAM1_HOST).
Proof.
  intros o1 o2 Hrec Hf.
  pose proof (reconciled_pointer E0 faults1 w1 self1 a Hrec) as Hp1. fold o1 in Hp1.
  set (w2 := mkRWorld (registry (final o1)) n2 b2) in *.
  destruct (provision_run (services E0' faults2) w2 self2 a)
    as (r1 & rest & r & Hout & Hr).
  destruct (services_replay E0' faults2 (provision self2 a) w2) as [_ Hfin].
  fold o2 in Hr, Hfin.
  assert (Hr1 : forall l, calls (trace o2) = (GetGateway (gateway_id a), r1) :: l ->
                ok r1 = true /\ drifted r1 = false).
  { intros l Hl. rewrite (first_exchange _ _ _ _ _ _ _ Hl).
    by apply pointer_is_read. }
  destruct Hout as [r2 s Ha Hb Hs Hsf Hdt | r2 s Ha Hb Hs Hsf
                   | r2 s0 s Ha Hdr Hs0 Hf0 Hs Hsf | s0 Ha Hdr Hs0 Hf0].
  - destruct Hr as (Hc & _). destruct (Hr1 _ Hc). congruence.
  - destruct Hr as (tr2 & Hc & _). destruct (Hr1 _ Hc). congruence.
  - destruct Hr as (tr2 & Hc & _). destruct (Hr1 _ Hc). congruence.
  - destruct Hr as (tr2 & Hc & ((d1 & d2 & Hlater) & (new & Hsteps & Hnew & _) & _) & _).
    cbn [app] in Hc.
    assert (Hcs : (calls (trace o2)).*1
                  = GetGateway (gateway_id a) :: later_calls a d1 d2)
      by (by rewrite Hc, fmap_cons, Hlater).
    split; [|split; [|split; [|split]]]; [| | | |done].
    + exists r1, (calls tr2). split; [done|]. destruct (Hr1 _ Hc).
      repeat split; try done. rewrite Hlater. apply after_reconcile_later.
    + rewrite Hcs. constructor; [done|]. apply later_calls_harmless.
    + exists (s0 :: new). rewrite Hsteps. cbn. rewrite <- app_assoc.
      split; [done|]. constructor; [|done]. unfold reconcile_step. by rewrite Hs0.
    + rewrite Hfin, Hcs.
      destruct (get_then faults2 (gateway_id a) (later_calls a d1 d2)
                  (registry w2) (asked w2)) as [_ ->].
      by rewrite registry_after_preserves by apply after_reconcile_later.
Qed.

(* ===================================================================== *)
(** * Two runs that differ in the secrets *)
(* ===================================================================== *)
























(* ===================================================================== *)
(** * The default gateway id *)
(* ===================================================================== *)












(* ===================================================================== *)
(** * The theorems at concrete inputs *)
(* ===================================================================== *)

Lemma pointer_is_correct_after_reconciliation_witness :
  server_pointer
    (registry (final (run (services scripted no_faults)
                          (provision (__init__ "NNSXS.KEY") example_args)
                          (@mkRWorld scripted drifted_registry 0 []))))
    "fg-gw-a00009ef"
  = Some (JStr NAM1_HOST).
Proof.
  apply (pointer_is_correct_after_reconciliation scripted no_faults
           (@mkRWorld scripted drifted_registry 0 []) (__init__ "NNSXS.KEY") example_args).
  vm_compute. reflexivity.
Defined.

Lemma second_run_changes_nothing_witness :
  let o1 := run (services scripted no_faults)
                (provision (__init__ "NNSXS.KEY") example_args)
                (@mkRWorld scripted empty_registry 0 []) in
  let o2 := run (services scripted no_faults)
                (provision (__init__ "NNSXS.KEY") example_args)
                (@mkRWorld scripted (registry (final o1)) 0 []) in
  Forall (fun c => is_register c = false /\ touches_pointer c = false)
         (calls (trace o2)).*1.
Proof.
  apply (second_run_changes_nothing scripted no_faults
           (@mkRWorld scripted empty_registry 0 []) (__init__ "NNSXS.KEY") example_args
           scripted no_faults 0%nat ([] : world scripted) (__init__ "NNSXS.KEY")).
  - vm_compute. reflexivity.
  - reflexivity.
Defined.





(** Claim C8 as stated does not hold: with the gateway not found (404)
    the run makes no further call, but it reports a failed step and returns
    [False], as a run does whose delete fails. *)
Lemma not_found_is_reported_as_a_failure :
  let o := run scripted (deprovision_gateway "NNSXS.KEY" "fg-gw-a00009ef" false)
               [not_found] in
  let o' := run scripted (deprovision_gateway "NNSXS.KEY" "fg-gw-a00009ef" false)
                [found drifted_record; server_error] in
  (calls (trace o)).*1 = [GetGateway "fg-gw-a00009ef"]
  /\ status <$> (calls (trace o)).*2 = [404]
  /\ result o = false
  /\ (console (trace o)).*1 = [(FAIL, "Check")]
  /\ (calls (trace o')).*1
     = [GetGateway "fg-gw-a00009ef"; DeleteGateway "fg-gw-a00009ef"]
  /\ result o' = result o
  /\ (console (trace o')).*1 = [(OK, "Check"); (FAIL, "Delete")].
Proof. vm_compute. repeat split; reflexivity. Qed.

Lemma not_found_at_entry_aborts_witness :
  let o := run scripted (deprovision_gateway "NNSXS.KEY" "fg-gw-a00009ef" true)
               [not_found] in
  calls (trace o)
    = [(GetGateway "fg-gw-a00009ef", TTNClient.response_of not_found)]
  /\ result o = false
  /\ last (console (trace o))
     = Some (FAIL, "Check",
             [Lit "Gateway not found: ";
              FVal (JObj (body (TTNClient.response_of not_found)))]).
Proof.
  apply (not_found_at_entry_aborts scripted [not_found] "NNSXS.KEY"
           "fg-gw-a00009ef" true (GetGateway "fg-gw-a00009ef")
           (TTNClient.response_of not_found)); reflexivity.
Defined.


(** The secret does reach the key file, and only the key file. *)
Example the_secret_goes_to_the_key_file :
  let script := [not_found; created (gateway_payload example_args);
                 lns_key_response; not_found] in
  let o := run scripted (provision (__init__ "NNSXS.KEY") example_args) script in
  let o' := run (rekey (fun _ _ => JStr "NNSXS.OTHER") scripted)
                (provision (__init__ "NNSXS.KEY") example_args) script in
  (written_files (trace o)).*2
    = [[Lit "Authorization: Bearer "; FVal (JStr "NNSXS.SECRET");
        Lit (String "013" (String "010" EmptyString))]]
  /\ (written_files (trace o')).*2
     = [[Lit "Authorization: Bearer "; FVal (JStr "NNSXS.OTHER");
         Lit (String "013" (String "010" EmptyString))]]
  /\ credentials (result o) = mkLogCredentials (JStr "KEYID1") JNull
  /\ result o' = result o.
Proof. vm_compute. repeat split; reflexivity. Qed.


(* ===================================================================== *)
(** * What a provisioning run leaves behind *)
(* ===================================================================== *)

Lemma footprint_nil a self : footprint a self self [].
Proof.
  repeat split; try done. exists []. by rewrite app_nil_r.
Qed.

Lemma footprint_app a s1 s2 s3 t1 t2 :
  footprint a s1 s2 t1 -> footprint a s2 s3 t2 -> footprint a s1 s3 (t1 ++ t2).
Proof.
  intros (C1 & K1 & F1 & (n1 & R1 & L1) & D1) (C2 & K2 & F2 & (n2 & R2 & L2) & D2).
  rewrite C1 in K2.
  split; [congruence|]. split; [by apply Forall_app|]. split; [|split].
  - by rewrite written_files_app, calls_app, flat_map_app, F1, F2.
  - exists (n1 ++ n2). rewrite R2, R1, calls_app, flat_map_app, fmap_app, L1, L2.
    by rewrite app_assoc.
  - by apply Forall_app.
Qed.

(** Closes [footprint] on an explicit trace. *)
Ltac footprint_of :=
  unfold footprint; exec;
  split; [done|]; split; [by repeat constructor|];
  split; [unfold key_file; cbn [flat_map fst snd app];
          repeat match goal with H : ok _ = _ |- _ => rewrite H end; done|];
  split; [|by repeat constructor];
  eexists; split;
    [rewrite <- ?app_assoc; first [reflexivity | symmetry; apply app_nil_r]|];
  unfold logged, outcome_of;
  cbn [flat_map fst snd app fmap list_fmap step success];
  repeat match goal with H : _ = _ |- _ => rewrite H end;
  rewrite ?bool_decide_eq_true_2, ?bool_decide_eq_false_2 by done; done.

Lemma steps_1_and_2_footprint self a :
  post (provision_steps_1_and_2 self a) (fun r tr =>
    footprint a self match r with inl s | inr s => s end tr).
Proof.
  unfold provision_steps_1_and_2, provision_step1, provision_step2.
  exec. intros raw.
  destruct (ok (TTNClient.response_of raw)) eqn:Hok1; exec.
  - intros now. rewrite Hok1. cbn [negb].
    destruct (ne_str _ _); exec.
    + intros raw2.
      destruct (ok (TTNClient.response_of raw2)) eqn:Hok2; exec; intros now2;
        footprint_of.
    + footprint_of.
  - destruct (status _ =? 404); exec; rewrite Hok1; cbn [negb]; exec;
      destruct (String.eqb (owner_type a) "org"); exec;
      intros raw2;
      destruct (ok (TTNClient.response_of raw2)) eqn:Hok2; exec; intros now2;
      footprint_of.
Qed.

Lemma step3_footprint self a :
  post (provision_step3 self a) (footprint a self).
Proof.
  unfold provision_step3.
  destruct (latitude a) as [lat|], (longitude a) as [lon|]; exec;
    try footprint_of.
  intros raw.
  destruct (ok (TTNClient.response_of raw)) eqn:Hok; exec; intros now;
    footprint_of.
Qed.

Lemma step4_footprint self a creds :
  post (provision_step4 self a creds) (fun sc tr => footprint a self sc.1 tr).
Proof.
  unfold provision_step4.
  destruct (generate_lns_key a); exec; [|footprint_of].
  intros d raw.
  destruct (ok (TTNClient.response_of raw)) eqn:Hok; exec; intros now;
    footprint_of.
Qed.

Lemma step5_footprint self a creds :
  post (provision_step5 self a creds) (fun sc tr => footprint a self sc.1 tr).
Proof.
  unfold provision_step5.
  destruct (generate_cups_key a); exec; [|footprint_of].
  intros d raw.
  destruct (ok (TTNClient.response_of raw)) eqn:Hok; exec; intros now;
    footprint_of.
Qed.

Lemma step6_footprint self a :
  post (provision_step6 self a) (footprint a self).
Proof.
  unfold provision_step6. exec. intros raw.
  destruct (ok (TTNClient.response_of raw)) eqn:Hok;
    [|destruct (status (TTNClient.response_of raw) =? 404) eqn:H404]; exec;
    intros now; footprint_of.
Qed.

Lemma post_and {A} (p : Prog A) (Q1 Q2 : A -> list Event -> Prop) :
  post p Q1 -> post p Q2 -> post p (fun a t => Q1 a t /\ Q2 a t).
Proof.
  revert Q1 Q2. induction p as [a | X e k IH | o k IH]; intros Q1 Q2; cbn.
  - done.
  - intros H1 H2 x. by apply IH.
  - by apply IH.
Qed.

Lemma db_events_app t1 t2 : db_events (t1 ++ t2) = db_events t1 ++ db_events t2.
Proof. apply filter_app. Qed.

Lemma db_events_none t :
  Forall (fun ev => is_db_event ev = false) t -> db_events t = [].
Proof.
  intros H. apply filter_none. eapply Forall_impl; [apply H|].
  cbn. intros ev ->. done.
Qed.

Lemma was_stored_app t1 t2 : was_stored (t1 ++ t2) = was_stored t1 || was_stored t2.
Proof. apply existsb_app. Qed.

Lemma was_stored_none t :
  Forall (fun ev => is_db_event ev = false) t -> was_stored t = false.
Proof.
  induction 1 as [|ev t Hev _ IH]; [done|].
  change (was_stored (ev :: t)) with (answered_with_data ev || was_stored t).
  rewrite IH. by destruct ev as [ | | | | ? ? ? [[]|]| ].
Qed.

Lemma no_calls_sent_with api_key t : calls t = [] -> Forall (sent_with api_key) t.
Proof.
  induction t as [|ev t IH]; [by constructor|].
  destruct ev; cbn; try done; intros H; constructor; auto; done.
Qed.

(** Takes a membership in an explicit trace apart. *)
Ltac in_trace :=
  repeat match goal with
         | H : _ ∈ _ :: _ |- _ => apply elem_of_cons in H as [H|H]; [try done|]
         | H : _ ∈ [] |- _ => by apply elem_of_nil in H
         end.

(** [_store_in_supabase]: no request to TTN, no file; the value returned
    says whether a row was stored; a client is created only with both
    variables set and not empty, a row is upserted only through a client,
    and it is the row of this gateway. *)
Lemma store_in_supabase_footprint gid eui nm org site plan :
  post (_store_in_supabase gid eui nm org site plan) (fun b tr =>
    (calls tr = [] /\ written_files tr = [] /\ written_logs tr = [])
    /\ b = was_stored tr
    /\ (forall u k r, EvCreateClient u k r ∈ tr ->
          u <> EmptyString /\ k <> EmptyString
          /\ EvGetenv "SUPABASE_URL" (Some u) ∈ tr
          /\ EvGetenv "SUPABASE_SERVICE_ROLE_KEY" (Some k) ∈ tr)
    /\ (forall t d c r, EvUpsert t d c r ∈ tr ->
          t = "gateways" /\ c = "organization_id,gateway_eui"
          /\ is_row gid eui nm org site d
          /\ exists u k, EvCreateClient u k ClientOk ∈ tr)).
Proof.
  unfold _store_in_supabase. exec. intros [u|] [k|]; exec;
    try (split; [done|]; split; [done|]; split; intros; in_trace; done).
  destruct (String.eqb_spec u EmptyString) as [->|Hu];
    [|destruct (String.eqb_spec k EmptyString) as [->|Hk]]; cbn [orb]; exec;
    try (split; [done|]; split; [done|]; split; intros; in_trace; done).
  assert (Hrow : forall now : datetime, is_row gid eui nm org site
    match site with
    | Some site0 =>
        if str_truthy site
        then <[ "site_id" := JStr site0 ]>
               (<[ "organization_id" := JStr org ]>
               (<[ "gateway_eui" := JStr eui ]>
               (<[ "name" := JStr nm ]>
               (<[ "ttn_gateway_id" := JStr gid ]>
               (<[ "status" := JStr "pending" ]>
               (<[ "ttn_registered_at" := JStr (isoformat now) ]>
               {[ "description" :=
                    JStr ("Provisioned via " ++ SCRIPT_VERSION ++ " | freq: "
                          ++ plan ++ " | cluster: nam1") ]}))))))
        else <[ "organization_id" := JStr org ]>
               (<[ "gateway_eui" := JStr eui ]>
               (<[ "name" := JStr nm ]>
               (<[ "ttn_gateway_id" := JStr gid ]>
               (<[ "status" := JStr "pending" ]>
               (<[ "ttn_registered_at" := JStr (isoformat now) ]>
               {[ "description" :=
                    JStr ("Provisioned via " ++ SCRIPT_VERSION ++ " | freq: "
                          ++ plan ++ " | cluster: nam1") ]})))))
    | None => <[ "organization_id" := JStr org ]>
               (<[ "gateway_eui" := JStr eui ]>
               (<[ "name" := JStr nm ]>
               (<[ "ttn_gateway_id" := JStr gid ]>
               (<[ "status" := JStr "pending" ]>
               (<[ "ttn_registered_at" := JStr (isoformat now) ]>
               {[ "description" :=
                    JStr ("Provisioned via " ++ SCRIPT_VERSION ++ " | freq: "
                          ++ plan ++ " | cluster: nam1") ]})))))
    end).
  { intros now. unfold is_row.
    destruct site as [s|]; [destruct (str_truthy (Some s))|];
      repeat split;
      repeat (first [ rewrite lookup_insert_eq | rewrite lookup_insert_ne by done
                    | rewrite lookup_singleton_ne by done ]); done. }
  intros [ | |e]; exec.
  2,3: (split; [done|]; split; [done|]; split; intros ? ? ? ?; intros;
        in_trace; simplify_eq; repeat split; try done; set_solver).
  intros now [[]|e]; exec;
    (split; [done|]; split; [done|]; split; intros ? ? ? ?; intros;
     in_trace; simplify_eq; repeat split; try done;
     try apply Hrow; try set_solver).
Qed.

Lemma halted_app cs1 cs2 : halted (cs1 ++ cs2) = halted cs1 || halted cs2.
Proof. apply existsb_app. Qed.

Lemma halted_none cs :
  Forall (fun c => is_register c = false) cs.*1 -> halted cs = false.
Proof.
  induction cs as [|[c r] cs IH]; [done|]. cbn. intros [Hc Hcs]%Forall_cons.
  cbn in Hc. rewrite Hc. by apply IH.
Qed.

Lemma step7_footprint self a :
  post (provision_step7 self a) (fun self' tr =>
    client self' = client self
    /\ calls tr = [] /\ written_files tr = [] /\ written_logs tr = []
    /\ if str_truthy (fg_org_id a)
       then exists s, results self' = results self ++ [s]
                      /\ step s = "store_db" /\ success s = was_stored tr
       else self' = self /\ db_events tr = []).
Proof.
  unfold provision_step7.
  destruct (fg_org_id a) as [org|] eqn:Horg;
    [destruct (str_truthy (Some org)) eqn:Ht|]; exec; try done.
  apply post_bind. eapply post_mono; [|apply store_in_supabase_footprint].
  intros b tr ((Hc & Hf & Hl) & Hb & _).
  destruct b; exec; intros now;
    rewrite calls_app, written_files_app, written_logs_app, Hc, Hf, Hl;
    (repeat split; try done); eexists; (split; [done|]); (split; [done|]);
    change (was_stored (?x :: ?t)) with (answered_with_data x || was_stored t);
    rewrite was_stored_app, <- Hb; cbn; by rewrite ?orb_false_r.
Qed.

(** The whole run: the footprint of steps 1 to 6, followed by events that
    ask nothing of TTN and write no key file, among them those of step 7. *)
Lemma provision_footprint self a :
  post (provision self a) (fun log tr =>
    exists self6 t1 t2 db,
      tr = t1 ++ t2 /\ footprint a self self6 t1
      /\ calls t2 = [] /\ written_files t2 = []
      /\ steps log = results self6 ++ db
      /\ db_step a (calls t1) t2 db).
Proof.
  unfold provision. exec.
  apply post_bind.
  eapply post_mono; [|apply (post_and _ _ _ (steps_1_and_2_spec self a)
                                            (steps_1_and_2_footprint self a))].
  intros r t12 [(r1 & rest & Hc & Hout & _ & _) F12].
  destruct r as [self'|self'].
  - (* the registration failed *)
    eapply post_mono; [|apply summary_spec].
    intros log t8 (Hc8 & _ & Hf8 & Hd8 & Hsteps & _).
    exists self', (EvOut (Print [Lit "Provisioning gateway: "; Lit (gateway_id a)])
                   :: EvOut (Print [Lit "  EUI: "; Lit (gateway_eui a); Lit " | Owner: ";
                                    Lit (owner_type a); Lit "/"; Lit (owner_id a)])
                   :: EvOut (Print [Lit "  Frequency: "; Lit (frequency_plan a);
                                    Lit " | Region: NAM1"]) :: t12), t8, [].
    split; [done|]. split.
    { apply (footprint_app a self self self' [_; _; _] t12); [|done].
      repeat split; try done; try by repeat constructor.
      exists []. by rewrite app_nil_r. }
    split; [done|]. split; [done|]. split; [by rewrite app_nil_r|].
    unfold db_step. cbn [calls]. rewrite Hc.
    inversion Hout; subst. cbn.
    assert (is_register (register_call a) = true) as ->
      by (unfold register_call; by destruct (String.eqb _ _)).
    match goal with H : ok _ = false |- _ => rewrite H end. cbn.
    split; [done|]. by apply db_events_none.
  - unfold provision_steps_3_to_8.
    apply post_bind.
    eapply post_mono; [|apply (post_and _ _ _ (step3_spec self' a) (step3_footprint self' a))].
    intros self3 t3 [(Hc3 & _) F3].
    apply post_bind.
    eapply post_mono; [|apply (post_and _ _ _ (step4_spec self3 a ∅) (step4_footprint self3 a ∅))].
    intros [self4 cr4] t4 [((d1 & Hc4) & _) F4]. cbn [fst snd] in *.
    apply post_bind.
    eapply post_mono; [|apply (post_and _ _ _ (step5_spec self4 a cr4) (step5_footprint self4 a cr4))].
    intros [self5 cr5] t5 [((d2 & Hc5) & _) F5]. cbn [fst snd] in *.
    apply post_bind.
    eapply post_mono; [|apply (post_and _ _ _ (step6_spec self5 a) (step6_footprint self5 a))].
    intros self6 t6 [(_ & r6 & s6 & Hc6 & _) F6].
    apply post_bind. eapply post_mono; [|apply step7_footprint].
    intros self7 t7 (C7 & Hc7 & Hf7 & Hl7 & Hdb).
    unfold _print_connection_info. exec.
    eapply post_mono; [|apply summary_spec].
    intros log t8 (Hc8 & _ & Hf8 & Hd8 & Hsteps & _).
    exists self6,
      ([EvOut (Print [Lit "Provisioning gateway: "; Lit (gateway_id a)]);
        EvOut (Print [Lit "  EUI: "; Lit (gateway_eui a); Lit " | Owner: ";
                      Lit (owner_type a); Lit "/"; Lit (owner_id a)]);
        EvOut (Print [Lit "  Frequency: "; Lit (frequency_plan a);
                      Lit " | Region: NAM1"])]
       ++ t12 ++ t3 ++ t4 ++ t5 ++ t6),
      (t7 ++ EvOut (ConnectionInfo (gateway_id a)
                      (get cr5 "lns_key" (JStr "N/A"))
                      (if truthy (get_or_none cr5 "cups_key")
                       then cr5 !! "cups_key" else None)
                      (frequency_plan a)) :: t8).
    assert (Hhalt : halted (calls ([EvOut (Print [Lit "Provisioning gateway: "; Lit (gateway_id a)]);
        EvOut (Print [Lit "  EUI: "; Lit (gateway_eui a); Lit " | Owner: ";
                      Lit (owner_type a); Lit "/"; Lit (owner_id a)]);
        EvOut (Print [Lit "  Frequency: "; Lit (frequency_plan a);
                      Lit " | Region: NAM1"])]
       ++ t12 ++ t3 ++ t4 ++ t5 ++ t6)) = false).
    { rewrite !calls_app. cbn [calls app]. rewrite !halted_app.
      assert (halted (calls t12) = false) as ->.
      { rewrite Hc. inversion Hout; subst; cbn; try done.
        assert (is_register (register_call a) = true) as ->
          by (unfold register_call; by destruct (String.eqb _ _)).
        match goal with H : ok _ = true |- _ => by rewrite H end. }
      pose proof (later_calls_harmless a d1 d2) as Hh.
      unfold later_calls in Hh. rewrite !Forall_app in Hh.
      destruct Hh as (H3 & H4 & H5 & H6).
      rewrite !halted_none; try done.
      - rewrite Hc6. cbn. by repeat constructor.
      - rewrite Hc5. eapply Forall_impl; [apply H5|]. by intros ? [? _].
      - rewrite Hc4. eapply Forall_impl; [apply H4|]. by intros ? [? _].
      - rewrite Hc3. eapply Forall_impl; [apply H3|]. by intros ? [? _]. }
    assert (Hfree : forall x, Forall (fun ev => is_db_event ev = false)
                                (EvOut x :: t8)) by (by constructor).
    destruct (str_truthy (fg_org_id a)) eqn:Ht.
    + destruct Hdb as (s & Hr7 & Hs7 & Hv7). exists [s].
      split; [by rewrite <- !app_assoc|]. split.
      { apply (footprint_app a self self self6 [_; _; _]).
        { repeat split; try done; try by repeat constructor.
          exists []. by rewrite app_nil_r. }
        repeat (eapply footprint_app; [eassumption|]).
        by rewrite <- (app_nil_r t6); eapply footprint_app; [|apply footprint_nil]. }
      rewrite calls_app, written_files_app, Hc7, Hf7. cbn [calls written_files].
      split; [done|]. split; [done|]. split; [by rewrite Hsteps, Hr7|].
      unfold db_step. rewrite Hhalt, Ht. cbn.
      exists s. split; [done|]. split; [done|].
      rewrite was_stored_app, (was_stored_none _ (Hfree _)). by rewrite orb_false_r.
    + destruct Hdb as (-> & Hdb7). exists [].
      split; [by rewrite <- !app_assoc|]. split.
      { apply (footprint_app a self self self6 [_; _; _]).
        { repeat split; try done; try by repeat constructor.
          exists []. by rewrite app_nil_r. }
        repeat (eapply footprint_app; [eassumption|]).
        by rewrite <- (app_nil_r t6); eapply footprint_app; [|apply footprint_nil]. }
      rewrite calls_app, written_files_app, Hc7, Hf7. cbn [calls written_files].
      split; [done|]. split; [done|]. split; [by rewrite Hsteps, app_nil_r|].
      unfold db_step. rewrite Hhalt, Ht. cbn. split; [done|].
      rewrite db_events_app, Hdb7. apply db_events_none, Hfree.
Qed.

(* ===================================================================== *)
(** * Traces that only print *)
(* ===================================================================== *)

Lemma only_prints_app t1 t2 : only_prints t1 -> only_prints t2 -> only_prints (t1 ++ t2).
Proof. apply Forall_app_2. Qed.

Lemma only_prints_quiet api_key t :
  only_prints t ->
  calls t = [] /\ written_files t = [] /\ written_logs t = []
  /\ db_events t = [] /\ Forall (sent_with api_key) t.
Proof.
  induction 1 as [|ev t Hev _ (Hc & Hf & Hl & Hd & Hk)]; [done|].
  destruct ev as [ | | | | |[]]; try done; cbn;
    (repeat split; try done; by constructor).
Qed.

Lemma console_app t1 t2 : console (t1 ++ t2) = console t1 ++ console t2.
Proof.
  induction t1 as [ | [ | | | | | []] t1 IH]; cbn; by rewrite ?IH.
Qed.

(* ===================================================================== *)
(** * The status check *)
(* ===================================================================== *)

Lemma mapM_as_str_plain rights :
  forallb (fun r => bool_decide (is_Some (as_str r))) rights = true ->
  mapM as_str rights = Some (omap as_str rights).
Proof.
  induction rights as [|r rights IH]; [done|]. cbn.
  intros [Hr Hrs]%andb_true_iff. apply bool_decide_eq_true in Hr as [s Hs].
  rewrite Hs. cbn. by rewrite (IH Hrs).
Qed.

(** The lines of the key listing: nothing but lines on the console; for
    plain keys, one line each. *)
Lemma key_lines_post R ks :
  post (key_lines R ks) (fun e tr =>
    only_prints tr
    /\ filter is_pointer_warning (console tr) = []
    /\ (forallb plain_key ks = true ->
        e = Returned /\ console tr = key_line <$> ks)).
Proof.
  induction ks as [|k ks IH].
  { cbn. split; [constructor|]. by split. }
  cbn [key_lines]. destruct k as [ | | | | |d]; exec;
    try (split; [constructor|]; split; [done|]; done).
  destruct (join_value R ", " (get d "rights" (JArr []))) as [e|rights] eqn:Hj; exec.
  { split; [constructor|]. split; [done|].
    cbn. intros [Hk _]%andb_true_iff.
    unfold join_value in Hj. destruct (get d "rights" (JArr [])); try done.
    by rewrite (mapM_as_str_plain _ Hk) in Hj. }
  eapply post_mono; [|apply IH]. cbn beta.
  intros e tr (Hp & Hw & Hks). split; [by constructor|]. split; [done|].
  cbn [forallb]. intros [Hk Hrest]%andb_true_iff.
  destruct (Hks Hrest) as [-> ->]. split; [done|].
  cbn [fmap list_fmap]. f_equal. unfold key_line, rights_of.
  cbn in Hk. unfold join_value in Hj.
  destruct (get d "rights" (JArr [])); try done.
  rewrite (mapM_as_str_plain _ Hk) in Hj. by simplify_eq.
Qed.

Lemma leaves_nothing_app api_key t1 t2 :
  leaves_nothing api_key t1 -> leaves_nothing api_key t2 ->
  leaves_nothing api_key (t1 ++ t2).
Proof.
  intros (K1 & F1 & L1 & D1) (K2 & F2 & L2 & D2).
  split; [by apply Forall_app|].
  by rewrite written_files_app, written_logs_app, db_events_app, F1, F2, L1, L2, D1, D2.
Qed.

Lemma only_prints_leaves_nothing api_key t :
  only_prints t -> leaves_nothing api_key t.
Proof.
  intros H. destruct (only_prints_quiet api_key t H) as (_ & ? & ? & ? & ?).
  by repeat split.
Qed.

Lemma leaves_nothing_http api_key c raw t :
  leaves_nothing api_key t -> leaves_nothing api_key (EvHttp api_key c raw :: t).
Proof.
  intros (K & F & L & D). split; [by constructor|]. by repeat split.
Qed.

Lemma leaves_nothing_print api_key ev t :
  is_print ev = true ->
  leaves_nothing api_key t -> leaves_nothing api_key (ev :: t).
Proof.
  intros Hev H. apply (leaves_nothing_app api_key [ev] t); [|done].
  apply only_prints_leaves_nothing. by repeat constructor.
Qed.

Lemma leaves_nothing_sleep api_key n t :
  leaves_nothing api_key t -> leaves_nothing api_key (EvOut (Sleep n) :: t).
Proof. intros (K & F & L & D). split; [by constructor|]. by repeat split. Qed.

(** Closes [leaves_nothing] on a trace that ends in a part known to leave
    nothing. *)
Ltac leaves_nothing :=
  repeat first
    [ assumption
    | apply leaves_nothing_http
    | apply leaves_nothing_sleep
    | apply leaves_nothing_print; [reflexivity|]
    | apply leaves_nothing_app
    | apply only_prints_leaves_nothing; first [assumption | by repeat constructor] ].

Lemma filter_app_nil {A} (P : A -> bool) l1 l2 :
  filter P l1 = [] -> filter P (l1 ++ l2) = filter P l2.
Proof. intros H. by rewrite filter_app, H. Qed.

(** What a status check does, whatever the services answer. *)
Lemma check_gateway_status_post R api_key gid :
  post (check_gateway_status R api_key gid) (fun e tr =>
    leaves_nothing api_key tr
    /\ exists r1,
         head (calls tr) = Some (GetGateway gid, r1)
         /\ (if ok r1
             then exists r2 r3,
                    calls tr = [(GetGateway gid, r1);
                                (GetGatewayConnectionStats gid, r2);
                                (ListGatewayApiKeys gid, r3)]
                    /\ keys_shown e r3 (console tr)
             else calls tr = [(GetGateway gid, r1)] /\ e = Returned
                  /\ last (console tr)
                     = Some (FAIL, "EU1",
                             [Lit "Not found ("; FInt (status r1); Lit ")"]))
         /\ filter is_pointer_warning (console tr)
            = if ok r1 && drifted r1
              then [(WARN, "EU1",
                     [Lit "⚠ gateway_server_address should be '"; Lit NAM1_HOST;
                      Lit "' but is '";
                      FVal (get (body r1) "gateway_server_address"
                              (JStr EmptyString));
                      Lit "'"])]
              else []).
Proof.
  unfold check_gateway_status. exec. intros raw1. cbn [TTNClient.api_key].
  destruct (ok (TTNClient.response_of raw1)) eqn:Hok1; exec.
  2:{ split; [leaves_nothing|].
      exists (TTNClient.response_of raw1). rewrite Hok1. by repeat split. }
  apply post_bind.
  match goal with
  | |- post _ (fun _ _ => post ?p _) => set (rest := p)
  end.
  assert (Hrest : post rest (fun e t =>
        leaves_nothing api_key t
        /\ filter is_pointer_warning (console t) = []
        /\ exists r2 r3,
             calls t = [(GetGatewayConnectionStats gid, r2);
                        (ListGatewayApiKeys gid, r3)]
             /\ keys_shown e r3 (console t))).
  { subst rest. exec. intros raw2. exec. cbn [TTNClient.api_key]. apply post_bind.
    match goal with
    | |- post _ (fun _ _ => post ?p _) => set (tail := p)
    end.
    assert (Htail : post tail (fun e t =>
          leaves_nothing api_key t
          /\ filter is_pointer_warning (console t) = []
          /\ exists r3,
               calls t = [(ListGatewayApiKeys gid, r3)]
               /\ keys_shown e r3 (console t))).
    { subst tail. exec. intros raw3. exec. cbn [TTNClient.api_key].
      destruct (ok (TTNClient.response_of raw3)) eqn:Hok3; exec.
      2:{ split; [leaves_nothing|]. split; [done|].
          exists (TTNClient.response_of raw3). split; [done|].
          split; [done|]. intros; congruence. }
      destruct (len _) as [n|] eqn:Hlen; exec.
      2:{ split; [leaves_nothing|]. split; [done|].
          exists (TTNClient.response_of raw3). split; [done|].
          split; [congruence|]. intros ks _ Hks _. by rewrite Hks in Hlen. }
      apply post_bind. eapply post_mono; [|apply key_lines_post].
      intros e t (Hp & Hw & Hks).
      destruct (only_prints_quiet api_key t Hp) as (Hc & _).
      assert (Hgoal : forall t',
        only_prints t' -> console t' = [] ->
        leaves_nothing api_key
          (EvOut (Console INFO "Keys" [Lit "Checking API keys..."])
           :: EvHttp api_key (ListGatewayApiKeys gid) raw3
           :: EvOut (Console OK "Keys" [FInt (Z.of_nat n); Lit " API key(s) found"])
           :: t ++ t')
        /\ filter is_pointer_warning
             (console
                (EvOut (Console INFO "Keys" [Lit "Checking API keys..."])
                 :: EvHttp api_key (ListGatewayApiKeys gid) raw3
                 :: EvOut (Console OK "Keys" [FInt (Z.of_nat n); Lit " API key(s) found"])
                 :: t ++ t')) = []
        /\ calls
             (EvOut (Console INFO "Keys" [Lit "Checking API keys..."])
              :: EvHttp api_key (ListGatewayApiKeys gid) raw3
              :: EvOut (Console OK "Keys" [FInt (Z.of_nat n); Lit " API key(s) found"])
              :: t ++ t') = [(ListGatewayApiKeys gid, TTNClient.response_of raw3)]).
      { intros t' Hp' Hc'. split; [leaves_nothing|].
        destruct (only_prints_quiet api_key t' Hp') as (Hct & _).
        cbn [console calls]. rewrite console_app, calls_app, Hc, Hct, Hc', app_nil_r.
        split; [|done]. by rewrite !filter_cons_False by (cbn; tauto). }
      assert (Hshown : forall t',
        console t' = [] ->
        forall ks, get (body (TTNClient.response_of raw3)) "api_keys" (JArr []) = JArr ks ->
        forallb plain_key ks = true ->
        e = Returned /\
        exists pre,
          console
            (EvOut (Console INFO "Keys" [Lit "Checking API keys..."])
             :: EvHttp api_key (ListGatewayApiKeys gid) raw3
             :: EvOut (Console OK "Keys" [FInt (Z.of_nat n); Lit " API key(s) found"])
             :: t ++ t')
          = pre ++ (OK, "Keys", [FInt (Z.of_nat (length ks)); Lit " API key(s) found"])
                :: (key_line <$> ks)).
      { intros t' Hc' ks Hk Hplain. rewrite Hk in Hlen, Hks. cbn in Hlen, Hks.
        destruct (Hks Hplain) as [-> Hcons]. split; [done|].
        exists [(INFO, "Keys", [Lit "Checking API keys..."])].
        cbn [console]. rewrite console_app, Hcons, Hc', app_nil_r.
        by simplify_eq. }
      destruct e; exec.
      - destruct (Hgoal [EvOut (Print [])]) as (G1 & G2 & G3); [by repeat constructor|done|].
        split; [done|]. split; [done|].
        exists (TTNClient.response_of raw3). split; [done|].
        split; [congruence|]. intros ks _. by apply Hshown.
      - destruct (Hgoal []) as (G1 & G2 & G3); [constructor|done|].
        split; [done|]. split; [done|].
        exists (TTNClient.response_of raw3). split; [done|].
        split; [congruence|]. intros ks _. by apply Hshown.
      - destruct (Hgoal []) as (G1 & G2 & G3); [constructor|done|].
        split; [done|]. split; [done|].
        exists (TTNClient.response_of raw3). split; [done|].
        split; [congruence|]. intros ks _. by apply Hshown. }
    clearbody tail.
    assert (Hjoin : forall mid : list Event,
      only_prints mid -> filter is_pointer_warning (console mid) = [] ->
      post tail (fun e t2 =>
        leaves_nothing api_key
          (EvOut (Console INFO "NAM1" [Lit "Checking Gateway Server connection..."])
           :: EvHttp api_key (GetGatewayConnectionStats gid) raw2 :: mid ++ t2)
        /\ filter is_pointer_warning
             (console
                (EvOut (Console INFO "NAM1" [Lit "Checking Gateway Server connection..."])
                 :: EvHttp api_key (GetGatewayConnectionStats gid) raw2 :: mid ++ t2)) = []
        /\ exists r2 r3,
             calls
               (EvOut (Console INFO "NAM1" [Lit "Checking Gateway Server connection..."])
                :: EvHttp api_key (GetGatewayConnectionStats gid) raw2 :: mid ++ t2)
             = [(GetGatewayConnectionStats gid, r2); (ListGatewayApiKeys gid, r3)]
             /\ keys_shown e r3
                  (console
                     (EvOut (Console INFO "NAM1" [Lit "Checking Gateway Server connection..."])
                      :: EvHttp api_key (GetGatewayConnectionStats gid) raw2 :: mid ++ t2)))).
    { intros mid Hp Hw. eapply post_mono; [|apply Htail].
      intros e t2 (N2 & W2 & r3 & C2 & (Kf & Kl)).
      destruct (only_prints_quiet api_key mid Hp) as (Hc & _).
      split; [leaves_nothing|].
      cbn [console calls]. rewrite console_app, calls_app, Hc, C2.
      split; [rewrite filter_cons_False by (cbn; tauto); by rewrite filter_app, Hw, W2|].
      exists (TTNClient.response_of raw2), r3. split; [done|].
      split; [done|]. intros ks H1 H2 H3. destruct (Kl ks H1 H2 H3) as [-> (pre & Hpre)].
      split; [done|].
      exists ((INFO, "NAM1", [Lit "Checking Gateway Server connection..."])
              :: console mid ++ pre).
      rewrite Hpre. cbn. by rewrite <- app_assoc. }
    eapply (post_mono _ (fun _ t1 =>
              only_prints t1 /\ filter is_pointer_warning (console t1) = [])).
    { intros _ t1 [Hp Hw]. exact (Hjoin t1 Hp Hw). }
    destruct (ok (TTNClient.response_of raw2)) eqn:Hok2;
      [|destruct (status (TTNClient.response_of raw2) =? 404)]; exec;
      try (split; [by repeat constructor|done]).
    destruct (body (TTNClient.response_of raw2) !! "last_uplink_received_at");
      exec;
      destruct (body (TTNClient.response_of raw2) !! "connected_at"); exec;
      (split; [by repeat constructor|done]). }
  clearbody rest.
  assert (Hall : forall pre : list Event,
    only_prints pre ->
    post rest (fun e t2 =>
      leaves_nothing api_key
        (EvOut (Print [Lit "Gateway Status: "; Lit gid])
         :: EvOut (Console INFO "EU1" [Lit "Checking Identity Server registration..."])
         :: EvHttp api_key (GetGateway gid) raw1 :: pre ++ t2)
      /\ exists r2 r3,
           calls
             (EvOut (Print [Lit "Gateway Status: "; Lit gid])
              :: EvOut (Console INFO "EU1" [Lit "Checking Identity Server registration..."])
              :: EvHttp api_key (GetGateway gid) raw1 :: pre ++ t2)
           = [(GetGateway gid, TTNClient.response_of raw1);
              (GetGatewayConnectionStats gid, r2); (ListGatewayApiKeys gid, r3)]
           /\ keys_shown e r3
                (console
                   (EvOut (Print [Lit "Gateway Status: "; Lit gid])
                    :: EvOut (Console INFO "EU1" [Lit "Checking Identity Server registration..."])
                    :: EvHttp api_key (GetGateway gid) raw1 :: pre ++ t2))
           /\ filter is_pointer_warning (console t2) = [])).
  { intros pre Hp. eapply post_mono; [|apply Hrest].
    intros e t2 (N2 & W2 & r2 & r3 & C2 & (Kf & Kl)).
    destruct (only_prints_quiet api_key pre Hp) as (Hc & _).
    split; [leaves_nothing|].
    exists r2, r3. cbn [console calls]. rewrite console_app, calls_app, Hc, C2.
    split; [done|]. split; [|done].
    split; [done|]. intros ks H1 H2 H3. destruct (Kl ks H1 H2 H3) as [-> (pre' & Hpre)].
    split; [done|].
    exists ((INFO, "EU1", [Lit "Checking Identity Server registration..."])
            :: console pre ++ pre').
    rewrite Hpre. cbn. by rewrite <- app_assoc. }
  fold (drifted (TTNClient.response_of raw1)).
  eapply (post_mono _ (fun _ t1 =>
            only_prints t1
            /\ filter is_pointer_warning (console t1)
               = if drifted (TTNClient.response_of raw1)
                 then [(WARN, "EU1",
                        [Lit "⚠ gateway_server_address should be '"; Lit NAM1_HOST;
                         Lit "' but is '";
                         FVal (get (body (TTNClient.response_of raw1))
                                 "gateway_server_address" (JStr EmptyString));
                         Lit "'"])]
                 else [])).
  - intros _ t1 [Hp Hw].
    eapply post_mono; [|eapply (Hall (_ :: _ :: _ :: _ :: t1))].
    + intros e t2 (N & r2 & r3 & C & K & W). cbn [app] in N, C, K.
      cbn [calls console] in C, K |- *.
      split; [exact N|]. exists (TTNClient.response_of raw1).
      rewrite Hok1. cbn [andb].
      split; [done|]. split; [by exists r2, r3|].
      rewrite !filter_cons_False by (cbn; tauto).
      by rewrite console_app, filter_app, Hw, W, app_nil_r.
    + by repeat constructor.
  - destruct (drifted (TTNClient.response_of raw1)); exec;
      (split; [by repeat constructor|done]).
Qed.

(* ===================================================================== *)
(** * Batches *)
(* ===================================================================== *)

Lemma produces_post {A} (p : Prog A) (Q : A -> list Event -> Prop) a t :
  post p Q -> produces p a t -> Q a t.
Proof.
  intros Hp Hr. revert Q Hp.
  induction Hr as [a | X e k x a t _ IH | o k a t _ IH]; intros Q Hp; cbn in Hp.
  - done.
  - apply (IH _ (Hp x)).
  - apply (IH _ Hp).
Qed.

Lemma post_produces {A} (p : Prog A) : post p (produces p).
Proof.
  induction p as [a | X e k IH | o k IH]; cbn.
  - constructor.
  - intros x. eapply post_mono; [|apply IH]. intros a t. by constructor.
  - eapply post_mono; [|apply IH]. intros a t. by constructor.
Qed.

Lemma run_produces {A} E (p : Prog A) w :
  produces p (result (run E p w)) (trace (run E p w)).
Proof. apply (post_run _ _ (post_produces p)). Qed.

Lemma produces_provision self a log tr :
  produces (provision self a) log tr ->
  provision_spec self a log tr
  /\ Forall (sent_with (TTNClient.api_key (client self))) tr
  /\ written_files tr = flat_map (key_file a) (calls tr).
Proof.
  intros H. split; [exact (produces_post _ _ _ _ (provision_post self a) H)|].
  destruct (produces_post _ _ _ _ (provision_footprint self a) H)
    as (self6 & t1 & t2 & db & -> & (_ & K1 & F1 & _) & Hc2 & Hf2 & _).
  split.
  - apply Forall_app. split; [done|]. by apply no_calls_sent_with.
  - by rewrite written_files_app, calls_app, F1, Hf2, Hc2, !app_nil_r.
Qed.



(* ===================================================================== *)
(** * The wizard *)
(* ===================================================================== *)

Lemma wizard_prefix R lines e t0 t :
  Forall (fun ev => is_question ev = true) t0 ->
  wizard R lines e t -> wizard R lines e (t0 ++ t).
Proof.
  intros H0 (t1 & t2 & -> & H1 & Hact). exists (t0 ++ t1), t2.
  split; [by rewrite app_assoc|]. split; [by apply Forall_app|done].
Qed.

Lemma wizard_nothing R lines e :
  e = Returned \/ e = Raised EOFError -> wizard R lines e [].
Proof. intros He. exists [], []. split; [done|]. split; [done|]. by constructor. Qed.

Lemma wizard_acted R lines e t : acted R lines e t -> wizard R lines e t.
Proof. intros H. by exists [], t. Qed.

Lemma asks_sret {A} (V : A -> Prop) a : V a -> asks V (sret a).
Proof. intros Ha stdin. cbn. by repeat split. Qed.

Lemma asks_finish {A} (V : A -> Prop) : asks V (finish Returned).
Proof. intros stdin. cbn. split; [done|]. by left. Qed.

Lemma asks_say msg : asks (fun _ => True) (say msg).
Proof. intros stdin. cbn. split; [by repeat constructor|done]. Qed.

Lemma asks_input prompt : asks (fun _ => True) (input prompt).
Proof.
  intros [|line stdin]; cbn.
  - split; [by repeat constructor|by right].
  - split; [by repeat constructor|]. split; [done|]. set_solver.
Qed.

Lemma asks_getenv name : asks (fun _ => True) (lift (ask (Getenv name))).
Proof. intros stdin v. cbn. split; [by repeat constructor|done]. Qed.

Lemma asks_mono {A} (V W : A -> Prop) m :
  (forall a, V a -> W a) -> asks V m -> asks W m.
Proof.
  intros HVW Hm stdin. eapply post_mono; [|apply Hm].
  intros [e|[a rest]] t [Hq Hr]; (split; [done|]); [done|].
  destruct Hr. split; auto.
Qed.

Lemma asks_bind {A B} (V : A -> Prop) (W : B -> Prop) m f :
  asks V m -> (forall a, V a -> asks W (f a)) -> asks W (sbind m f).
Proof.
  intros Hm Hf stdin. unfold sbind. apply post_bind.
  eapply post_mono; [|apply Hm].
  intros [e|[a rest]] t1 [Hq1 Hr]; cbn.
  - rewrite app_nil_r. done.
  - destruct Hr as [Ha Hrest]. eapply post_mono; [|apply (Hf a Ha)].
    intros [e|[b rest']] t2 [Hq2 Hr2]; (split; [by apply Forall_app|]); [done|].
    destruct Hr2 as [Hb Hrest2]. split; [done|]. set_solver.
Qed.

Lemma keeps_bind {A} R lines (V : A -> Prop) m f :
  asks V m -> (forall a, V a -> keeps_to_wizard R lines (f a)) ->
  keeps_to_wizard R lines (sbind m f).
Proof.
  intros Hm Hf stdin Hin. unfold sbind. apply post_bind.
  eapply post_mono; [|apply Hm].
  intros [e|[a rest]] t1 [Hq1 Hr]; cbn.
  - rewrite <- (app_nil_l []), app_nil_r.
    rewrite <- (app_nil_r t1). apply wizard_prefix; [done|]. by apply wizard_nothing.
  - destruct Hr as [Ha Hrest]. eapply post_mono; [|apply (Hf a Ha)]; [|set_solver].
    intros r t2 Hw. by apply wizard_prefix.
Qed.

Lemma keeps_input R lines prompt f :
  (forall line, line ∈ lines -> keeps_to_wizard R lines (f line)) ->
  keeps_to_wizard R lines (sbind (input prompt) f).
Proof.
  intros Hf [|line stdin] Hin; unfold sbind; cbn.
  - apply (wizard_prefix R lines _ [_] []); [by repeat constructor|].
    apply wizard_nothing. by right.
  - eapply post_mono; [|apply (Hf line)]; [|set_solver|set_solver].
    intros r t Hw. apply (wizard_prefix R lines _ [_] t); [by repeat constructor|done].
Qed.

Lemma keeps_finish R lines : keeps_to_wizard R lines (finish Returned).
Proof. intros stdin _. cbn. apply wizard_nothing. by left. Qed.

Lemma keeps_sret R lines : keeps_to_wizard R lines (sret tt).
Proof. intros stdin _. cbn. apply wizard_nothing. by left. Qed.

Lemma keeps_say R lines msg s :
  keeps_to_wizard R lines s -> keeps_to_wizard R lines (sbind (say msg) (fun _ => s)).
Proof. intros Hs. eapply keeps_bind; [apply asks_say|]. done. Qed.

(** The API key the wizard goes on with is not empty. *)
Lemma interactive_api_key_asks api_key :
  asks (fun k => k <> EmptyString) (interactive_api_key api_key).
Proof.
  unfold interactive_api_key.
  eapply (asks_bind (fun _ => True)).
  - destruct (str_truthy api_key); [by apply asks_sret|].
    eapply asks_bind; [apply asks_getenv|]. intros v _. by apply asks_sret.
  - intros k _. destruct (String.eqb_spec k EmptyString) as [->|Hk];
      [|by apply asks_sret].
    eapply asks_bind; [apply asks_say|]; intros _ _.
    eapply asks_bind; [apply asks_say|]; intros _ _.
    eapply asks_bind; [apply asks_say|]; intros _ _.
    eapply asks_bind; [apply asks_input|]; intros typed _.
    destruct (String.eqb_spec (strip typed) EmptyString) as [He|Hk];
      [|by apply asks_sret].
    eapply asks_bind; [apply asks_say|]; intros _ _. apply asks_finish.
Qed.

Lemma interactive_location_asks R :
  asks (fun _ => True) (interactive_location R).
Proof.
  unfold interactive_location.
  assert (Hinvalid : asks (fun _ : option pynum * option pynum * option pynum => True)
            (sbind (say [Lit "Invalid coordinates — skipping location"])
                   (fun _ => sret (None, None, None)))).
  { eapply asks_bind; [apply asks_say|]; intros _ _. by apply asks_sret. }
  eapply asks_bind; [apply asks_input|]; intros typed _.
  destruct (negb _); [|by apply asks_sret].
  destruct (float_of_str R (strip typed)); [|done].
  eapply asks_bind; [apply asks_input|]; intros typed2 _.
  destruct (if negb _ then _ else _); [|done].
  eapply asks_bind; [apply asks_input|]; intros typed3 _.
  destruct (if negb _ then _ else _); [|done].
  by apply asks_sret.
Qed.

Lemma in_answers (line : string) (lines : list string) (s : string) :
  line ∈ lines -> answer_of line = s -> s ∈ answer_of <$> lines.
Proof. intros Hin <-. by apply list_elem_of_fmap_2. Qed.

Lemma interactive_gateway_eui_checked typed eui :
  interactive_gateway_eui typed = Some eui -> checked_eui eui.
Proof.
  unfold interactive_gateway_eui, checked_eui. cbn zeta.
  destruct (Nat.eqb_spec (String.length (remove_char " " (remove_char ":" (upper (strip typed))))) 16) as [Hl|];
    [|done].
  destruct (all_upper_hex _) eqn:Hh; [|done]. cbn. intros [= <-]. done.
Qed.

Lemma lift_produces {A} (p : Prog A) stdin :
  post (lift p stdin) (fun r t => exists a, r = inr (a, stdin) /\ produces p a t).
Proof.
  unfold lift. apply post_bind. eapply post_mono; [|apply post_produces].
  intros a t Ha. cbn. exists a. by rewrite app_nil_r.
Qed.

(** The wizard, part by part. *)
Lemma interactive_status_keeps R lines api_key :
  api_key <> EmptyString -> keeps_to_wizard R lines (interactive_status R api_key).
Proof.
  intros Hk. unfold interactive_status.
  apply keeps_input. intros typed _.
  destruct (String.eqb_spec (strip typed) EmptyString) as [He|Hg]; cbn [negb];
    [apply keeps_finish|].
  intros stdin _. unfold sbind, finish.
  apply post_bind. eapply post_mono; [|apply lift_produces].
  intros r t (e & -> & He). exec. rewrite app_nil_r.
  apply wizard_acted. by apply (acted_status _ _ api_key (strip typed)).
Qed.

Lemma interactive_deprovision_keeps R lines api_key :
  api_key <> EmptyString -> keeps_to_wizard R lines (interactive_deprovision api_key).
Proof.
  intros Hk. unfold interactive_deprovision.
  apply keeps_input. intros typed _.
  destruct (String.eqb_spec (strip typed) EmptyString) as [He|Hg].
  { apply keeps_say, keeps_finish. }
  apply keeps_input. intros typed_purge Hin_purge.
  apply keeps_input. intros typed_confirm Hin_confirm.
  destruct (String.eqb_spec (lower (strip typed_confirm)) "yes") as [Hyes|Hno].
  2:{ eapply keeps_bind; [apply asks_say|]. intros _ _. apply keeps_finish. }
  intros stdin _. unfold sbind, finish, sret.
  apply post_bind. apply post_bind. eapply post_mono; [|apply lift_produces].
  intros r t (b & -> & Hb). exec. rewrite !app_nil_r.
  apply wizard_acted.
  apply (acted_deprovision _ _ api_key (strip typed)
           (String.eqb (lower (strip typed_purge)) "y") b); try done.
  - by apply (in_answers typed_confirm).
  - intros Hp%String.eqb_eq. by apply (in_answers typed_purge).
Qed.

Lemma interactive_details_keeps R lines api_key :
  api_key <> EmptyString -> keeps_to_wizard R lines (interactive_details R api_key).
Proof.
  intros Hk. unfold interactive_details.
  apply keeps_say. apply keeps_input. intros typed_eui _.
  destruct (interactive_gateway_eui typed_eui) as [eui|] eqn:Heui.
  2:{ apply keeps_say, keeps_finish. }
  apply interactive_gateway_eui_checked in Heui.
  apply keeps_input. intros typed_id _.
  apply keeps_input. intros typed_name _.
  do 2 apply keeps_say.
  apply keeps_input. intros typed_type _.
  set (owner_type := if negb _ then "user" else _).
  assert (Htype : owner_type = "user" \/ owner_type = "org").
  { subst owner_type.
    destruct (String.eqb_spec (str_or (lower (strip typed_type)) "user") "user") as [->|];
      [by left|].
    destruct (String.eqb_spec (str_or (lower (strip typed_type)) "user") "org") as [->|];
      [by right|by left]. }
  clearbody owner_type.
  apply keeps_input. intros typed_owner _.
  destruct (String.eqb_spec (strip typed_owner) EmptyString) as [He|Howner].
  { apply keeps_say, keeps_finish. }
  do 2 apply keeps_say.
  apply keeps_input. intros typed_plan _.
  apply keeps_say.
  eapply keeps_bind; [apply interactive_location_asks|].
  intros [[latitude longitude] altitude] _.
  do 3 apply keeps_say.
  apply keeps_input. intros typed_lns _.
  apply keeps_input. intros typed_cups _.
  do 3 apply keeps_say.
  apply keeps_input. intros typed_org _.
  eapply (keeps_bind _ _ (fun _ => True)).
  { destruct (str_truthy _); [|by apply asks_sret].
    eapply asks_bind; [apply asks_input|]. intros ? _. by apply asks_sret. }
  intros fg_site_id _.
  do 9 apply keeps_say.
  eapply (keeps_bind _ _ (fun _ => True)).
  { destruct (match latitude with Some _ => _ | None => _ end);
      [apply asks_say|by apply asks_sret]. }
  intros _ _.
  do 2 apply keeps_say.
  eapply (keeps_bind _ _ (fun _ => True)).
  { destruct (str_truthy _); [apply asks_say|by apply asks_sret]. }
  intros _ _.
  apply keeps_say.
  apply keeps_input. intros typed_confirm _.
  destruct (String.eqb _ "n").
  { apply keeps_say, keeps_finish. }
  apply keeps_say.
  intros stdin _. unfold sbind, sret.
  apply post_bind. eapply post_mono; [|apply lift_produces].
  intros r t (log & -> & Hlog). exec. rewrite app_nil_r.
  apply wizard_acted.
  eapply (acted_provision _ _ api_key); [..|exact Hlog]; by cbn.
Qed.

Lemma interactive_script_keeps R lines api_key :
  keeps_to_wizard R lines (interactive_script R api_key).
Proof.
  unfold interactive_script.
  apply keeps_say.
  eapply keeps_bind; [apply interactive_api_key_asks|]. intros k Hk.
  do 6 apply keeps_say.
  apply keeps_input. intros typed _.
  destruct (String.eqb _ "2"); [by apply interactive_status_keeps|].
  destruct (String.eqb _ "3"); [by apply interactive_deprovision_keeps|].
  by apply interactive_details_keeps.
Qed.

(** Every run of the wizard is one of [wizard]. *)
Lemma interactive_provision_post R api_key stdin :
  post (interactive_provision R api_key stdin) (wizard R stdin).
Proof.
  unfold interactive_provision. apply post_bind.
  eapply post_mono; [|apply (interactive_script_keeps R stdin api_key stdin)]; [|done].
  intros r t Hw. exec. by rewrite app_nil_r.
Qed.

(* ===================================================================== *)
(** * Main *)
(* ===================================================================== *)

Lemma bind_produces {A B} (p : Prog A) (f : A -> B) :
  post (x <- p ;; Ret (f x)) (fun b t => exists a, b = f a /\ produces p a t).
Proof.
  apply post_bind. eapply post_mono; [|apply post_produces].
  intros a t Ha. cbn. exists a. by rewrite app_nil_r.
Qed.

(** [main]: the banner, the API key (the flag, or else the process
    environment), and the mode. *)
Lemma main_post R args stdin :
  post (main R args stdin) (fun r tr =>
    exists key t,
      tr = EvOut (Print [Lit "FrostGuard Gateway Provisioning";
                         Lit "TTN Cross-Cluster • v1.0"])
           :: (if str_truthy (Namespace.api_key args) then []
               else [EvGetenv "TTN_API_KEY" key]) ++ t
      /\ (str_truthy (Namespace.api_key args) = true -> key = Namespace.api_key args)
      /\ dispatched R args stdin key r t).
Proof.
  unfold main, banner. exec. apply post_bind.
  eapply (post_mono _ (fun key t0 =>
            t0 = (if str_truthy (Namespace.api_key args) then []
                  else [EvGetenv "TTN_API_KEY" key])
            /\ (str_truthy (Namespace.api_key args) = true
                -> key = Namespace.api_key args))).
  2:{ destruct (str_truthy (Namespace.api_key args)); exec; [done|].
      intros v. done. }
  intros key t0 [-> Hkey].
  eapply (post_mono _ (fun r t => dispatched R args stdin key r t)).
  { intros r t Hd. exists key, t. done. }
  unfold dispatched, api_key_required, parser_error.
  destruct (interactive_mode args) eqn:Hmode.
  { apply (bind_produces _ Some). }
  destruct (str_truthy key) eqn:Hk; cbn [negb].
  2:{ destruct (str_truthy (Namespace.from_json args)); [|
      destruct (str_truthy (Namespace.status args)); [|
      destruct (str_truthy (Namespace.deprovision args))]];
      exec; (split; [done|by repeat constructor]). }
  destruct (str_truthy (Namespace.from_json args)) eqn:Hj; [apply post_produces|].
  destruct (str_truthy (Namespace.status args)) eqn:Hs; [apply (bind_produces _ Some)|].
  destruct (str_truthy (Namespace.deprovision args)) eqn:Hd.
  { eapply post_mono; [|apply (bind_produces _ (fun _ => Some Returned))].
    intros r t (b & -> & Hb). split; [done|]. by exists b. }
  destruct (str_truthy (Namespace.gateway_eui args)) eqn:Heui; cbn [negb].
  2:{ unfold interactive_mode in Hmode. rewrite Hj, Hs, Hd, Heui in Hmode.
      by rewrite orb_true_r in Hmode. }
  destruct (str_truthy (Namespace.owner_id args)); cbn [negb].
  2:{ exec. split; [done|by repeat constructor]. }
  eapply post_mono; [|apply (bind_produces _ (fun _ => Some Returned))].
  intros r t (log & -> & Hlog). split; [done|]. by exists log.
Qed.

(* ===================================================================== *)
(** * More on the runs of each function *)
(* ===================================================================== *)

Lemma register_call_is_register a : is_register (register_call a) = true.
Proof. unfold register_call. by destruct (String.eqb _ _). Qed.

Lemma target_register_call a : target (register_call a) = Some (JStr (gateway_id a)).
Proof.
  unfold register_call, target, gateway_payload.
  destruct (String.eqb _ _); by rewrite lookup_insert_eq, lookup_insert_eq.
Qed.

Lemma registered_eui_register_call a :
  registered_eui (register_call a) = Some (JStr (gateway_eui a))
  /\ owner_of (register_call a) = Some (owner_id a).
Proof.
  unfold register_call, registered_eui, gateway_payload.
  destruct (String.eqb _ _); cbn;
    by rewrite lookup_insert_eq, lookup_insert_ne, lookup_singleton_eq.
Qed.

Lemma target_later_calls a d1 d2 :
  Forall (fun c => target c = Some (JStr (gateway_id a)) /\ provisioning_call c = true)
         (later_calls a d1 d2).
Proof.
  unfold later_calls, location_calls, lns_calls, cups_calls.
  repeat apply Forall_app_2; repeat case_match; by repeat constructor.
Qed.

(** The shape of the calls of a run, by whether a registration failed. *)
Lemma provision_spec_calls self a log tr :
  provision_spec self a log tr ->
  if halted (calls tr)
  then exists r1 r2,
         calls tr = [(GetGateway (gateway_id a), r1); (register_call a, r2)]
         /\ ok r1 = false /\ ok r2 = false
  else exists pre d1 d2,
         (calls tr).*1 = GetGateway (gateway_id a) :: pre ++ later_calls a d1 d2
         /\ (pre = [] \/ pre = [register_call a] \/ pre = [pointer_update a]).
Proof.
  intros (r1 & rest & r & Hout & Hr).
  assert (Hlater : forall tr2 d1 d2,
            (calls tr2).*1 = later_calls a d1 d2 -> halted (calls tr2) = false).
  { intros tr2 d1 d2 Hl. apply halted_none. rewrite Hl.
    eapply Forall_impl; [apply later_calls_harmless|]. by intros ? [? _]. }
  destruct Hout as [r2 s Ha Hb Hs Hf Hdt | r2 s Ha Hb Hs Hf
                   | r2 s0 s Ha Hdr Hs0 Hf0 Hs Hf | s0 Ha Hdr].
  - destruct Hr as (Hc & _). rewrite Hc. cbn.
    rewrite register_call_is_register, Hb. cbn. by exists r1, r2.
  - destruct Hr as (tr2 & Hc & ((d1 & d2 & Hl) & _) & _). rewrite Hc.
    change ((GetGateway (gateway_id a), r1) :: [(register_call a, r2)] ++ calls tr2)
      with ([(GetGateway (gateway_id a), r1); (register_call a, r2)] ++ calls tr2).
    rewrite halted_app, (Hlater _ _ _ Hl).
    cbn. rewrite register_call_is_register, Hb. cbn.
    exists [register_call a], d1, d2. rewrite ?fmap_cons, Hl. split; [done|]. auto.
  - destruct Hr as (tr2 & Hc & ((d1 & d2 & Hl) & _) & _). rewrite Hc.
    change ((GetGateway (gateway_id a), r1) :: [(pointer_update a, r2)] ++ calls tr2)
      with ([(GetGateway (gateway_id a), r1); (pointer_update a, r2)] ++ calls tr2).
    rewrite halted_app, (Hlater _ _ _ Hl).
    cbn. exists [pointer_update a], d1, d2. rewrite ?fmap_cons, Hl. split; [done|]. auto.
  - destruct Hr as (tr2 & Hc & ((d1 & d2 & Hl) & _) & _). rewrite Hc.
    change ((GetGateway (gateway_id a), r1) :: [] ++ calls tr2)
      with ([(GetGateway (gateway_id a), r1)] ++ calls tr2).
    rewrite halted_app, (Hlater _ _ _ Hl).
    cbn. exists [], d1, d2. rewrite ?fmap_cons, Hl. split; [done|]. auto.
Qed.

(** Every call of a provisioning run is about its gateway and is one of
    those [provision] makes; a registration carries its EUI and owner. *)
Lemma provision_spec_targets self a log tr :
  provision_spec self a log tr ->
  Forall (fun c => target c = Some (JStr (gateway_id a))
                   /\ provisioning_call c = true
                   /\ (is_register c = true ->
                       registered_eui c = Some (JStr (gateway_eui a))
                       /\ owner_of c = Some (owner_id a)))
         (calls tr).*1.
Proof.
  intros H%provision_spec_calls.
  assert (Hreg : target (register_call a) = Some (JStr (gateway_id a))
                 /\ provisioning_call (register_call a) = true
                 /\ (is_register (register_call a) = true ->
                     registered_eui (register_call a) = Some (JStr (gateway_eui a))
                     /\ owner_of (register_call a) = Some (owner_id a))).
  { split; [apply target_register_call|]. split.
    - unfold register_call. by destruct (String.eqb _ _).
    - intros _. apply registered_eui_register_call. }
  assert (Hlater : forall d1 d2,
    Forall (fun c => target c = Some (JStr (gateway_id a))
                     /\ provisioning_call c = true
                     /\ (is_register c = true ->
                         registered_eui c = Some (JStr (gateway_eui a))
                         /\ owner_of c = Some (owner_id a)))
           (later_calls a d1 d2)).
  { intros d1 d2.
    pose proof (target_later_calls a d1 d2) as H1.
    pose proof (later_calls_harmless a d1 d2) as H2.
    rewrite Forall_forall in H1, H2. apply Forall_forall. intros c Hc.
    destruct (H1 c Hc) as [? ?], (H2 c Hc) as [? _].
    split; [done|]. split; [done|]. congruence. }
  destruct (halted _).
  - destruct H as (r1 & r2 & -> & _). cbn [fmap list_fmap fst].
    constructor; [done|]. by constructor.
  - destruct H as (pre & d1 & d2 & -> & Hpre). constructor; [done|].
    apply Forall_app. split; [|apply Hlater].
    destruct Hpre as [-> | [-> | ->]]; [constructor|by constructor|].
    by repeat constructor.
Qed.

Lemma deprovision_leaves_nothing api_key gid purge :
  post (deprovision_gateway api_key gid purge) (fun _ tr => leaves_nothing api_key tr).
Proof.
  unfold deprovision_gateway. exec. intros raw1. cbn [TTNClient.api_key].
  destruct (ok _); cbn [negb]; exec; [|leaves_nothing].
  intros raw2. destruct (_ || _); exec; [|leaves_nothing].
  destruct purge; exec.
  - intros raw3. destruct (_ || _); exec; [|leaves_nothing].
    intros raw4. destruct (status _ =? 404); exec; leaves_nothing.
  - intros raw4. destruct (status _ =? 404); exec; leaves_nothing.
Qed.

Lemma post_result_bind {A B} (m : Prog A) (f : A -> Prog B) (P : B -> Prop) :
  (forall a, post (f a) (fun b _ => P b)) -> post (bind m f) (fun b _ => P b).
Proof.
  intros Hf. apply post_bind.
  induction m as [a | X e k IH | o k IH]; cbn.
  - apply Hf.
  - intros x. apply IH.
  - apply IH.
Qed.

Lemma key_lines_end R ks : post (key_lines R ks) (fun e _ => status_end e).
Proof.
  induction ks as [|k ks IH]; [by left|].
  cbn [key_lines]. destruct k as [ | | | | |d]; exec;
    try (right; by right).
  destruct (join_value R ", " (get d "rights" (JArr []))) as [e|rights] eqn:Hj; exec.
  - unfold join_value in Hj. repeat case_match; simplify_eq; right; by left.
  - apply IH.
Qed.

(** A status check returns, or raises on a key listing it cannot go
    through. *)
Lemma check_gateway_status_end R api_key gid :
  post (check_gateway_status R api_key gid) (fun e _ => status_end e).
Proof.
  unfold check_gateway_status. exec. intros raw1.
  destruct (ok (TTNClient.response_of raw1)); exec; [|by left].
  apply post_result_bind. intros _. exec. intros raw2. exec.
  apply post_result_bind. intros _. exec. intros raw3. exec.
  destruct (ok (TTNClient.response_of raw3)); exec; [|by left].
  destruct (len _); exec; [|right; by left].
  apply post_bind. eapply post_mono; [|apply key_lines_end].
  intros e t He. destruct e; exec; [by left|done..].
Qed.

(** ** Strings *)






(* ===================================================================== *)
(** * Where the keys go *)
(* ===================================================================== *)













(* ===================================================================== *)
(** * What [_record] shows *)
(* ===================================================================== *)

Lemma agree_nil self : agree self self [].
Proof. exists []. by rewrite app_nil_r. Qed.












(* ===================================================================== *)
(** * Where the requests go *)
(* ===================================================================== *)


(* ===================================================================== *)
(** * More on provisioning runs *)
(* ===================================================================== *)

(** Property X1.  A provisioning run stays with its gateway and its key:
    every request carries the API key of the provisioner, every call is
    about the gateway id of the run (for the registration, the id in the
    payload), and no call deletes, purges or lists keys, whatever the
    services answer. *)
Theorem provision_stays_with_its_gateway E w self a :
  let o := run E (provision self a) w in
  Forall (sent_with (TTNClient.api_key (client self))) (trace o)
  /\ Forall (fun c => target c = Some (JStr (gateway_id a))
                      /\ provisioning_call c = true) (calls (trace o)).*1.
Proof.
  intros o.
  destruct (produces_provision _ _ _ _ (run_produces E (provision self a) w))
    as (Hspec & Hk & _).
  split; [done|].
  eapply Forall_impl; [apply (provision_spec_targets _ _ _ _ Hspec)|].
  by intros c (? & ? & _).
Qed.








(** Property X7.  [_store_in_supabase] needs its configuration.  It
    returns [True] exactly when the database answered an upsert with data.
    It creates a client only with both environment variables set and not
    empty, and upserts only through a client that was created; the row goes
    to the table [gateways], with the organisation and the EUI as conflict
    target, and is the row of this gateway, with the status [pending] and
    a site only if one is named.  It makes no request to TTN and writes no
    file. *)
Theorem store_in_supabase_needs_its_configuration E w gid eui nm org site plan :
  let o := run E (_store_in_supabase gid eui nm org site plan) w in
  result o = was_stored (trace o)
  /\ calls (trace o) = [] /\ written_files (trace o) = []
  /\ (forall u k r, EvCreateClient u k r ∈ trace o ->
        u <> EmptyString /\ k <> EmptyString
        /\ EvGetenv "SUPABASE_URL" (Some u) ∈ trace o
        /\ EvGetenv "SUPABASE_SERVICE_ROLE_KEY" (Some k) ∈ trace o)
  /\ (forall t d c r, EvUpsert t d c r ∈ trace o ->
        t = "gateways" /\ c = "organization_id,gateway_eui"
        /\ is_row gid eui nm org site d
        /\ exists u k, EvCreateClient u k ClientOk ∈ trace o).
Proof.
  intros o.
  destruct (post_run _ _ (store_in_supabase_footprint gid eui nm org site plan) E w)
    as ((Hc & Hf & _) & Hb & Hclient & Hupsert).
  split; [exact Hb|]. split; [exact Hc|]. split; [exact Hf|].
  split; [exact Hclient|exact Hupsert].
Qed.

(* ===================================================================== *)
(** * The keys on the console *)
(* ===================================================================== *)


(* ===================================================================== *)
(** * Failures on the console and in the log *)
(* ===================================================================== *)


(* ===================================================================== *)
(** * The two clusters *)
(* ===================================================================== *)


(* ===================================================================== *)
(** * More on deprovisioning runs *)
(* ===================================================================== *)

(** Property X11.  A deprovisioning run stays with its gateway: every
    request carries the API key it was given, every call reads, deletes or
    purges that gateway, a purge is called only when it was asked for, and
    the run writes no file and asks nothing of the process environment or
    the database. *)
Theorem deprovision_stays_with_its_gateway E w api_key gateway_id purge :
  let o := run E (deprovision_gateway api_key gateway_id purge) w in
  leaves_nothing api_key (trace o)
  /\ Forall (fun c => c = GetGateway gateway_id \/ c = DeleteGateway gateway_id
                      \/ (purge = true /\ c = PurgeGateway gateway_id))
            (calls (trace o)).*1.
Proof.
  intros o. split; [apply (post_run _ _ (deprovision_leaves_nothing api_key gateway_id purge))|].
  destruct (post_run _ _ (deprovision_post api_key gateway_id purge) E w) as [Hout _].
  fold o in Hout.
  remember (calls (trace o)) as cs. remember (result o) as b.
  destruct Hout; cbn;
    repeat (apply Forall_cons_2;
            [first [by left | right; by left | right; right; by split]|]);
    apply Forall_nil_2.
Qed.

(** Property X12.  What [deprovision_gateway] returns.  The value is [True]
    exactly when the gateway was read at entry and every delete and purge
    of the run went through (an answer that is ok, or has status 200); the
    run then ended with the read that verifies the removal, and the answer
    to that read does not change the value. *)
Theorem deprovision_succeeds_when_the_deletes_went_through
    E w api_key gateway_id purge :
  let o := run E (deprovision_gateway api_key gateway_id purge) w in
  let cs := calls (trace o) in
  exists r1,
    head cs = Some (GetGateway gateway_id, r1)
    /\ result o
       = ok r1 && forallb (fun cr => negb (is_delete cr.1 || is_purge cr.1)
                                     || went_through cr.2) cs
    /\ (result o = true ->
        length cs = (if purge then 4 else 3)%nat
        /\ exists r, last cs = Some (GetGateway gateway_id, r)).
Proof.
  intros o cs.
  destruct (post_run _ _ (deprovision_post api_key gateway_id purge) E w) as [Hout _].
  fold o in Hout. fold cs in Hout.
  remember (result o) as b.
  destruct Hout as [r1 H1 | r1 r2 H1 H2 | r1 r2 r3 -> H1 H2 H3
                   | r1 r2 r3 r4 -> H1 H2 H3 | r1 r2 r4 -> H1 H2];
    exists r1; cbn; rewrite ?H1, ?H2, ?H3; cbn; (split; [done|]); (split; [done|]);
    try done; intros _; split; [done|by eexists|done|by eexists].
Qed.

(* ===================================================================== *)
(** * The status check *)
(* ===================================================================== *)

(** Property X13.  A status check only reads.  It makes one read of the
    record, and stops there, with a line that says so, when the record is
    not found; otherwise it goes on to the connection query and the key
    listing, whatever the connection query answers.  Every request carries
    the API key it was given; nothing is written, and nothing is asked of
    the process environment or the database. *)
Theorem status_check_only_reads E w R api_key gateway_id :
  let o := run E (check_gateway_status R api_key gateway_id) w in
  leaves_nothing api_key (trace o)
  /\ exists r1,
       head (calls (trace o)) = Some (GetGateway gateway_id, r1)
       /\ if ok r1
          then (calls (trace o)).*1 = status_calls gateway_id
          else calls (trace o) = [(GetGateway gateway_id, r1)]
               /\ result o = Returned
               /\ last (console (trace o))
                  = Some (FAIL, "EU1",
                          [Lit "Not found ("; FInt (status r1); Lit ")"]).
Proof.
  intros o.
  destruct (post_run _ _ (check_gateway_status_post R api_key gateway_id) E w)
    as (Hn & r1 & Hhead & Hcalls & _).
  split; [done|]. exists r1. split; [done|].
  destruct (ok r1); [|done].
  destruct Hcalls as (r2 & r3 & Hc & _). fold o in Hc. by rewrite Hc.
Qed.

(** Property X14.  The status check flags a wrong pointer, and only that:
    the warning about [gateway_server_address] is shown exactly when the
    record was read and its pointer is not the NAM1 host, which is the test
    by which [provision] decides to update the pointer. *)
Theorem status_check_flags_a_wrong_pointer E w R api_key gateway_id :
  let o := run E (check_gateway_status R api_key gateway_id) w in
  exists r1,
    head (calls (trace o)) = Some (GetGateway gateway_id, r1)
    /\ filter is_pointer_warning (console (trace o))
       = if ok r1 && drifted r1
         then [(WARN, "EU1",
                [Lit "⚠ gateway_server_address should be '"; Lit NAM1_HOST;
                 Lit "' but is '";
                 FVal (get (body r1) "gateway_server_address" (JStr EmptyString));
                 Lit "'"])]
         else [].
Proof.
  intros o.
  destruct (post_run _ _ (check_gateway_status_post R api_key gateway_id) E w)
    as (_ & r1 & Hhead & _ & Hwarn).
  by exists r1.
Qed.

(** Property X15.  The status check shows every key.  When the listing is
    answered with a list of keys that are objects whose rights, if any, are
    lists of strings, the check returns, and the console ends with the
    number of keys and one line for each, in order, with its name and its
    rights; when the listing fails, the check returns as well. *)
Theorem status_check_shows_every_key E w R api_key gateway_id :
  let o := run E (check_gateway_status R api_key gateway_id) w in
  forall r3,
    (ListGatewayApiKeys gateway_id, r3) ∈ calls (trace o) ->
    keys_shown (result o) r3 (console (trace o)).
Proof.
  intros o r3 Hin.
  destruct (post_run _ _ (check_gateway_status_post R api_key gateway_id) E w)
    as (_ & r1 & _ & Hcalls & _).
  fold o in Hcalls. destruct (ok r1).
  - destruct Hcalls as (r2 & r3' & Hc & Hk). rewrite Hc in Hin.
    in_trace. by simplify_eq.
  - destruct Hcalls as (Hc & _). rewrite Hc in Hin. by in_trace.
Qed.

(* ===================================================================== *)
(** * Batches *)
(* ===================================================================== *)




(* ===================================================================== *)
(** * The wizard *)
(* ===================================================================== *)

Lemma questions_quiet api_key t :
  Forall (fun ev => is_question ev = true) t ->
  calls t = [] /\ written_files t = [] /\ written_logs t = []
  /\ Forall (sent_with api_key) t.
Proof.
  induction 1 as [|ev t Hev _ (Hc & Hf & Hl & Hk)]; [done|].
  destruct ev as [ | | | | |[]]; try done; cbn;
    (repeat split; try done; by constructor).
Qed.

(** Property X18.  The wizard asks before it acts.  When the standard
    input ends before the wizard has its answers, [EOFError] escapes and
    nothing was done: the trace holds questions only, so no request was
    made and no file written. *)
Theorem wizard_asks_before_it_acts E w R api_key stdin :
  let o := run E (interactive_provision R api_key stdin) w in
  result o = Raised EOFError ->
  Forall (fun ev => is_question ev = true) (trace o)
  /\ calls (trace o) = [] /\ written_files (trace o) = []
  /\ written_logs (trace o) = [].
Proof.
  intros o He.
  assert (Hq : Forall (fun ev => is_question ev = true) (trace o)).
  { destruct (post_run _ _ (interactive_provision_post R api_key stdin) E w)
      as (t1 & t2 & Htr & Hq & Hact).
    fold o in Htr, Hact. rewrite Htr. rewrite He in Hact.
    inversion Hact as [e Hend | k g e t Hk Hg Hp | | ]; subst.
    - by rewrite app_nil_r.
    - destruct (produces_post _ _ _ _ (check_gateway_status_end R k g) Hp)
        as [|[|]]; done. }
  split; [done|]. destruct (questions_quiet EmptyString _ Hq) as (? & ? & ? & _).
  done.
Qed.





(* ===================================================================== *)
(** * Main *)
(* ===================================================================== *)

(** Property X22.  Without an API key, no mode but the wizard does
    anything.  When no key is given on the command line and the process
    environment has none (or an empty one), [main] shows one line and exits
    with status 1, before any request is made or any file written. *)
Theorem main_needs_an_api_key E w R args stdin :
  let o := run E (main R args stdin) w in
  interactive_mode args = false ->
  str_truthy (Namespace.api_key args) = false ->
  (forall v, EvGetenv "TTN_API_KEY" v ∈ trace o -> str_truthy v = false) ->
  result o = Some (Exited 1)
  /\ calls (trace o) = [] /\ written_files (trace o) = []
  /\ written_logs (trace o) = [].
Proof.
  intros o Hmode Hflag Henv.
  destruct (post_run _ _ (main_post R args stdin) E w)
    as (key & t & Htr & _ & Hd).
  fold o in Htr, Hd. rewrite Hflag in Htr.
  unfold dispatched in Hd. rewrite Hmode in Hd.
  rewrite (Henv key) in Hd
    by (rewrite Htr; apply list_elem_of_further, list_elem_of_here).
  cbn [negb] in Hd. destruct Hd as [Hr Hp]. split; [done|].
  rewrite Htr. cbn.
  by destruct (only_prints_quiet EmptyString t Hp) as (? & ? & ? & _).
Qed.

(** Property X23.  In status mode [main] changes nothing: whatever the
    other flags say, every call is one of the three reads of the gateway
    named by [--status], and no file is written. *)
Theorem main_status_changes_nothing E w R args stdin gateway_id :
  let o := run E (main R args stdin) w in
  interactive_mode args = false ->
  str_truthy (Namespace.from_json args) = false ->
  Namespace.status args = Some gateway_id -> gateway_id <> EmptyString ->
  Forall (fun c => c ∈ status_calls gateway_id) (calls (trace o)).*1
  /\ written_files (trace o) = [] /\ written_logs (trace o) = [].
Proof.
  intros o Hmode Hjson Hstatus Hgid.
  destruct (post_run _ _ (main_post R args stdin) E w)
    as (key & t & Htr & _ & Hd).
  fold o in Htr, Hd.
  assert (Hq : Forall (fun ev => is_question ev = true)
                 (if str_truthy (Namespace.api_key args) then []
                  else [EvGetenv "TTN_API_KEY" key]))
    by (destruct (str_truthy (Namespace.api_key args)); by repeat constructor).
  destruct (questions_quiet EmptyString _ Hq) as (Hc0 & Hf0 & Hl0 & _).
  rewrite Htr. cbn [calls written_files written_logs].
  rewrite calls_app, written_files_app, written_logs_app, Hc0, Hf0, Hl0.
  cbn [app].
  unfold dispatched in Hd. rewrite Hmode, Hjson, Hstatus in Hd.
  assert (str_truthy (Some gateway_id) = true) as Ht
    by (cbn; by destruct (String.eqb_spec gateway_id EmptyString)).
  rewrite Ht in Hd. cbn [default] in Hd.
  destruct (str_truthy key); cbn [negb] in Hd.
  - destruct Hd as (e & _ & Hp).
    destruct (produces_post _ _ _ _ (check_gateway_status_post R _ _) Hp)
      as ((_ & Hf & Hl & _) & r1 & _ & Hcalls & _).
    split; [|done]. unfold status_calls.
    destruct (ok r1).
    + destruct Hcalls as (r2 & r3 & -> & _). cbn [fmap list_fmap fst].
      repeat (apply Forall_cons_2; [set_solver|]). apply Forall_nil_2.
    + destruct Hcalls as (-> & _). cbn [fmap list_fmap fst].
      repeat (apply Forall_cons_2; [set_solver|]). apply Forall_nil_2.
  - destruct Hd as [_ Hp].
    by destruct (only_prints_quiet EmptyString t Hp) as (-> & -> & -> & _).
Qed.


(** Property X25.  Direct provisioning needs an owner.  With an EUI and an
    API key but no [--owner-id], [main] leaves through [parser.error], with
    status 2, before any request is made or any file written. *)
Theorem main_needs_an_owner E w R args stdin :
  let o := run E (main R args stdin) w in
  interactive_mode args = false ->
  str_truthy (Namespace.from_json args) = false ->
  str_truthy (Namespace.status args) = false ->
  str_truthy (Namespace.deprovision args) = false ->
  str_truthy (Namespace.api_key args) = true ->
  str_truthy (Namespace.owner_id args) = false ->
  result o = Some (Exited 2)
  /\ calls (trace o) = [] /\ written_files (trace o) = []
  /\ written_logs (trace o) = [].
Proof.
  intros o Hmode Hjson Hstatus Hdep Hkey Howner.
  destruct (post_run _ _ (main_post R args stdin) E w)
    as (key & t & Htr & Hk & Hd).
  fold o in Htr, Hd. rewrite Hkey in Htr. cbn [app] in Htr.
  unfold dispatched in Hd.
  rewrite Hmode, Hjson, Hstatus, Hdep, Howner, (Hk Hkey), Hkey in Hd.
  cbn [negb] in Hd. destruct Hd as (Hr & Hp).
  split; [done|]. rewrite Htr. cbn.
  by destruct (only_prints_quiet EmptyString t Hp) as (? & ? & ? & _).
Qed.

(* ===================================================================== *)
(** * The gateway id and the EUI *)
(* ===================================================================== *)



(* ===================================================================== *)
(** * Removing and registering again *)
(* ===================================================================== *)


(* ===================================================================== *)
(** * More theorems at concrete inputs *)
(* ===================================================================== *)

Lemma status_check_shows_every_key_witness :
  let o := run scripted
             (check_gateway_status bare_runtime "NNSXS.KEY" "fg-gw-a00009ef")
             status_answers in
  (ListGatewayApiKeys "fg-gw-a00009ef", TTNClient.response_of key_listing)
    ∈ calls (trace o)
  /\ keys_shown (result o) (TTNClient.response_of key_listing) (console (trace o)).
Proof.
  assert (H : (ListGatewayApiKeys "fg-gw-a00009ef", TTNClient.response_of key_listing)
              ∈ calls (trace (run scripted
                                (check_gateway_status bare_runtime "NNSXS.KEY"
                                   "fg-gw-a00009ef")
                                status_answers))).
  { do 2 apply list_elem_of_further. apply list_elem_of_here. }
  split; [exact H|].
  exact (status_check_shows_every_key scripted status_answers bare_runtime
           "NNSXS.KEY" "fg-gw-a00009ef" _ H).
Defined.



Lemma wizard_asks_before_it_acts_witness :
  let o := run scripted
             (interactive_provision bare_runtime (Some "NNSXS.KEY")
                ["3"; "fg-gw-a00009ef"])
             [] in
  result o = Raised EOFError
  /\ Forall (fun ev => is_question ev = true) (trace o)
  /\ calls (trace o) = [] /\ written_files (trace o) = []
  /\ written_logs (trace o) = [].
Proof.
  split; [vm_compute; reflexivity|].
  apply (wizard_asks_before_it_acts scripted [] bare_runtime (Some "NNSXS.KEY")
           ["3"; "fg-gw-a00009ef"]).
  vm_compute. reflexivity.
Defined.



Lemma main_needs_an_api_key_witness :
  let o := run scripted (main bare_runtime status_flags []) status_answers in
  result o = Some (Exited 1)
  /\ calls (trace o) = [] /\ written_files (trace o) = []
  /\ written_logs (trace o) = [].
Proof.
  apply (main_needs_an_api_key scripted status_answers bare_runtime status_flags []).
  - reflexivity.
  - reflexivity.
  - intros v Hv.
    apply elem_of_cons in Hv as [Hv|Hv]; [discriminate Hv|].
    apply elem_of_cons in Hv as [Hv|Hv]; [by injection Hv as ->|].
    apply elem_of_cons in Hv as [Hv|Hv]; [discriminate Hv|].
    by apply elem_of_nil in Hv.
Defined.

Lemma main_status_changes_nothing_witness :
  let o := run scripted (main bare_runtime keyed_status_flags []) status_answers in
  Forall (fun c => c ∈ status_calls "fg-gw-a00009ef") (calls (trace o)).*1
  /\ written_files (trace o) = [] /\ written_logs (trace o) = [].
Proof.
  apply (main_status_changes_nothing scripted status_answers bare_runtime
           keyed_status_flags [] "fg-gw-a00009ef").
  - reflexivity.
  - reflexivity.
  - reflexivity.
  - discriminate.
Defined.


Lemma main_needs_an_owner_witness :
  let o := run scripted (main bare_runtime flags_without_owner []) [] in
  result o = Some (Exited 2)
  /\ calls (trace o) = [] /\ written_files (trace o) = []
  /\ written_logs (trace o) = [].
Proof.
  apply (main_needs_an_owner scripted [] bare_runtime flags_without_owner []);
    reflexivity.
Defined.


